(** * Electric-vehicle data warehouse ETL: a shallow embedding of
      [q3/etl_script.py] and the properties of its pipeline.

    The script reads a table of vehicle registrations, cleans it, builds a
    star schema (four dimension tables and one fact table) and loads it into
    a relational store.  Tables are lists of typed rows; the methods of the
    class [EVDataETL] are computations in a state-and-exception monad over
    the fields of the object; the store is a finite map from table names to
    tables.  Text written to standard output is not modelled, except for the
    summary report, which is returned as a value. *)

From Stdlib Require Import ZArith QArith String Ascii List Lia.
From stdpp Require Import base tactics option list gmap strings fin_maps.

Local Open Scope string_scope.
Local Open Scope Z_scope.
Local Open Scope list_scope.

(* ===================================================================== *)
(** * Exceptions and the state-and-exception monad                        *)
(* ===================================================================== *)

(** The exception classes the script can raise.  The stage guards raise
    Python's [ValueError]; a missing column is a [KeyError]; an attribute
    missing on a non-string cell is an [AttributeError]; [OperationalError]
    is SQLite's and [RequestException] the download's. *)
Inductive exn : Type :=
  | ValueError (msg : string)
  | KeyError (key : string)
  | TypeError (msg : string)
  | AttributeError (msg : string)
  | ZeroDivisionError (msg : string)
  | OperationalError (msg : string)
  | RequestException (msg : string).

Inductive Result (A : Type) : Type :=
  | Ok (a : A)
  | Raise (e : exn).
Arguments Ok {A} a.
Arguments Raise {A} e.

(** A computation on a mutable state [S]: it returns a value or raises, and
    in both cases leaves a state behind (what was assigned before a [raise]
    stays assigned). *)
Definition M (S A : Type) : Type := S -> Result A * S.

Definition ret {S A} (a : A) : M S A := fun s => (Ok a, s).

Definition bind {S A B} (m : M S A) (k : A -> M S B) : M S B :=
  fun s => match m s with
           | (Ok a, s') => k a s'
           | (Raise e, s') => (Raise e, s')
           end.

Definition raise {S A} (e : exn) : M S A := fun s => (Raise e, s).
Definition get {S} : M S S := fun s => (Ok s, s).
Definition put {S} (s : S) : M S unit := fun _ => (Ok tt, s).
Definition modify {S} (f : S -> S) : M S unit := fun s => (Ok tt, f s).

(** [try: body / except: pass]. *)
Definition try_pass {S} (body : M S unit) : M S unit :=
  fun s => match body s with
           | (Ok _, s') => (Ok tt, s')
           | (Raise _, s') => (Ok tt, s')
           end.

(** [try: body / except Exception: raise]: the handler of [extract_data] and
    of [main] prints and re-raises. *)
Definition try_reraise {S A} (body : M S A) : M S A := body.

#[global] Instance M_ret {S} : MRet (M S) := fun A a => ret a.
#[global] Instance M_bind {S} : MBind (M S) := fun A B k m => bind m k.

(** The name of the class of an exception, as Python prints it. *)
Definition class_name (e : exn) : string :=
  match e with
  | ValueError _ => "ValueError"
  | KeyError _ => "KeyError"
  | TypeError _ => "TypeError"
  | AttributeError _ => "AttributeError"
  | ZeroDivisionError _ => "ZeroDivisionError"
  | OperationalError _ => "OperationalError"
  | RequestException _ => "RequestException"
  end.

(* ===================================================================== *)
(** * Python strings                                                      *)
(* ===================================================================== *)

Module Py.

(** [s.replace(old, new)] for a non-empty [old]: occurrences are replaced
    from left to right, without overlap.  [skip] counts the characters of
    a matched occurrence still to be passed over. *)
Fixpoint replace_from (old new : string) (skip : nat) (s : string) : string :=
  match s with
  | EmptyString => EmptyString
  | String c t =>
      match skip with
      | S k => replace_from old new k t
      | O =>
          if String.prefix old s
          then new +:+ replace_from old new (String.length old - 1) t
          else String c (replace_from old new 0 t)
      end
  end.

Definition str_replace (old new s : string) : string := replace_from old new 0 s.

(** The ASCII characters for which [str.isspace] holds. *)
Definition is_space (c : ascii) : bool :=
  let n := Z.of_N (N_of_ascii c) in
  ((n =? 32) || ((9 <=? n) && (n <=? 13)) || ((28 <=? n) && (n <=? 31)))%Z.

(** [s.split()]: split on runs of whitespace, no empty tokens. *)
Fixpoint split_from (tok : string) (s : string) : list string :=
  match s with
  | EmptyString => if String.eqb tok EmptyString then [] else [tok]
  | String c t =>
      if is_space c
      then (if String.eqb tok EmptyString then split_from EmptyString t else tok :: split_from EmptyString t)
      else split_from (tok +:+ String c EmptyString) t
  end.

Definition str_split (s : string) : list string := split_from EmptyString s.

(** [s.strip()], on the list of characters. *)
Fixpoint drop_space (l : list ascii) : list ascii :=
  match l with
  | c :: t => if is_space c then drop_space t else l
  | [] => []
  end.

Definition strip (l : list ascii) : list ascii :=
  rev (drop_space (rev (drop_space l))).

(** ** [float(s)]

    A finite result is kept as the rational its decimal literal denotes (the
    binary64 value Python holds is that rational rounded; rounding and
    overflow are not modelled).  Only ASCII input is considered. *)
Inductive pyfloat : Type :=
  | Finite (q : Q)
  | Inf (negative : bool)
  | Nan.

Definition digit_val (c : ascii) : option Z :=
  let n := Z.of_N (N_of_ascii c) in
  if ((48 <=? n) && (n <=? 57))%Z then Some (n - 48) else None.

Definition is_char (c : ascii) (n : Z) : bool := (Z.of_N (N_of_ascii c) =? n)%Z.

(** The tail of a [digitpart]: digits, each optionally preceded by a single
    underscore.  Returns the value, the number of digits and the rest. *)
Fixpoint digitpart_rest (acc : Z) (cnt : nat) (l : list ascii) : Z * nat * list ascii :=
  match l with
  | [] => (acc, cnt, [])
  | c :: t =>
      match digit_val c with
      | Some d => digitpart_rest (10 * acc + d) (S cnt) t
      | None =>
          if is_char c 95 then
            match t with
            | c2 :: t2 =>
                match digit_val c2 with
                | Some d => digitpart_rest (10 * acc + d) (S cnt) t2
                | None => (acc, cnt, l)
                end
            | [] => (acc, cnt, l)
            end
          else (acc, cnt, l)
      end
  end.

Definition digitpart (l : list ascii) : option (Z * nat * list ascii) :=
  match l with
  | c :: t =>
      match digit_val c with
      | Some d => Some (digitpart_rest d 1 t)
      | None => None
      end
  | [] => None
  end.

(** An optional sign: [true] when negative. *)
Definition sign (l : list ascii) : bool * list ascii :=
  match l with
  | c :: t => if is_char c 45 then (true, t)
              else if is_char c 43 then (false, t) else (false, l)
  | [] => (false, [])
  end.

Definition lower (c : ascii) : ascii :=
  let n := N_of_ascii c in
  if ((65 <=? n) && (n <=? 90))%N then ascii_of_N (n + 32) else c.

(** [exponent ::= ("e" | "E") [sign] digitpart], up to the end of the input;
    an empty input is exponent 0. *)
Definition exponent (l : list ascii) : option Z :=
  match l with
  | [] => Some 0
  | c :: t =>
      if is_char (lower c) 101 then
        let '(neg, t1) := sign t in
        match digitpart t1 with
        | Some (e, _, []) => Some (if neg then - e else e)
        | _ => None
        end
      else None
  end.

(** [m * 10^k] as a rational. *)
Definition scale10 (m k : Z) : Q :=
  if (0 <=? k)%Z then Qmake (m * 10 ^ k) 1 else Qmake m (Z.to_pos (10 ^ (- k))).

(** [floatnumber ::= digitpart ["." [digitpart]] [exponent]
                   | "." digitpart [exponent]]. *)
Definition floatnumber (l : list ascii) : option Q :=
  match digitpart l with
  | Some (ip, _, r1) =>
      match r1 with
      | c :: r2 =>
          if is_char c 46 then
            match digitpart r2 with
            | Some (fp, nf, r3) =>
                match exponent r3 with
                | Some e => Some (scale10 (ip * 10 ^ Z.of_nat nf + fp) (e - Z.of_nat nf))
                | None => None
                end
            | None =>
                match exponent r2 with
                | Some e => Some (scale10 ip e)
                | None => None
                end
            end
          else
            match exponent r1 with
            | Some e => Some (scale10 ip e)
            | None => None
            end
      | [] => Some (scale10 ip 0)
      end
  | None =>
      match l with
      | c :: r2 =>
          if is_char c 46 then
            match digitpart r2 with
            | Some (fp, nf, r3) =>
                match exponent r3 with
                | Some e => Some (scale10 fp (e - Z.of_nat nf))
                | None => None
                end
            | None => None
            end
          else None
      | [] => None
      end
  end.

(** [float(s)]: [None] stands for the [ValueError] Python raises. *)
Definition float (s : string) : option pyfloat :=
  let '(neg, body) := sign (strip (list_ascii_of_string s)) in
  let word := string_of_list_ascii (map lower body) in
  if String.eqb word "inf" || String.eqb word "infinity" then Some (Inf neg)
  else if String.eqb word "nan" then Some Nan
  else match floatnumber body with
       | Some q => Some (Finite (if neg then Qopp q else q))
       | None => None
       end.

End Py.

(* ===================================================================== *)
(** * [hashlib.md5]                                                       *)
(* ===================================================================== *)

Module MD5.

Definition mask32 : Z := 4294967295.
Definition add32 (a b : Z) : Z := Z.land (a + b) mask32.
Definition not32 (a : Z) : Z := Z.lxor a mask32.
Definition rotl32 (x : Z) (c : Z) : Z :=
  Z.lor (Z.land (Z.shiftl x c) mask32) (Z.shiftr x (32 - c)).

(** Per-round shift amounts. *)
Definition shifts : list Z :=
  [7; 12; 17; 22; 7; 12; 17; 22; 7; 12; 17; 22; 7; 12; 17; 22;
   5; 9; 14; 20; 5; 9; 14; 20; 5; 9; 14; 20; 5; 9; 14; 20;
   4; 11; 16; 23; 4; 11; 16; 23; 4; 11; 16; 23; 4; 11; 16; 23;
   6; 10; 15; 21; 6; 10; 15; 21; 6; 10; 15; 21; 6; 10; 15; 21].

(** [K[i] = floor(2^32 * abs(sin(i + 1)))]. *)
Definition K : list Z :=
  [0xd76aa478; 0xe8c7b756; 0x242070db; 0xc1bdceee;
   0xf57c0faf; 0x4787c62a; 0xa8304613; 0xfd469501;
   0x698098d8; 0x8b44f7af; 0xffff5bb1; 0x895cd7be;
   0x6b901122; 0xfd987193; 0xa679438e; 0x49b40821;
   0xf61e2562; 0xc040b340; 0x265e5a51; 0xe9b6c7aa;
   0xd62f105d; 0x02441453; 0xd8a1e681; 0xe7d3fbc8;
   0x21e1cde6; 0xc33707d6; 0xf4d50d87; 0x455a14ed;
   0xa9e3e905; 0xfcefa3f8; 0x676f02d9; 0x8d2a4c8a;
   0xfffa3942; 0x8771f681; 0x6d9d6122; 0xfde5380c;
   0xa4beea44; 0x4bdecfa9; 0xf6bb4b60; 0xbebfbc70;
   0x289b7ec6; 0xeaa127fa; 0xd4ef3085; 0x04881d05;
   0xd9d4d039; 0xe6db99e5; 0x1fa27cf8; 0xc4ac5665;
   0xf4292244; 0x432aff97; 0xab9423a7; 0xfc93a039;
   0x655b59c3; 0x8f0ccc92; 0xffeff47d; 0x85845dd1;
   0x6fa87e4f; 0xfe2ce6e0; 0xa3014314; 0x4e0811a1;
   0xf7537e82; 0xbd3af235; 0x2ad7d2bb; 0xeb86d391].

(** Little-endian bytes of a number. *)
Fixpoint le_bytes (n : nat) (x : Z) : list Z :=
  match n with
  | O => []
  | S k => Z.land x 255 :: le_bytes k (Z.shiftr x 8)
  end.

Fixpoint le_word (bs : list Z) : Z :=
  match bs with
  | [] => 0
  | b :: t => b + 256 * le_word t
  end.

(** The message followed by the bit 1, zero bytes up to 56 modulo 64, and
    the bit length on 8 bytes. *)
Definition pad (msg : list Z) : list Z :=
  let len := Z.of_nat (length msg) in
  let zeros := Z.to_nat ((55 - len) mod 64) in
  msg ++ [128] ++ repeat 0 zeros ++ le_bytes 8 ((8 * len) mod 2 ^ 64).

(** The words of a message, four bytes each. *)
Fixpoint words (n : nat) (bs : list Z) : list Z :=
  match n with
  | O => []
  | S k => le_word (take 4 bs) :: words k (drop 4 bs)
  end.

Definition round (block : list Z) (st : Z * Z * Z * Z) (i : nat) : Z * Z * Z * Z :=
  let '(a, b, c, d) := st in
  let zi := Z.of_nat i in
  let '(f, g) :=
    if zi <? 16 then (Z.lor (Z.land b c) (Z.land (not32 b) d), zi)
    else if zi <? 32 then (Z.lor (Z.land d b) (Z.land (not32 d) c), (5 * zi + 1) mod 16)
    else if zi <? 48 then (Z.lxor (Z.lxor b c) d, (3 * zi + 5) mod 16)
    else (Z.lxor c (Z.lor b (not32 d)), (7 * zi) mod 16) in
  let f' := add32 (add32 (add32 f a) (nth i K 0)) (nth (Z.to_nat g) block 0) in
  (d, add32 b (rotl32 f' (nth i shifts 0)), b, c).

Definition compress (st : Z * Z * Z * Z) (block : list Z) : Z * Z * Z * Z :=
  let '(a0, b0, c0, d0) := st in
  let '(a, b, c, d) := fold_left (round block) (seq 0 64) st in
  (add32 a0 a, add32 b0 b, add32 c0 c, add32 d0 d).

Fixpoint blocks (n : nat) (bs : list Z) : list (list Z) :=
  match n with
  | O => []
  | S k => words 16 (take 64 bs) :: blocks k (drop 64 bs)
  end.

Definition digest (msg : list Z) : list Z :=
  let p := pad msg in
  let '(a, b, c, d) :=
    fold_left compress (blocks (length p / 64) p)
              (0x67452301, 0xefcdab89, 0x98badcfe, 0x10325476) in
  le_bytes 4 a ++ le_bytes 4 b ++ le_bytes 4 c ++ le_bytes 4 d.

Definition hex_digit (n : Z) : ascii :=
  ascii_of_N (Z.to_N (if n <? 10 then 48 + n else 87 + n)).

Definition hex (bs : list Z) : string :=
  string_of_list_ascii
    (flat_map (fun b => [hex_digit (Z.shiftr b 4); hex_digit (Z.land b 15)]) bs).

(** [hashlib.md5(s.encode()).hexdigest()], the string being its bytes. *)
Definition hexdigest (s : string) : string :=
  hex (digest (map (fun c => Z.of_N (N_of_ascii c)) (list_ascii_of_string s))).

End MD5.

(* ===================================================================== *)
(** * Tables                                                              *)
(* ===================================================================== *)

(** A cell of an object column: missing ([NaN] or [None]), a number, or a
    string.  Numbers in identifier columns (postal code, district, census
    tract) are integers. *)
Inductive cell : Type :=
  | NaN
  | Num (z : Z)
  | Str (s : string).

#[global] Instance cell_eq_dec : EqDecision cell.
Proof. solve_decision. Defined.

(** The object columns of the source file. *)
Inductive ocol : Type :=
  | County | City | State | Postal_Code
  | Make | Model | Electric_Vehicle_Type | CAFV_Eligibility
  | Legislative_District | Vehicle_Location | Electric_Utility
  | Census_Tract_2020.

#[global] Instance ocol_eq_dec : EqDecision ocol.
Proof. solve_decision. Defined.

Definition ocol_name (c : ocol) : string :=
  match c with
  | County => "County"
  | City => "City"
  | State => "State"
  | Postal_Code => "Postal Code"
  | Make => "Make"
  | Model => "Model"
  | Electric_Vehicle_Type => "Electric Vehicle Type"
  | CAFV_Eligibility => "Clean Alternative Fuel Vehicle (CAFV) Eligibility"
  | Legislative_District => "Legislative District"
  | Vehicle_Location => "Vehicle Location"
  | Electric_Utility => "Electric Utility"
  | Census_Tract_2020 => "2020 Census Tract"
  end.

(** One record of the source file.  [obj] gives the cell of each object
    column; the numeric columns are typed ([None] is a missing value). *)
Record Source : Type := {
  obj : ocol -> cell;
  VIN_1_10 : option string;
  Model_Year : option Z;
  Electric_Range : option Q;
  Base_MSRP : option Q;
  DOL_Vehicle_ID : option Z
}.

Definition set_obj (c : ocol) (v : cell) (r : Source) : Source :=
  {| obj := fun c' => if decide (c' = c) then v else obj r c';
     VIN_1_10 := VIN_1_10 r; Model_Year := Model_Year r;
     Electric_Range := Electric_Range r; Base_MSRP := Base_MSRP r;
     DOL_Vehicle_ID := DOL_Vehicle_ID r |}.

Definition set_Electric_Range (v : option Q) (r : Source) : Source :=
  {| obj := obj r; VIN_1_10 := VIN_1_10 r; Model_Year := Model_Year r;
     Electric_Range := v; Base_MSRP := Base_MSRP r;
     DOL_Vehicle_ID := DOL_Vehicle_ID r |}.

Definition set_Base_MSRP (v : option Q) (r : Source) : Source :=
  {| obj := obj r; VIN_1_10 := VIN_1_10 r; Model_Year := Model_Year r;
     Electric_Range := Electric_Range r; Base_MSRP := v;
     DOL_Vehicle_ID := DOL_Vehicle_ID r |}.

(** One record of the cleaned table: the source columns and the five columns
    cleaning adds.  The cell of an added column is read only when the frame
    lists that column. *)
Record Row : Type := {
  src :> Source;
  EV_Type_Code : Z;
  CAFV_Code : Z;
  Model_Decade : option Z;
  Year_Category : option string;
  VIN_Hash : string
}.

Definition set_src (f : Source -> Source) (r : Row) : Row :=
  {| src := f (src r); EV_Type_Code := EV_Type_Code r; CAFV_Code := CAFV_Code r;
     Model_Decade := Model_Decade r; Year_Category := Year_Category r;
     VIN_Hash := VIN_Hash r |}.

Definition set_EV_Type_Code (v : Z) (r : Row) : Row :=
  {| src := src r; EV_Type_Code := v; CAFV_Code := CAFV_Code r;
     Model_Decade := Model_Decade r; Year_Category := Year_Category r;
     VIN_Hash := VIN_Hash r |}.

Definition set_CAFV_Code (v : Z) (r : Row) : Row :=
  {| src := src r; EV_Type_Code := EV_Type_Code r; CAFV_Code := v;
     Model_Decade := Model_Decade r; Year_Category := Year_Category r;
     VIN_Hash := VIN_Hash r |}.

Definition set_Model_Decade (v : option Z) (r : Row) : Row :=
  {| src := src r; EV_Type_Code := EV_Type_Code r; CAFV_Code := CAFV_Code r;
     Model_Decade := v; Year_Category := Year_Category r;
     VIN_Hash := VIN_Hash r |}.

Definition set_Year_Category (v : option string) (r : Row) : Row :=
  {| src := src r; EV_Type_Code := EV_Type_Code r; CAFV_Code := CAFV_Code r;
     Model_Decade := Model_Decade r; Year_Category := v;
     VIN_Hash := VIN_Hash r |}.

Definition set_VIN_Hash (v : string) (r : Row) : Row :=
  {| src := src r; EV_Type_Code := EV_Type_Code r; CAFV_Code := CAFV_Code r;
     Model_Decade := Model_Decade r; Year_Category := Year_Category r;
     VIN_Hash := v |}.

(** A frame: the names of its columns and its rows. *)
Record DataFrame (R : Type) : Type := {
  columns : list string;
  rows : list R
}.
Arguments columns {R} _.
Arguments rows {R} _.

Section Frames.
Context {R : Type}.

(** [name in df.columns]. *)
Definition has_column (name : string) (df : DataFrame R) : bool :=
  existsb (String.eqb name) (columns df).

(** [df[f]]: the values of a column. *)
Definition col {V} (f : R -> V) (df : DataFrame R) : list V := map f (rows df).

(** [df[name] = series]: the column is replaced, or added last. *)
Definition assign {V} (name : string) (set : V -> R -> R) (series : list V)
    (df : DataFrame R) : DataFrame R :=
  {| columns := if has_column name df then columns df else columns df ++ [name];
     rows := zip_with set series (rows df) |}.

(** The first of [names] that is not a column, as [df[names]] reports it. *)
Definition missing_column (names : list string) (df : DataFrame R) : option string :=
  List.find (fun n => negb (has_column n df)) names.
End Frames.

(** [series.fillna(v)] on an object column and on a numeric column. *)
Definition fillna (v : cell) (c : cell) : cell :=
  match c with
  | NaN => v
  | _ => c
  end.

Definition fillna_num {A} (v : option A) (x : option A) : option A :=
  match x with
  | Some _ => x
  | None => v
  end.

(** [series.dropna()]. *)
Definition dropna {A} (l : list (option A)) : list A := omap id l.

(** ** [series.median()] *)

Fixpoint insert_sorted (x : Q) (l : list Q) : list Q :=
  match l with
  | [] => [x]
  | y :: t => if Qle_bool x y then x :: l else y :: insert_sorted x t
  end.

Definition sort (l : list Q) : list Q := foldr insert_sorted [] l.

(** The median of the values present: the middle one, or the mean of the two
    middle ones; [None] (Python's [nan]) when there is none. *)
Definition median (column : list (option Q)) : option Q :=
  let s := sort (dropna column) in
  let n := length s in
  match n with
  | O => None
  | _ =>
      if Nat.odd n then Some (nth (n / 2) s 0%Q)
      else Some ((nth (n / 2 - 1) s 0%Q + nth (n / 2) s 0%Q) / 2)%Q
  end.

(** ** [series.map(dict)] *)

Fixpoint dict_get {V} (d : list (string * V)) (k : string) : option V :=
  match d with
  | [] => None
  | (k', v) :: t => if String.eqb k' k then Some v else dict_get t k
  end.

(** [d[k] = v] on a dictionary that keeps insertion order. *)
Fixpoint dict_set {V} (k : string) (v : V) (d : list (string * V)) : list (string * V) :=
  match d with
  | [] => [(k, v)]
  | (k', v') :: t => if String.eqb k' k then (k, v) :: t else (k', v') :: dict_set k v t
  end.

(** [series.map(mapping)]: a cell that is not a key of the mapping (a
    missing cell and a number are not) becomes [nan]. *)
Definition map_dict (mapping : list (string * Z)) (c : cell) : option Z :=
  match c with
  | Str s => dict_get mapping s
  | _ => None
  end.

(** [.fillna(0).astype(int)]. *)
Definition fillna0_int (x : option Z) : Z := default 0 x.

(** ** [pd.cut] *)

Fixpoint non_decreasing (bins : list Z) : bool :=
  match bins with
  | a :: (b :: _) as t => (a <=? b) && non_decreasing t
  | _ => true
  end.

Fixpoint increasing (bins : list Z) : bool :=
  match bins with
  | a :: (b :: _) as t => (a <? b) && increasing t
  | _ => true
  end.

(** [bins.searchsorted(x, side="left")] on sorted bins: how many edges lie
    strictly below [x]. *)
Definition searchsorted_left (bins : list Z) (x : Z) : nat :=
  length (List.filter (fun b => b <? x) bins).

(** The bin of one value, with right-closed intervals: index [i] stands for
    [(bins[i-1], bins[i]]]; a value at the lowest edge goes to the first bin
    when [include_lowest]; outside the edges, and for a missing value, the
    result is missing. *)
Definition cut_one (bins : list Z) (labels : list string) (include_lowest : bool)
    (x : option Z) : option string :=
  match x with
  | None => None
  | Some v =>
      let i :=
        if include_lowest && bool_decide (Some v = head bins) then 1%nat
        else searchsorted_left bins v in
      if (i =? 0)%nat || (i =? length bins)%nat then None
      else nth_error labels (i - 1)
  end.

Definition pd_cut (x : list (option Z)) (bins : list Z) (labels : list string)
    (include_lowest : bool) : Result (list (option string)) :=
  if negb (non_decreasing bins)
  then Raise (ValueError "bins must increase monotonically.")
  else if negb (increasing bins)
  then Raise (ValueError "Bin edges must be unique")
  else if negb (length labels =? length bins - 1)%nat
  then Raise (ValueError "Bin labels must be one fewer than the number of bin edges")
  else Ok (map (cut_one bins labels include_lowest) x).

(** ** [drop_duplicates] and [merge] *)

Section Relational.
Context {K : Type} `{EqDecision K}.

(** [drop_duplicates()]: the first occurrence of each row is kept, in
    order; missing cells are equal to each other. *)
Fixpoint drop_duplicates_from (seen : list K) (l : list K) : list K :=
  match l with
  | [] => []
  | x :: t =>
      if bool_decide (x ∈ seen) then drop_duplicates_from seen t
      else x :: drop_duplicates_from (x :: seen) t
  end.

Definition drop_duplicates (l : list K) : list K := drop_duplicates_from [] l.

(** [left.merge(right, on=key, how="left")]: every row of [left], in order,
    with each row of [right] that has the same key (missing cells match
    each other), or with no row when there is none. *)
Definition merge_left {L R} (lkey : L -> K) (rkey : R -> K)
    (left : list L) (right : list R) : list (L * option R) :=
  flat_map
    (fun l =>
       match filter (fun r => rkey r = lkey l) right with
       | [] => [(l, None)]
       | ms => map (fun r => (l, Some r)) ms
       end)
    left.
End Relational.

(** [data[id] = range(1, len(data) + 1)]. *)
Definition with_ids {A B} (mk : Z -> A -> B) (l : list A) : list B :=
  imap (fun i a => mk (Z.of_nat (S i)) a) l.

(** ** The tables of the star schema *)

(** [dim_location]: the key, the six columns County, City, State, Postal
    Code, Legislative District and 2020 Census Tract, and the coordinates. *)
Record LocationRow : Type := {
  location_id : Z;
  location_cols : list cell;
  Latitude : option Py.pyfloat;
  Longitude : option Py.pyfloat
}.

(** [dim_vehicle]: the key, the four columns Make, Model, Electric Vehicle
    Type and CAFV Eligibility, and the two codes. *)
Record VehicleRow : Type := {
  vehicle_id : Z;
  vehicle_cols : list cell;
  vehicle_EV_Type_Code : Z;
  vehicle_CAFV_Code : Z
}.

Record UtilityRow : Type := {
  utility_id : Z;
  utility_Electric_Utility : cell
}.

Record TimeRow : Type := {
  time_id : Z;
  time_Model_Year : option Z;
  time_Model_Decade : option Z;
  time_Year_Category : option string
}.

(** [fact_vehicle_registration]; a key is missing when the join found no row
    of the dimension. *)
Record FactRow : Type := {
  registration_id : Z;
  fact_location_id : option Z;
  fact_vehicle_id : option Z;
  fact_utility_id : option Z;
  fact_time_id : option Z;
  fact_Base_MSRP : option Q;
  fact_Electric_Range : option Q;
  fact_DOL_Vehicle_ID : option Z;
  fact_VIN_Hash : string
}.

Inductive Table : Type :=
  | LocationTable (t : list LocationRow)
  | VehicleTable (t : list VehicleRow)
  | UtilityTable (t : list UtilityRow)
  | TimeTable (t : list TimeRow)
  | FactTable (t : list FactRow).

(** [len(table)]. *)
Definition table_len (t : Table) : nat :=
  match t with
  | LocationTable l => length l
  | VehicleTable l => length l
  | UtilityTable l => length l
  | TimeTable l => length l
  | FactTable l => length l
  end.

(** The columns of a table as the store sees them. *)
Definition table_columns (t : Table) : list string :=
  match t with
  | LocationTable _ =>
      ["location_id"; "County"; "City"; "State"; "Postal Code";
       "Legislative District"; "2020 Census Tract"; "Latitude"; "Longitude"]
  | VehicleTable _ =>
      ["vehicle_id"; "Make"; "Model"; "Electric Vehicle Type";
       "Clean Alternative Fuel Vehicle (CAFV) Eligibility";
       "EV_Type_Code"; "CAFV_Code"]
  | UtilityTable _ => ["utility_id"; "Electric Utility"]
  | TimeTable _ => ["time_id"; "Model Year"; "Model_Decade"; "Year_Category"]
  | FactTable _ =>
      ["registration_id"; "location_id"; "vehicle_id"; "utility_id"; "time_id";
       "Base MSRP"; "Electric Range"; "DOL Vehicle ID"; "VIN_Hash"]
  end.

(* ===================================================================== *)
(** * The class [EVDataETL]                                               *)
(* ===================================================================== *)

Record EVDataETL : Type := {
  data_url : string;
  raw_data : option (DataFrame Source);
  cleaned_data : option (DataFrame Row);
  dimension_tables : list (string * Table);
  fact_table : option (list FactRow)
}.

(** [__init__]. *)
Definition init (url : string) : EVDataETL :=
  {| data_url := url; raw_data := None; cleaned_data := None;
     dimension_tables := []; fact_table := None |}.

Definition set_raw_data (v : option (DataFrame Source)) (s : EVDataETL) : EVDataETL :=
  {| data_url := data_url s; raw_data := v; cleaned_data := cleaned_data s;
     dimension_tables := dimension_tables s; fact_table := fact_table s |}.

Definition set_cleaned_data (v : option (DataFrame Row)) (s : EVDataETL) : EVDataETL :=
  {| data_url := data_url s; raw_data := raw_data s; cleaned_data := v;
     dimension_tables := dimension_tables s; fact_table := fact_table s |}.

Definition set_dimension_tables (v : list (string * Table)) (s : EVDataETL) : EVDataETL :=
  {| data_url := data_url s; raw_data := raw_data s; cleaned_data := cleaned_data s;
     dimension_tables := v; fact_table := fact_table s |}.

Definition set_fact_table (v : option (list FactRow)) (s : EVDataETL) : EVDataETL :=
  {| data_url := data_url s; raw_data := raw_data s; cleaned_data := cleaned_data s;
     dimension_tables := dimension_tables s; fact_table := v |}.

(** [for x in l: body(x)]. *)
Fixpoint for_each {S A} (l : list A) (body : A -> M S unit) : M S unit :=
  match l with
  | [] => mret tt
  | x :: t => body x;; for_each t body
  end.

(** A result computed without touching the state. *)
Definition lift {S A} (r : Result A) : M S A :=
  match r with
  | Ok a => mret a
  | Raise e => raise e
  end.

(** [self.cleaned_data], used as a frame: on [None] Python fails with a
    [TypeError] ("'NoneType' object is not subscriptable"). *)
Definition the_cleaned_data : M EVDataETL (DataFrame Row) :=
  s ← get;
  match cleaned_data s with
  | Some df => mret df
  | None => raise (TypeError "'NoneType' object is not subscriptable")
  end.

(** [self.cleaned_data[names]]: a [KeyError] when a name is not a column. *)
Definition select (names : list string) : M EVDataETL (DataFrame Row) :=
  df ← the_cleaned_data;
  match missing_column names df with
  | Some n => raise (KeyError n)
  | None => mret df
  end.

(** ** Extract *)

(** The download and [pd.read_csv] are the environment's: [response] is the
    frame they produce, or the exception they raise (which the handler prints
    and re-raises).  The temporary copy of the download is not modelled. *)
Definition extract_data (response : Result (DataFrame Source))
    : M EVDataETL (DataFrame Source) :=
  try_reraise
    (df ← lift response;
     modify (set_raw_data (Some df));;
     mret df).

(** ** Explore

    The statistics are only printed.  What remains is the early return when
    nothing was extracted and the [KeyError] of a missing column. *)
Definition explore_data : M EVDataETL unit :=
  s ← get;
  match raw_data s with
  | None => mret tt
  | Some df =>
      match missing_column ["Model Year"; "Electric Range"; "Base MSRP"] df with
      | Some n => raise (KeyError n)
      | None => mret tt
      end
  end.

(** ** Clean and transform *)

Definition categorical_cols : list ocol :=
  [County; City; Make; Model; Electric_Vehicle_Type; CAFV_Eligibility; Electric_Utility].

Definition geo_cols : list ocol :=
  [Postal_Code; Legislative_District; Census_Tract_2020].

(** [if name in self.cleaned_data.columns: body]. *)
Definition when_column (name : string) (body : DataFrame Row -> M EVDataETL unit)
    : M EVDataETL unit :=
  df ← the_cleaned_data;
  if has_column name df then body df else mret tt.

(** [self.cleaned_data[name] = series]. *)
Definition set_column {V} (name : string) (set : V -> Row -> Row) (series : list V)
    : M EVDataETL unit :=
  df ← the_cleaned_data;
  modify (set_cleaned_data (Some (assign name set series df))).

(** [df[col] = df[col].fillna('Unknown')] (the test on the number of missing
    cells only decides what is printed: filling a column without missing
    cells changes nothing). *)
Definition fill_unknown (c : ocol) : M EVDataETL unit :=
  when_column (ocol_name c) (fun df =>
    set_column (ocol_name c) (fun v => set_src (set_obj c v))
               (map (fillna (Str "Unknown")) (col (fun r : Row => obj r c) df))).

Definition _handle_missing_values : M EVDataETL unit :=
  for_each categorical_cols fill_unknown;;
  when_column "Electric Range" (fun df =>
    let electric_range_median := median (col (fun r : Row => Electric_Range r) df) in
    set_column "Electric Range" (fun v => set_src (set_Electric_Range v))
               (map (fillna_num electric_range_median)
                    (col (fun r : Row => Electric_Range r) df)));;
  when_column "Base MSRP" (fun df =>
    set_column "Base MSRP" (fun v => set_src (set_Base_MSRP v))
               (map (fillna_num (Some 0%Q)) (col (fun r : Row => Base_MSRP r) df)));;
  for_each geo_cols fill_unknown.

Definition ev_type_mapping : list (string * Z) :=
  [("Battery Electric Vehicle (BEV)", 1);
   ("Plug-in Hybrid Electric Vehicle (PHEV)", 2);
   ("Unknown", 0)].

Definition cafv_mapping : list (string * Z) :=
  [("Clean Alternative Fuel Vehicle Eligible", 1);
   ("Not eligible due to low battery range", 2);
   ("Eligibility unknown as battery range has not been researched", 3);
   ("Unknown", 0)].

Definition _encode_categorical_variables : M EVDataETL unit :=
  when_column "Electric Vehicle Type" (fun df =>
    set_column "EV_Type_Code" set_EV_Type_Code
               (map fillna0_int
                    (map (map_dict ev_type_mapping)
                         (col (fun r : Row => obj r Electric_Vehicle_Type) df))));;
  when_column "Clean Alternative Fuel Vehicle (CAFV) Eligibility" (fun df =>
    set_column "CAFV_Code" set_CAFV_Code
               (map fillna0_int
                    (map (map_dict cafv_mapping)
                         (col (fun r : Row => obj r CAFV_Eligibility) df)))).

(** [(year // 10) * 10]; Python's [//] rounds down, as [Z.div] does for a
    positive divisor. *)
Definition decade (year : option Z) : option Z :=
  match year with
  | Some y => Some (y / 10 * 10)
  | None => None
  end.

(** [hashlib.md5(str(x).encode()).hexdigest()[:10] if pd.notna(x) else 'Unknown']. *)
Definition vin_hash (x : option string) : string :=
  match x with
  | Some vin => String.substring 0 10 (MD5.hexdigest vin)
  | None => "Unknown"
  end.

(** The edges and labels the model year is binned with. *)
Definition year_bins (current_year : Z) : list Z := [0; 2015; 2020; current_year + 1].
Definition year_labels : list string := ["Pre-2015"; "2015-2020"; "2021+"].

(** [current_year] is what [datetime.now().year] returns. *)
Definition _create_derived_fields (current_year : Z) : M EVDataETL unit :=
  when_column "Model Year" (fun df =>
    set_column "Model_Decade" set_Model_Decade
               (map decade (col (fun r : Row => Model_Year r) df)));;
  when_column "Model Year" (fun df =>
    categories ← lift (pd_cut (col (fun r : Row => Model_Year r) df)
                              (year_bins current_year) year_labels true);
    set_column "Year_Category" set_Year_Category categories);;
  when_column "VIN (1-10)" (fun df =>
    set_column "VIN_Hash" set_VIN_Hash
               (map vin_hash (col (fun r : Row => VIN_1_10 r) df))).

(** [self.raw_data.copy()]: the added columns are not there yet; their
    cells hold placeholders that are never read. *)
Definition copy_row (s : Source) : Row :=
  {| src := s; EV_Type_Code := 0; CAFV_Code := 0;
     Model_Decade := None; Year_Category := None; VIN_Hash := EmptyString |}.

Definition copy (raw : DataFrame Source) : DataFrame Row :=
  {| columns := columns raw; rows := map copy_row (rows raw) |}.

Definition clean_and_transform (current_year : Z) : M EVDataETL (DataFrame Row) :=
  s ← get;
  match raw_data s with
  | None => raise (ValueError "No raw data available. Please extract data first.")
  | Some raw =>
      modify (set_cleaned_data (Some (copy raw)));;
      _handle_missing_values;;
      _encode_categorical_variables;;
      _create_derived_fields current_year;;
      the_cleaned_data
  end.

(** ** Build the dimensional model *)

(** [self.dimension_tables[name] = table]. *)
Definition set_dimension (name : string) (t : Table) : M EVDataETL unit :=
  s ← get;
  put (set_dimension_tables (dict_set name t (dimension_tables s)) s).

(** The body of the [try] that parses ["POINT (longitude latitude)"]: the two
    coordinates of the row are assigned one after the other.  On a cell that
    is not a string, [.replace] raises an [AttributeError]. *)
Record Coordinates : Type := {
  latitude : option Py.pyfloat;
  longitude : option Py.pyfloat
}.

Definition to_float {S} (s : string) : M S Py.pyfloat :=
  match Py.float s with
  | Some x => mret x
  | None => raise (ValueError "could not convert string to float")
  end.

Definition parse_point (vehicle_location : cell) : M Coordinates unit :=
  text ← match vehicle_location with
         | Str s => mret s
         | _ => raise (AttributeError "'float' object has no attribute 'replace'")
         end;
  let coords := Py.str_split (Py.str_replace ")" EmptyString (Py.str_replace "POINT (" EmptyString text)) in
  match coords with
  | [c0; c1] =>
      x ← to_float c0;
      modify (fun c => {| latitude := latitude c; longitude := Some x |});;
      y ← to_float c1;
      modify (fun c => {| latitude := Some y; longitude := longitude c |})
  | _ => mret tt
  end.

(** One turn of the loop over the rows of [location_data]: both coordinates
    start as [None]; a cell that is present and is not ['Unknown'] is parsed
    under [try ... except: pass]. *)
Definition locate (vehicle_location : cell) : Coordinates :=
  let start := {| latitude := None; longitude := None |} in
  if bool_decide (vehicle_location ≠ NaN) && bool_decide (vehicle_location ≠ Str "Unknown")
  then snd (try_pass (parse_point vehicle_location) start)
  else start.

(** The columns the location join is keyed on. *)
Definition location_key (r : Source) : list cell :=
  map (obj r) [County; City; State; Postal_Code; Legislative_District; Census_Tract_2020].

(** [cleaned[location_cols].drop_duplicates()], the coordinates parsed from
    the seventh column, the keys, and the projection that leaves that column
    out. *)
Definition location_dimension (cleaned : list Row) : list LocationRow :=
  let location_data :=
    drop_duplicates
      (map (fun r : Row => (location_key r, obj r Vehicle_Location)) cleaned) in
  let parsed := map (fun k => (k.1, locate k.2)) location_data in
  with_ids (fun i k => {| location_id := i; location_cols := k.1;
                          Latitude := latitude k.2; Longitude := longitude k.2 |})
           parsed.

Definition _create_location_dimension : M EVDataETL unit :=
  df ← select ["County"; "City"; "State"; "Postal Code"; "Legislative District";
               "2020 Census Tract"; "Vehicle Location"];
  set_dimension "dim_location" (LocationTable (location_dimension (rows df))).

Definition vehicle_key (r : Row) : list cell * Z * Z :=
  (map (obj r) [Make; Model; Electric_Vehicle_Type; CAFV_Eligibility],
   EV_Type_Code r, CAFV_Code r).

Definition vehicle_dimension (cleaned : list Row) : list VehicleRow :=
  let vehicle_data := drop_duplicates (map vehicle_key cleaned) in
  with_ids (fun i k => {| vehicle_id := i; vehicle_cols := k.1.1;
                          vehicle_EV_Type_Code := k.1.2;
                          vehicle_CAFV_Code := k.2 |})
           vehicle_data.

Definition _create_vehicle_dimension : M EVDataETL unit :=
  df ← select ["Make"; "Model"; "Electric Vehicle Type";
               "Clean Alternative Fuel Vehicle (CAFV) Eligibility";
               "EV_Type_Code"; "CAFV_Code"];
  set_dimension "dim_vehicle" (VehicleTable (vehicle_dimension (rows df))).

Definition utility_key (r : Source) : cell := obj r Electric_Utility.

Definition utility_dimension (cleaned : list Row) : list UtilityRow :=
  let utility_data := drop_duplicates (map (fun r : Row => utility_key r) cleaned) in
  with_ids (fun i k => {| utility_id := i; utility_Electric_Utility := k |})
           utility_data.

Definition _create_utility_dimension : M EVDataETL unit :=
  df ← select ["Electric Utility"];
  set_dimension "dim_utility" (UtilityTable (utility_dimension (rows df))).

Definition time_key (r : Row) : option Z * option Z * option string :=
  (Model_Year r, Model_Decade r, Year_Category r).

Definition time_dimension (cleaned : list Row) : list TimeRow :=
  let time_data := drop_duplicates (map time_key cleaned) in
  with_ids (fun i k => {| time_id := i; time_Model_Year := k.1.1;
                          time_Model_Decade := k.1.2;
                          time_Year_Category := k.2 |})
           time_data.

Definition _create_time_dimension : M EVDataETL unit :=
  df ← select ["Model Year"; "Model_Decade"; "Year_Category"];
  set_dimension "dim_time" (TimeTable (time_dimension (rows df))).

(** [self.dimension_tables[name]]. *)
Definition the_dimension (name : string) : M EVDataETL Table :=
  s ← get;
  match dict_get (dimension_tables s) name with
  | Some t => mret t
  | None => raise (KeyError name)
  end.

(** A row of [fact_data] after the four joins: the cleaned row and the
    matching row of each dimension. *)
Definition Joined : Type :=
  Row * option LocationRow * option VehicleRow * option UtilityRow * option TimeRow.

Definition fact_of (i : Z) (j : Joined) : FactRow :=
  let '(r, l, v, u, t) := j in
  {| registration_id := i;
     fact_location_id := location_id <$> l;
     fact_vehicle_id := vehicle_id <$> v;
     fact_utility_id := utility_id <$> u;
     fact_time_id := time_id <$> t;
     fact_Base_MSRP := Base_MSRP r;
     fact_Electric_Range := Electric_Range r;
     fact_DOL_Vehicle_ID := DOL_Vehicle_ID r;
     fact_VIN_Hash := VIN_Hash r |}.

(** The natural key of each dimension table, as the joins read it. *)
Definition location_row_key (d : LocationRow) : list cell := location_cols d.

Definition vehicle_row_key (d : VehicleRow) : list cell * Z * Z :=
  (vehicle_cols d, vehicle_EV_Type_Code d, vehicle_CAFV_Code d).

Definition time_row_key (d : TimeRow) : option Z * option Z * option string :=
  (time_Model_Year d, time_Model_Decade d, time_Year_Category d).

(** The four left joins, in the order location, vehicle, utility, time. *)
Definition join_dimensions (cleaned : list Row) (loc : list LocationRow)
    (veh : list VehicleRow) (uti : list UtilityRow) (tim : list TimeRow)
    : list Joined :=
  let j1 := merge_left (fun r : Row => location_key r) location_row_key cleaned loc in
  let j2 := merge_left (fun j : Row * option LocationRow => vehicle_key j.1)
                       vehicle_row_key j1 veh in
  let j3 := merge_left (fun j : Row * option LocationRow * option VehicleRow =>
                          utility_key j.1.1)
                       utility_Electric_Utility j2 uti in
  merge_left (fun j : Row * option LocationRow * option VehicleRow * option UtilityRow =>
                time_key j.1.1.1)
             time_row_key j3 tim.

(** The projection on the fact columns and the numbering. *)
Definition fact_rows (cleaned : list Row) (loc : list LocationRow)
    (veh : list VehicleRow) (uti : list UtilityRow) (tim : list TimeRow)
    : list FactRow :=
  with_ids fact_of (join_dimensions cleaned loc veh uti tim).

(** Each merge needs its dimension table and the join columns on both sides:
    a [KeyError] otherwise. *)
Definition _create_fact_table : M EVDataETL unit :=
  fact_data ← the_cleaned_data;
  dim_location ← the_dimension "dim_location";
  loc ← match dim_location with
        | LocationTable t => mret t
        | _ => raise (KeyError "County")
        end;
  _ ← select ["County"; "City"; "State"; "Postal Code"; "Legislative District";
              "2020 Census Tract"];
  dim_vehicle ← the_dimension "dim_vehicle";
  veh ← match dim_vehicle with
        | VehicleTable t => mret t
        | _ => raise (KeyError "Make")
        end;
  _ ← select ["Make"; "Model"; "Electric Vehicle Type";
              "Clean Alternative Fuel Vehicle (CAFV) Eligibility";
              "EV_Type_Code"; "CAFV_Code"];
  dim_utility ← the_dimension "dim_utility";
  uti ← match dim_utility with
        | UtilityTable t => mret t
        | _ => raise (KeyError "Electric Utility")
        end;
  _ ← select ["Electric Utility"];
  dim_time ← the_dimension "dim_time";
  tim ← match dim_time with
        | TimeTable t => mret t
        | _ => raise (KeyError "Model Year")
        end;
  _ ← select ["Model Year"; "Model_Decade"; "Year_Category"];
  _ ← select ["Base MSRP"; "Electric Range"; "DOL Vehicle ID"; "VIN_Hash"];
  modify (set_fact_table (Some (fact_rows (rows fact_data) loc veh uti tim))).

Definition create_dimensional_model : M EVDataETL (list (string * Table)) :=
  s ← get;
  match cleaned_data s with
  | None => raise (ValueError "No cleaned data available. Please clean data first.")
  | Some _ =>
      _create_location_dimension;;
      _create_vehicle_dimension;;
      _create_utility_dimension;;
      _create_time_dimension;;
      _create_fact_table;;
      s' ← get;
      mret (dict_set "fact_vehicle_registration"
                     (FactTable (default [] (fact_table s')))
                     (dimension_tables s'))
  end.

(** ** Load *)

(** A SQLite database: its tables, and its indexes (name, table, column). *)
Record Database : Type := {
  tables : gmap string Table;
  indexes : gmap string (string * string)
}.

Definition empty_database : Database := {| tables := ∅; indexes := ∅ |}.

(** What the pipeline writes to: database files and flat files, by path. *)
Record World : Type := {
  databases : gmap string Database;
  csv_files : gmap string Table
}.

(** The object and the world it runs in. *)
Record System : Type := {
  etl : EVDataETL;
  world : World
}.

(** A method that only touches the object. *)
Definition on_etl {A} (m : M EVDataETL A) : M System A :=
  fun sys => let '(r, s) := m (etl sys) in (r, {| etl := s; world := world sys |}).

(** [data.to_sql(name, conn, if_exists='replace', index=False)]: a table of
    that name is dropped, and its indexes with it, before the new one is
    written.  The rows are taken to hold integers SQLite can store; on
    another one the driver raises [OverflowError], and what is stated of a
    load that succeeds carries that condition ([storable] below). *)
Definition to_sql (name : string) (data : Table) : M Database unit :=
  modify (fun db =>
    {| tables := <[name := data]> (tables db);
       indexes := filter (fun kv => kv.2.1 ≠ name) (indexes db) |}).

(** [CREATE INDEX IF NOT EXISTS name ON table(column)]. *)
Definition create_index (q : string * string * string) : M Database unit :=
  let '(name, table, column) := q in
  db ← get;
  match indexes db !! name with
  | Some _ => mret tt
  | None =>
      match tables db !! table with
      | None => raise (OperationalError ("no such table: " +:+ table))
      | Some t =>
          if existsb (String.eqb column) (table_columns t)
          then put {| tables := tables db; indexes := <[name := (table, column)]> (indexes db) |}
          else raise (OperationalError ("no such column: " +:+ column))
      end
  end.

Definition index_queries : list (string * string * string) :=
  [("idx_fact_location", "fact_vehicle_registration", "location_id");
   ("idx_fact_vehicle", "fact_vehicle_registration", "vehicle_id");
   ("idx_fact_utility", "fact_vehicle_registration", "utility_id");
   ("idx_fact_time", "fact_vehicle_registration", "time_id");
   ("idx_location_county", "dim_location", "County");
   ("idx_vehicle_make", "dim_vehicle", "Make");
   ("idx_time_year", "dim_time", "Model Year")].

Definition _create_indexes : M Database unit := for_each index_queries create_index.

(** What happens on the connection between [connect] and [close]. *)
Definition load_session (dims : list (string * Table)) (fact : list FactRow)
    : M Database unit :=
  for_each dims (fun kv => to_sql kv.1 kv.2);;
  to_sql "fact_vehicle_registration" (FactTable fact);;
  _create_indexes.

(** [sqlite3.connect] opens the file or creates an empty database; what the
    session wrote stays in the file whether or not it ended by an exception
    ([finally: conn.close()]). *)
Definition load_to_warehouse (db_path : string) : M System unit :=
  fun sys =>
    match dimension_tables (etl sys), fact_table (etl sys) with
    | [], _ | _, None =>
        (Raise (ValueError
           "No dimensional model available. Please create dimensional model first."),
         sys)
    | dims, Some fact =>
        let conn := default empty_database (databases (world sys) !! db_path) in
        let '(r, conn') := load_session dims fact conn in
        (r, {| etl := etl sys;
               world := {| databases := <[db_path := conn']> (databases (world sys));
                           csv_files := csv_files (world sys) |} |})
    end.

(** ** Export *)

(** [os.makedirs(output_dir, exist_ok=True)] and one [to_csv] for each
    table.  The world keeps files by path and no directory: the directory
    is taken to be one that can be made, and what is stated of an export that
    succeeds says which worlds that covers ([left_by_runs] below). *)
Definition export_to_csv (output_dir : string) : M System unit :=
  sys ← get;
  let write (kv : string * Table) : M System unit :=
    modify (fun sys' =>
      {| etl := etl sys';
         world := {| databases := databases (world sys');
                     csv_files := <[output_dir +:+ "/" +:+ kv.1 +:+ ".csv" := kv.2]>
                                    (csv_files (world sys')) |} |}) in
  for_each (dimension_tables (etl sys)) write;;
  match fact_table (etl sys) with
  | Some fact => write ("fact_vehicle_registration", FactTable fact)
  | None => mret tt
  end.

(** ** Summarise *)

(** What the report prints: the counts of the source, of the cleaned table
    with the retention percentage, of each dimension and of the fact table. *)
Record Report : Type := {
  records_extracted : option nat;
  source_columns : option nat;
  records_after_cleaning : option nat;
  retention : option Q;
  dimension_records : list (string * nat);
  fact_records : option nat
}.

(** [(len(cleaned) / len(raw)) * 100]. *)
Definition retention_percentage (cleaned : nat) (raw : nat) : Result Q :=
  match raw with
  | O => Raise (ZeroDivisionError "division by zero")
  | _ => Ok ((inject_Z (Z.of_nat cleaned) / inject_Z (Z.of_nat raw)) * 100)%Q
  end.

Definition generate_summary_report : M EVDataETL Report :=
  s ← get;
  pct ← match cleaned_data s with
        | None => mret None
        | Some cleaned =>
            match raw_data s with
            | None => raise (TypeError "object of type 'NoneType' has no len()")
            | Some raw =>
                p ← lift (retention_percentage (length (rows cleaned)) (length (rows raw)));
                mret (Some p)
            end
        end;
  mret {| records_extracted := (fun df => length (rows df)) <$> raw_data s;
          source_columns := (fun df => length (columns df)) <$> raw_data s;
          records_after_cleaning := (fun df => length (rows df)) <$> cleaned_data s;
          retention := pct;
          dimension_records := map (fun kv => (kv.1, table_len kv.2)) (dimension_tables s);
          fact_records := length <$> fact_table s |}.

(** ** The entry point *)

Definition url : string :=
  "https://data.wa.gov/api/views/f6w7-q2d2/rows.csv?accessType=DOWNLOAD".

(** The pipeline on a fresh object.  [response] is what the source serves
    and [current_year] what the clock reads during the run. *)
Definition pipeline (export_csv : bool) (response : Result (DataFrame Source))
    (current_year : Z) : M System Report :=
  try_reraise
    (on_etl (extract_data response);;
     on_etl explore_data;;
     on_etl (clean_and_transform current_year);;
     on_etl create_dimensional_model;;
     load_to_warehouse "ev_data_warehouse.db";;
     (if export_csv then export_to_csv "data_warehouse_output" else mret tt);;
     on_etl generate_summary_report).

Definition main (export_csv : bool) (response : Result (DataFrame Source))
    (current_year : Z) (w : World) : Result Report * World :=
  let '(r, sys) := pipeline export_csv response current_year
                     {| etl := init url; world := w |} in
  (r, world sys).

(** ** The documented input

    The columns of the source file, in its order, and the columns of the
    cleaned table. *)
Definition dataset_columns : list string :=
  ["VIN (1-10)"; "County"; "City"; "State"; "Postal Code"; "Model Year"; "Make";
   "Model"; "Electric Vehicle Type";
   "Clean Alternative Fuel Vehicle (CAFV) Eligibility"; "Electric Range";
   "Base MSRP"; "Legislative District"; "DOL Vehicle ID"; "Vehicle Location";
   "Electric Utility"; "2020 Census Tract"].

Definition cleaned_columns : list string :=
  dataset_columns ++ ["EV_Type_Code"; "CAFV_Code"; "Model_Decade"; "Year_Category"; "VIN_Hash"].

(* ===================================================================== *)
(** * Vocabulary of the statements                                        *)
(* ===================================================================== *)

(** A method that rewrites the cleaned frame [df] into [df'], touching
    nothing else, and returns normally. *)
Definition frame_step (m : M EVDataETL unit) (df df' : DataFrame Row) : Prop :=
  forall s, cleaned_data s = Some df ->
            m s = (Ok tt, set_cleaned_data (Some df') s).

(** The source record [s] and the cleaned record [r] made from it, [med]
    being the median of the ranges present in the source and [current_year]
    the year of the run. *)
Record cleaned_from (current_year : Z) (med : option Q) (s : Source) (r : Row)
    : Prop := {
  cleaned_obj : forall c,
    obj r c = if bool_decide (c ∈ categorical_cols ++ geo_cols)
              then fillna (Str "Unknown") (obj s c) else obj s c;
  cleaned_VIN : VIN_1_10 r = VIN_1_10 s;
  cleaned_Model_Year : Model_Year r = Model_Year s;
  cleaned_Electric_Range : Electric_Range r = fillna_num med (Electric_Range s);
  cleaned_Base_MSRP : Base_MSRP r = fillna_num (Some 0%Q) (Base_MSRP s);
  cleaned_DOL_Vehicle_ID : DOL_Vehicle_ID r = DOL_Vehicle_ID s;
  cleaned_EV_Type_Code :
    EV_Type_Code r
    = fillna0_int (map_dict ev_type_mapping
                            (fillna (Str "Unknown") (obj s Electric_Vehicle_Type)));
  cleaned_CAFV_Code :
    CAFV_Code r
    = fillna0_int (map_dict cafv_mapping
                            (fillna (Str "Unknown") (obj s CAFV_Eligibility)));
  cleaned_Model_Decade : Model_Decade r = decade (Model_Year s);
  cleaned_Year_Category :
    Year_Category r = cut_one (year_bins current_year) year_labels true (Model_Year s);
  cleaned_VIN_Hash : VIN_Hash r = vin_hash (VIN_1_10 s)
}.

(** The dimension tables and the fact table the model builder makes from
    the rows of a cleaned frame, [dims] being the dictionary before. *)
Definition built_dimensions (cleaned : list Row) (dims : list (string * Table))
    : list (string * Table) :=
  dict_set "dim_time" (TimeTable (time_dimension cleaned))
    (dict_set "dim_utility" (UtilityTable (utility_dimension cleaned))
       (dict_set "dim_vehicle" (VehicleTable (vehicle_dimension cleaned))
          (dict_set "dim_location" (LocationTable (location_dimension cleaned)) dims))).

Definition built_fact (cleaned : list Row) : list FactRow :=
  fact_rows cleaned (location_dimension cleaned) (vehicle_dimension cleaned)
            (utility_dimension cleaned) (time_dimension cleaned).

(** The first three stages on a fresh object, [raw] being what the source
    serves. *)
Definition through_model (current_year : Z) (raw : DataFrame Source)
    : Result (list (string * Table)) * EVDataETL :=
  (extract_data (Ok raw) ≫= fun _ =>
   clean_and_transform current_year ≫= fun _ =>
   create_dimensional_model) (init url).

(** The row counts of the cleaned table and of the fact table. *)
Definition cleaned_count (s : EVDataETL) : option nat :=
  (fun df => length (rows df)) <$> cleaned_data s.

Definition fact_count (s : EVDataETL) : option nat := length <$> fact_table s.

Definition dimension_count (s : EVDataETL) (name : string) : option nat :=
  table_len <$> dict_get (dimension_tables s) name.

(** ** Sample inputs *)

(** A record with every cell missing. *)
Definition blank : Source :=
  {| obj := fun _ => NaN; VIN_1_10 := None; Model_Year := None;
     Electric_Range := None; Base_MSRP := None; DOL_Vehicle_ID := None |}.

(** A record of the three-row scenario: year, range, price and vehicle type
    are given, the other cells are missing. *)
Definition scenario_record (year : Z) (range msrp : option Q) (type : cell) : Source :=
  {| obj := fun c => match c with Electric_Vehicle_Type => type | _ => NaN end;
     VIN_1_10 := None; Model_Year := Some year;
     Electric_Range := range; Base_MSRP := msrp; DOL_Vehicle_ID := None |}.

Definition scenario : DataFrame Source :=
  {| columns := dataset_columns;
     rows := [scenario_record 2020 (Some 150%Q) (Some 40000%Q)
                              (Str "Battery Electric Vehicle (BEV)");
              scenario_record 2020 None None NaN;
              scenario_record 2010 (Some 60%Q) (Some 0%Q)
                              (Str "Plug-in Hybrid Electric Vehicle (PHEV)")] |}.

(** A registration in Seattle, the coordinates being given. *)
Definition seattle (dol : Z) (point : string) : Source :=
  {| obj := fun c =>
       match c with
       | County => Str "King"
       | City => Str "Seattle"
       | State => Str "WA"
       | Postal_Code => Num 98101
       | Make => Str "TESLA"
       | Model => Str "MODEL 3"
       | Electric_Vehicle_Type => Str "Battery Electric Vehicle (BEV)"
       | CAFV_Eligibility => Str "Clean Alternative Fuel Vehicle Eligible"
       | Legislative_District => Num 43
       | Vehicle_Location => Str point
       | Electric_Utility => Str "CITY OF SEATTLE - (WA)"
       | Census_Tract_2020 => Num 53033007200
       end;
     VIN_1_10 := Some "5YJ3E1EA0K"; Model_Year := Some 2019;
     Electric_Range := Some 220%Q; Base_MSRP := Some 0%Q;
     DOL_Vehicle_ID := Some dol |}.

(** Two registrations that agree on the six columns of the location join and
    differ in the coordinates. *)
Definition two_points : DataFrame Source :=
  {| columns := dataset_columns;
     rows := [seattle 478093654 "POINT (-122.33 47.60)";
              seattle 274800718 "POINT (-122.34 47.61)"] |}.

(** One registration of model year 2015. *)
Definition year_2015 : DataFrame Source :=
  {| columns := dataset_columns;
     rows := [scenario_record 2015 (Some 84%Q) (Some 0%Q)
                              (Str "Battery Electric Vehicle (BEV)")] |}.

(** The documented header and no record. *)
Definition header_only : DataFrame Source :=
  {| columns := dataset_columns; rows := [] |}.

Definition empty_world : World := {| databases := ∅; csv_files := ∅ |}.

(** The [i]-th row of the cleaned table. *)
Definition cleaned_row (s : EVDataETL) (i : nat) : option Row :=
  match cleaned_data s with
  | Some df => rows df !! i
  | None => None
  end.

(** The coordinates held by the location dimension, row by row. *)
Definition location_coordinates (s : EVDataETL)
    : option (list (option Py.pyfloat * option Py.pyfloat)) :=
  match dict_get (dimension_tables s) "dim_location" with
  | Some (LocationTable t) => Some (map (fun d => (Latitude d, Longitude d)) t)
  | _ => None
  end.

(** No coordinate at all. *)
Definition no_coordinates : Coordinates := {| latitude := None; longitude := None |}.

(** The tokens [parse_point] splits a cell into. *)
Definition point_tokens (text : string) : list string :=
  Py.str_split (Py.str_replace ")" EmptyString (Py.str_replace "POINT (" EmptyString text)).

(** A registration whose coordinates read ["POINT (-122.33 abc)"]. *)
Definition half_point : DataFrame Source :=
  {| columns := dataset_columns; rows := [seattle 478093654 "POINT (-122.33 abc)"] |}.

(** ** The load, seen from the store *)

(** The tables of a database after [to_sql] on each pair of [kvs], and the
    indexes that survive it. *)
Definition load_tables {V} (kvs : list (string * V)) (t : gmap string V) : gmap string V :=
  foldl (fun t kv => <[kv.1 := kv.2]> t) t kvs.

Definition drop_indexes (kvs : list (string * Table)) (i : gmap string (string * string))
    : gmap string (string * string) :=
  foldl (fun i kv => filter (fun e => e.2.1 ≠ kv.1) i) i kvs.

(** The stages that only touch the object, in the order of [main]. *)
Definition stages (response : Result (DataFrame Source)) (current_year : Z)
    : M EVDataETL (list (string * Table)) :=
  extract_data response ≫= fun _ =>
  explore_data ≫= fun _ =>
  clean_and_transform current_year ≫= fun _ =>
  create_dimensional_model.

(** The stages that write to the world, and the report, on an object the
    earlier stages have left. *)
Definition deliver (export_csv : bool) : M System Report :=
  load_to_warehouse "ev_data_warehouse.db" ≫= fun _ =>
  (if export_csv then export_to_csv "data_warehouse_output" else mret tt) ≫= fun _ =>
  on_etl generate_summary_report.

(** The flat files [export_to_csv] writes, by path. *)
Definition csv_writes (output_dir : string) (s : EVDataETL) : list (string * Table) :=
  map (fun kv : string * Table => (output_dir +:+ "/" +:+ kv.1 +:+ ".csv", kv.2))
      (dimension_tables s
       ++ match fact_table s with
          | Some fact => [("fact_vehicle_registration", FactTable fact)]
          | None => []
          end).

(** The source frame has the documented columns. *)
Definition documented (raw : DataFrame Source) : Prop := columns raw = dataset_columns.

(** No foreign key of the fact row is missing. *)
Definition keys_present (f : FactRow) : Prop :=
  is_Some (fact_location_id f) /\ is_Some (fact_vehicle_id f) /\
  is_Some (fact_utility_id f) /\ is_Some (fact_time_id f).

(** ** The object between the stages *)

(** A method that leaves every field of the object but the cleaned frame as
    it found it, whether it returns or raises. *)
Definition frame_only {A} (m : M EVDataETL A) : Prop :=
  forall s, (m s).2 = set_cleaned_data (cleaned_data (m s).2) s.

(** A source in which no record has a range. *)
Definition no_ranges : DataFrame Source :=
  {| columns := dataset_columns;
     rows := [scenario_record 2020 None (Some 40000%Q)
                              (Str "Battery Electric Vehicle (BEV)");
              scenario_record 2010 None None NaN] |}.

(** The six columns of the location join determine the cell of the
    coordinates: no two rows agree on the six and differ in it. *)
Definition location_determined (cleaned : list Row) : Prop :=
  forall r r' : Row, r ∈ cleaned -> r' ∈ cleaned ->
    location_key r = location_key r' ->
    obj r Vehicle_Location = obj r' Vehicle_Location.

(** The measures of a fact row, and the cells of a cleaned row they are
    taken from. *)
Definition fact_measures (f : FactRow) : option Q * option Q * option Z * string :=
  (fact_Base_MSRP f, fact_Electric_Range f, fact_DOL_Vehicle_ID f, fact_VIN_Hash f).

Definition row_measures (r : Row) : option Q * option Q * option Z * string :=
  (Base_MSRP r, Electric_Range r, DOL_Vehicle_ID r, VIN_Hash r).

(** The objects the methods of the class lead to from [__init__], the
    source serving documented frames or failing. *)
Inductive reachable : EVDataETL -> Prop :=
  | reach_init (data_url : string) : reachable (init data_url)
  | reach_extract s response :
      reachable s -> (forall raw, response = Ok raw -> documented raw) ->
      reachable (extract_data response s).2
  | reach_explore s : reachable s -> reachable (explore_data s).2
  | reach_clean s current_year :
      reachable s -> reachable (clean_and_transform current_year s).2
  | reach_model s : reachable s -> reachable (create_dimensional_model s).2
  | reach_load s w db_path :
      reachable s -> reachable (etl (load_to_warehouse db_path {| etl := s; world := w |}).2)
  | reach_export s w output_dir :
      reachable s -> reachable (etl (export_to_csv output_dir {| etl := s; world := w |}).2)
  | reach_report s : reachable s -> reachable (generate_summary_report s).2.

(** The names of the four dimension tables, in the order they are built. *)
Definition dimension_names : list string :=
  ["dim_location"; "dim_vehicle"; "dim_utility"; "dim_time"].

(** An entry of the dictionary of dimensions holds the table its name
    announces. *)
Definition kinded (kv : string * Table) : Prop :=
  (kv.1 = "dim_location" -> exists t, kv.2 = LocationTable t)
  /\ (kv.1 = "dim_vehicle" -> exists t, kv.2 = VehicleTable t)
  /\ (kv.1 = "dim_utility" -> exists t, kv.2 = UtilityTable t)
  /\ (kv.1 = "dim_time" -> exists t, kv.2 = TimeTable t).

(** What holds of the object between two calls: the dimensions are of the
    right kind, a fact table is there only with the four dimensions, and a
    cleaned frame only with raw data. *)
Definition model_ready (s : EVDataETL) : Prop :=
  Forall kinded (dimension_tables s)
  /\ (fact_table s <> None ->
      forall n, n ∈ dimension_names -> n ∈ map fst (dimension_tables s))
  /\ (cleaned_data s <> None -> raw_data s <> None).

(** A method that keeps a property of the object, whether it returns or
    raises. *)
Definition preserves {A} (I : EVDataETL -> Prop) (m : M EVDataETL A) : Prop :=
  forall s, I s -> I (m s).2.

(** A cleaned frame without the column of the coordinates. *)
Definition without_vehicle_location : DataFrame Row :=
  {| columns := List.filter (fun n => negb (String.eqb n "Vehicle Location")) cleaned_columns;
     rows := [] |}.

(** ** The warehouse after a load *)

(** The system a load leaves. *)
Definition after_load (db_path : string) (s : EVDataETL) (w : World) : System :=
  (load_to_warehouse db_path {| etl := s; world := w |}).2.

(** The names of the five tables of the model. *)
Definition table_names : list string := dimension_names ++ ["fact_vehicle_registration"].

(** The seven indexes of [_create_indexes], by name. *)
Definition warehouse_indexes : gmap string (string * string) :=
  list_to_map (map (fun q : string * string * string => (q.1.1, (q.1.2, q.2))) index_queries).

(** The indexes that are not on a table of the model: replacing the tables
    does not drop them. *)
Definition surviving_indexes (i : gmap string (string * string))
    : gmap string (string * string) :=
  filter (fun e => e.2.1 ∉ table_names) i.

(** The warehouse file of [main], as a run finds it. *)
Definition warehouse_before (w : World) : Database :=
  default empty_database (databases w !! "ev_data_warehouse.db").

(** Nothing in a database stands in the way of the load: no table bears
    the name of an index of the model, and no index the name of a table of
    the model (SQLite keeps tables and indexes in one name space). *)
Definition no_name_clash (db : Database) : Prop :=
  (forall q, q ∈ index_queries -> tables db !! q.1.1 = None)
  /\ (forall n, n ∈ table_names -> indexes db !! n = None).

(** Nothing in the world stands in the way of a run: the warehouse file is
    free of such clashes, and no file bears the name of the output
    directory. *)
Definition hospitable (w : World) : Prop :=
  no_name_clash (warehouse_before w)
  /\ csv_files w !! "data_warehouse_output" = None.


Definition csv_path (output_dir name : string) : string :=
  output_dir +:+ "/" +:+ name +:+ ".csv".


(** ** Points *)

(** A test that holds of every character of a string. *)
Fixpoint string_forall (p : ascii -> bool) (s : string) : bool :=
  match s with
  | EmptyString => true
  | String c t => p c && string_forall p t
  end.

(** A character of a coordinate: an ASCII character that is no white space,
    no closing parenthesis and no capital P. *)
Definition plain_char (c : ascii) : bool :=
  (Z.of_N (N_of_ascii c) <? 128)
  && negb (Py.is_space c) && negb (Py.is_char c 41) && negb (Py.is_char c 80).

(** A coordinate as the source writes it: a token that is not empty. *)
Definition plain_token (s : string) : bool :=
  negb (String.eqb s EmptyString) && string_forall plain_char s.

(** The cell of a point: ["POINT (longitude latitude)"]. *)
Definition point_text (lon lat : string) : string :=
  "POINT (" +:+ lon +:+ " " +:+ lat +:+ ")".


(** ** What the store and the file system accept *)

(** An integer SQLite can store: a signed 64-bit one. *)
Definition sqlite_integer (z : Z) : bool := (- 2 ^ 63 <=? z) && (z <? 2 ^ 63).

Definition storable_cell (c : cell) : bool :=
  match c with
  | Num z => sqlite_integer z
  | _ => true
  end.

Definition storable_int (z : option Z) : bool := from_option sqlite_integer true z.

(** A price or a range, which the frame may hold as an integer. *)
Definition storable_number (q : option Q) : bool :=
  from_option (fun q => Qle_bool (inject_Z (- 2 ^ 63)) q
                        && negb (Qle_bool (inject_Z (2 ^ 63)) q)) true q.

(** Every integer of the table is one SQLite can store. *)
Definition storable (t : Table) : bool :=
  match t with
  | LocationTable l =>
      forallb (fun d => sqlite_integer (location_id d)
                        && forallb storable_cell (location_cols d)) l
  | VehicleTable l =>
      forallb (fun d => sqlite_integer (vehicle_id d)
                        && forallb storable_cell (vehicle_cols d)
                        && sqlite_integer (vehicle_EV_Type_Code d)
                        && sqlite_integer (vehicle_CAFV_Code d)) l
  | UtilityTable l =>
      forallb (fun d => sqlite_integer (utility_id d)
                        && storable_cell (utility_Electric_Utility d)) l
  | TimeTable l =>
      forallb (fun d => sqlite_integer (time_id d)
                        && storable_int (time_Model_Year d)
                        && storable_int (time_Model_Decade d)) l
  | FactTable l =>
      forallb (fun f => sqlite_integer (registration_id f)
                        && storable_int (fact_location_id f)
                        && storable_int (fact_vehicle_id f)
                        && storable_int (fact_utility_id f)
                        && storable_int (fact_time_id f)
                        && storable_number (fact_Base_MSRP f)
                        && storable_number (fact_Electric_Range f)
                        && storable_int (fact_DOL_Vehicle_ID f)) l
  end.

Definition storable_tables (model : list (string * Table)) : bool :=
  forallb (fun kv => storable kv.2) model.

(** The tables the first four stages of a run build, when they build them,
    are storable. *)
Definition storable_run (response : Result (DataFrame Source)) (current_year : Z) : bool :=
  match (stages response current_year (init url)).1 with
  | Ok model => storable_tables model
  | Raise _ => true
  end.

(** A world as runs of the script leave it, the warehouse being free for
    other tables and indexes: the only database file is the warehouse, with
    no clash of names in it, and the only flat files are exported tables of
    the model in the output directory. *)
Definition left_by_runs (w : World) : Prop :=
  (forall p, is_Some (databases w !! p) -> p = "ev_data_warehouse.db")
  /\ no_name_clash (warehouse_before w)
  /\ (forall p, is_Some (csv_files w !! p) ->
        exists name, name ∈ table_names /\ p = csv_path "data_warehouse_output" name).

(** ** A cleaning that stopped half way *)

(** The object after the source served the header alone and Clean/Transform
    ran with a clock that reads 2019: the cleaning raised in the binning of
    the years. *)
Definition half_cleaned : EVDataETL :=
  (clean_and_transform 2019 (extract_data (Ok header_only) (init url)).2).2.

(** ** Three registrations *)

(** Two registrations at the same address with the same point, and between
    them one in another city. *)
Definition three_registrations : DataFrame Source :=
  {| columns := dataset_columns;
     rows := [seattle 478093654 "POINT (-122.33 47.60)";
              set_obj City (Str "Tacoma") (seattle 274800718 "POINT (-122.44 47.25)");
              seattle 100000001 "POINT (-122.33 47.60)"] |}.

(** The rows of the cleaned table of an object. *)
Definition cleaned_rows (s : EVDataETL) : list Row :=
  from_option rows [] (cleaned_data s).

(** A lower-case hexadecimal digit. *)
Definition is_hex (c : ascii) : bool :=
  let n := Z.of_N (N_of_ascii c) in
  ((48 <=? n) && (n <=? 57)) || ((97 <=? n) && (n <=? 102)).

(* ===================================================================== *)
(** * The library models on known values                                  *)
(* ===================================================================== *)

Example md5_of_empty : MD5.hexdigest EmptyString = "d41d8cd98f00b204e9800998ecf8427e".
Proof. vm_compute. reflexivity. Qed.

Example md5_of_abc : MD5.hexdigest "abc" = "900150983cd24fb0d6963f7d28e17f72".
Proof. vm_compute. reflexivity. Qed.

(** A message of 80 bytes, two blocks. *)
Example md5_of_digits :
  MD5.hexdigest
    "12345678901234567890123456789012345678901234567890123456789012345678901234567890"
  = "57edf4a22be3c955ac49da2e2107b67a".
Proof. vm_compute. reflexivity. Qed.

Example vin_hash_values :
  vin_hash (Some "5YJ3E1EA0K") = "22d4e58b35" /\ vin_hash None = "Unknown".
Proof. vm_compute. done. Qed.

Example float_values :
  Py.float "-122.33" = Some (Py.Finite (-12233 # 100))
  /\ Py.float "47.60" = Some (Py.Finite (4760 # 100))
  /\ Py.float "1e3" = Some (Py.Finite (1000 # 1))
  /\ Py.float "1_0.5e-1" = Some (Py.Finite (105 # 100))
  /\ Py.float ".5" = Some (Py.Finite (5 # 10))
  /\ Py.float "5." = Some (Py.Finite (5 # 1))
  /\ Py.float "-Inf" = Some (Py.Inf true)
  /\ Py.float "nan" = Some Py.Nan.
Proof. repeat split. Qed.

Example float_errors :
  Py.float "abc" = None /\ Py.float "." = None /\ Py.float "1_" = None
  /\ Py.float "1__0" = None /\ Py.float EmptyString = None /\ Py.float "1e" = None
  /\ Py.float "+-1" = None /\ Py.float "0x10" = None /\ Py.float "POINT" = None.
Proof. repeat split. Qed.

Example replace_and_split :
  Py.str_replace "ab" "X" "aabababb" = "aXXXb"
  /\ Py.str_split "  a  b c " = ["a"; "b"; "c"]
  /\ point_tokens "POINT (-122.33 47.60)" = ["-122.33"; "47.60"]
  /\ point_tokens "POINT (-122.33 abc)" = ["-122.33"; "abc"]
  /\ point_tokens "Unknown" = ["Unknown"]
  /\ point_tokens "POINT (1 2 3)" = ["1"; "2"; "3"].
Proof. repeat split. Qed.

Example median_values :
  median [Some 150%Q; None; Some 60%Q] = Some (210 # 2)
  /\ median [Some 3%Q; Some 1%Q; Some 2%Q] = Some 2%Q
  /\ median [None; None] = None
  /\ median [] = None.
Proof. repeat split. Qed.

Example cut_values :
  pd_cut [Some 0; Some 2014; Some 2015; Some 2016; Some 2020; Some 2021; Some 2026;
          Some 2027; Some (-1); None]
         (year_bins 2025) year_labels true
  = Ok [Some "Pre-2015"; Some "Pre-2015"; Some "Pre-2015"; Some "2015-2020";
        Some "2015-2020"; Some "2021+"; Some "2021+"; None; None; None].
Proof. reflexivity. Qed.

(** With the clock before 2020 the edges do not increase and [pd.cut]
    raises. *)
Example cut_with_early_clock :
  pd_cut [Some 2015] (year_bins 2019) year_labels true
  = Raise (ValueError "Bin edges must be unique")
  /\ pd_cut [Some 2015] (year_bins 2018) year_labels true
     = Raise (ValueError "bins must increase monotonically.").
Proof. repeat split. Qed.

Example drop_duplicates_keeps_first :
  drop_duplicates [3; 1; 3; 2; 1] = [3; 1; 2].
Proof. reflexivity. Qed.

Example merge_left_values :
  merge_left (fun x : Z => x) fst [1; 2; 3] [(1, "a"); (3, "b"); (3, "c")]
  = [(1, Some (1, "a")); (2, None); (3, Some (3, "b")); (3, Some (3, "c"))].
Proof. reflexivity. Qed.

(* ===================================================================== *)
(** * Facts about the relational operations                               *)
(* ===================================================================== *)

Lemma map_fmap {A B} (f : A -> B) (l : list A) : map f l = f <$> l.
Proof. induction l as [|x l IH]; [done|]. simpl. by rewrite IH. Qed.

(** Assigning a series computed row by row is a map over the rows. *)
Lemma zip_with_map_diag {A V} (set : V -> A -> A) (g : A -> V) (l : list A) :
  zip_with set (map g l) l = map (fun r => set (g r) r) l.
Proof. induction l as [|x l IH]; [done|]. simpl. by rewrite IH. Qed.

Section RelationalFacts.
Context {K : Type} `{EqDecision K}.

Lemma elem_of_drop_duplicates_from (seen l : list K) (x : K) :
  x ∈ drop_duplicates_from seen l <-> x ∈ l /\ x ∉ seen.
Proof.
  revert seen. induction l as [|y l IH]; intros seen; simpl.
  - rewrite elem_of_nil. tauto.
  - case_bool_decide as Hy.
    + rewrite IH, elem_of_cons. split; [tauto|].
      intros [[->|Hx] Hs]; [contradiction|tauto].
    + rewrite !elem_of_cons, IH, elem_of_cons. split.
      * intros [->|[Hx Hs]]; [tauto|]. split; [tauto|]. tauto.
      * intros [[->|Hx] Hs]; [by left|].
        destruct (decide (x = y)) as [->|Hne]; [by left|right; tauto].
Qed.

Lemma NoDup_drop_duplicates_from (seen l : list K) :
  NoDup (drop_duplicates_from seen l).
Proof.
  revert seen. induction l as [|y l IH]; intros seen; simpl.
  - constructor.
  - case_bool_decide; [apply IH|].
    apply NoDup_cons. split; [|apply IH].
    rewrite elem_of_drop_duplicates_from, elem_of_cons. tauto.
Qed.

(** A frame and its deduplication hold the same rows. *)
Lemma elem_of_drop_duplicates (l : list K) (x : K) :
  x ∈ drop_duplicates l <-> x ∈ l.
Proof.
  unfold drop_duplicates. rewrite elem_of_drop_duplicates_from, elem_of_nil. tauto.
Qed.

Lemma NoDup_drop_duplicates (l : list K) : NoDup (drop_duplicates l).
Proof. apply NoDup_drop_duplicates_from. Qed.

Lemma drop_duplicates_length (l : list K) :
  (length (drop_duplicates l) <= length l)%nat.
Proof.
  unfold drop_duplicates. generalize (@nil K) as seen.
  induction l as [|y l IH]; intros seen; simpl; [lia|].
  case_bool_decide; simpl; [specialize (IH seen)|specialize (IH (y :: seen))]; lia.
Qed.

Context {L R : Type} (lkey : L -> K) (rkey : R -> K).

(** The rows of a dimension that carry a given key. *)
Lemma filter_key_absent (right : list R) (k : K) :
  k ∉ map rkey right -> filter (fun r => rkey r = k) right = [].
Proof.
  induction right as [|r right IH]; simpl; [done|].
  rewrite elem_of_cons. intros Hk.
  rewrite filter_cons_False; [|intros Heq; apply Hk; by left].
  apply IH. tauto.
Qed.

Lemma filter_key_unique (right : list R) (k : K) :
  NoDup (map rkey right) -> k ∈ map rkey right ->
  exists r, filter (fun r => rkey r = k) right = [r] /\ rkey r = k.
Proof.
  induction right as [|r right IH]; simpl.
  - by intros _ ?%elem_of_nil.
  - intros [Hr Hnd]%NoDup_cons Hin.
    destruct (decide (rkey r = k)) as [Heq|Hne].
    + exists r. rewrite filter_cons_True; [|done].
      rewrite filter_key_absent; [done|by rewrite <- Heq].
    + rewrite filter_cons_False; [|done]. apply IH; [done|].
      apply elem_of_cons in Hin as [?|?]; [congruence|done].
Qed.

Lemma filter_key_present (right : list R) (k : K) :
  k ∈ map rkey right -> filter (fun r => rkey r = k) right <> [].
Proof.
  rewrite map_fmap. intros (r & -> & Hr)%list_elem_of_fmap Hnil.
  assert (r ∈ filter (fun r' => rkey r' = rkey r) right) as Hin
    by by apply list_elem_of_filter.
  rewrite Hnil in Hin. by apply elem_of_nil in Hin.
Qed.

(** A left join keeps every row of the left table at least once. *)
Lemma merge_left_length_ge (left : list L) (right : list R) :
  (length left <= length (merge_left lkey rkey left right))%nat.
Proof.
  induction left as [|l left IH]; simpl; [lia|].
  rewrite length_app.
  destruct (filter _ right) as [|m ms]; simpl; [lia|].
  rewrite length_map. lia.
Qed.

(** When the keys of the right table are pairwise distinct and cover the
    keys of the left table, the join has exactly the rows of the left
    table. *)
Lemma merge_left_length (left : list L) (right : list R) :
  NoDup (map rkey right) ->
  (forall l, l ∈ left -> lkey l ∈ map rkey right) ->
  length (merge_left lkey rkey left right) = length left.
Proof.
  intros Hnd. induction left as [|l left IH]; intros Hcov; simpl; [done|].
  rewrite length_app, IH; [|intros; apply Hcov; by right].
  destruct (filter_key_unique right (lkey l) Hnd) as (r & -> & _);
    [apply Hcov; by left|done].
Qed.

(** Every row of a left join comes from a row of the left table; it has a
    partner when the key of that row occurs in the right table. *)
Lemma merge_left_rows (left : list L) (right : list R) (P : L -> Prop) :
  Forall P left ->
  Forall (fun p => P p.1) (merge_left lkey rkey left right).
Proof.
  induction 1 as [|l left Hl _ IH]; simpl; [constructor|].
  apply Forall_app. split; [|done].
  destruct (filter _ right) as [|m ms]; [by repeat constructor|].
  constructor; [exact Hl|]. apply Forall_forall. intros p Hp.
  apply list_elem_of_In, in_map_iff in Hp as (r & <- & _). exact Hl.
Qed.

Lemma merge_left_matched (left : list L) (right : list R) :
  (forall l, l ∈ left -> lkey l ∈ map rkey right) ->
  Forall (fun p => is_Some p.2) (merge_left lkey rkey left right).
Proof.
  induction left as [|l left IH]; intros Hcov; simpl; [constructor|].
  apply Forall_app. split; [|apply IH; intros; apply Hcov; by right].
  pose proof (filter_key_present right (lkey l) (Hcov l ltac:(by left))) as Hne.
  destruct (filter _ right) as [|m ms]; [done|].
  constructor; [by eexists|]. apply Forall_forall. intros p Hp.
  apply list_elem_of_In, in_map_iff in Hp as (r & <- & _). by eexists.
Qed.
End RelationalFacts.

(** The keys of a numbered table are the rows it was numbered from. *)
Lemma with_ids_keys {A B} (mk : Z -> A -> B) (key : B -> A) (l : list A) :
  (forall i a, key (mk i a) = a) -> map key (with_ids mk l) = l.
Proof.
  intros Hkey. unfold with_ids. rewrite map_fmap, fmap_imap.
  rewrite (imap_ext _ (const id)); [|intros; apply Hkey].
  by rewrite imap_const, list_fmap_id.
Qed.

Lemma with_ids_length {A B} (mk : Z -> A -> B) (l : list A) :
  length (with_ids mk l) = length l.
Proof. apply length_imap. Qed.

(* ===================================================================== *)
(** * Running the methods                                                 *)
(* ===================================================================== *)

Lemma run_bind {S A B} (m : M S A) (k : A -> M S B) (s s' : S) (a : A) :
  m s = (Ok a, s') -> (m ≫= k) s = k a s'.
Proof. intros H. unfold mbind, M_bind, bind. by rewrite H. Qed.

Lemma run_bind_raise {S A B} (m : M S A) (k : A -> M S B) (s s' : S) (e : exn) :
  m s = (Raise e, s') -> (m ≫= k) s = (Raise e, s').
Proof. intros H. unfold mbind, M_bind, bind. by rewrite H. Qed.

Lemma run_the_cleaned_data s df :
  cleaned_data s = Some df -> the_cleaned_data s = (Ok df, s).
Proof. intros H. unfold the_cleaned_data, mbind, M_bind, bind, get. by rewrite H. Qed.

Lemma run_when_column name body s df :
  cleaned_data s = Some df -> has_column name df = true ->
  when_column name body s = body df s.
Proof.
  intros H Hc. unfold when_column.
  rewrite (run_bind _ _ _ _ _ (run_the_cleaned_data _ _ H)). by rewrite Hc.
Qed.

Lemma run_set_column {V} name (set : V -> Row -> Row) series s df :
  cleaned_data s = Some df ->
  set_column name set series s
  = (Ok tt, set_cleaned_data (Some (assign name set series df)) s).
Proof.
  intros H. unfold set_column.
  by rewrite (run_bind _ _ _ _ _ (run_the_cleaned_data _ _ H)).
Qed.

(** A column computed row by row, assigned to a frame whose rows are
    themselves computed row by row. *)
Lemma assign_rows {V} name (set : V -> Row -> Row) (G : Source -> V) C
    (f : Source -> Row) rs :
  assign name set (map G rs) {| columns := C; rows := map f rs |}
  = {| columns := if existsb (String.eqb name) C then C else C ++ [name];
       rows := map (fun x => set (G x) (f x)) rs |}.
Proof.
  unfold assign, has_column. simpl. f_equal.
  induction rs as [|x rs IH]; [done|]. simpl. by rewrite IH.
Qed.

Lemma step_seq m1 m2 df1 df2 df3 :
  frame_step m1 df1 df2 -> frame_step m2 df2 df3 ->
  frame_step (m1 ≫= fun _ => m2) df1 df3.
Proof.
  intros H1 H2 s Hs. rewrite (run_bind _ _ _ _ _ (H1 s Hs)).
  by rewrite (H2 (set_cleaned_data (Some df2) s) eq_refl).
Qed.

Lemma step_ret df : frame_step (mret tt) df df.
Proof. intros [] Hs. simpl in Hs. by subst. Qed.

Lemma step_when name body df df' :
  has_column name df = true -> frame_step (body df) df df' ->
  frame_step (when_column name body) df df'.
Proof. intros Hc Hb s Hs. rewrite (run_when_column _ _ _ _ Hs Hc). by apply Hb. Qed.

Lemma step_lift {A} (r : Result A) (v : A) (k : A -> M EVDataETL unit) df df' :
  r = Ok v -> frame_step (k v) df df' -> frame_step (lift r ≫= k) df df'.
Proof. intros -> Hk s Hs. unfold mbind, M_bind, bind. simpl. by apply Hk. Qed.

Lemma step_assign {V} name (set : V -> Row -> Row) (G : Source -> V) C C'
    (f f' : Source -> Row) rs :
  (if existsb (String.eqb name) C then C else C ++ [name]) = C' ->
  (forall x, set (G x) (f x) = f' x) ->
  frame_step (set_column name set (map G rs))
             {| columns := C; rows := map f rs |}
             {| columns := C'; rows := map f' rs |}.
Proof.
  intros <- Hf s Hs. rewrite (run_set_column _ _ _ _ _ Hs), assign_rows.
  by rewrite (map_ext _ _ Hf rs).
Qed.

(** With the clock at 2020 or later the edges increase and [pd.cut] bins
    every value. *)
Lemma pd_cut_years (x : list (option Z)) (current_year : Z) :
  2020 <= current_year ->
  pd_cut x (year_bins current_year) year_labels true
  = Ok (map (cut_one (year_bins current_year) year_labels true) x).
Proof.
  intros Hcy. unfold pd_cut, year_bins, year_labels. simpl.
  replace (2020 <=? current_year + 1) with true by (symmetry; apply Z.leb_le; lia).
  replace (2020 <? current_year + 1) with true by (symmetry; apply Z.ltb_lt; lia).
  reflexivity.
Qed.

(** The tests on column names in a row function are decided. *)
Ltac decide_columns :=
  repeat first
    [ rewrite decide_False by discriminate
    | rewrite decide_True by reflexivity ].

(** One rule per construct of the cleaning methods. *)
Ltac frame_steps :=
  lazymatch goal with
  | |- frame_step (lift _ ≫= _) _ _ =>
      eapply step_lift; [apply pd_cut_years; assumption|cbv beta; frame_steps]
  | |- frame_step (_ ≫= fun _ => _) _ _ => eapply step_seq; [frame_steps|frame_steps]
  | |- frame_step (mret tt) _ _ => apply step_ret
  | |- frame_step (when_column _ _) _ _ =>
      eapply step_when; [reflexivity|cbv beta; frame_steps]
  | |- frame_step (set_column _ _ _) _ _ =>
      unfold col; cbn [rows]; rewrite ?map_map;
      eapply step_assign;
      [vm_compute; reflexivity|intros ?; cbn; decide_columns; reflexivity]
  | |- frame_step (fill_unknown _) _ _ => unfold fill_unknown; frame_steps
  end.

(** The three cleaning methods in a row, on a copy of a documented source
    frame: every row is rewritten on its own, the median apart. *)
Lemma cleaning_steps (current_year : Z) (rs : list Source) :
  2020 <= current_year ->
  exists (df1 df2 : DataFrame Row) (f : Source -> Row),
    frame_step _handle_missing_values
               (copy {| columns := dataset_columns; rows := rs |}) df1
    /\ frame_step _encode_categorical_variables df1 df2
    /\ frame_step (_create_derived_fields current_year) df2
                  {| columns := cleaned_columns; rows := map f rs |}
    /\ forall x, cleaned_from current_year (median (map Electric_Range rs)) x (f x).
Proof.
  intros Hcy. do 3 eexists. split; [|split; [|split]].
  - unfold _handle_missing_values, categorical_cols, geo_cols, for_each, copy.
    cbn [rows columns]. frame_steps.
  - unfold _encode_categorical_variables. frame_steps.
  - unfold _create_derived_fields. frame_steps.
  - intros x. split; try reflexivity.
    intros c. destruct c; cbn; decide_columns; reflexivity.
Qed.

Lemma Forall2_map_same {A B} (P : A -> B -> Prop) (f : A -> B) (l : list A) :
  (forall x, P x (f x)) -> Forall2 P l (map f l).
Proof. intros Hf. induction l; simpl; constructor; auto. Qed.

Lemma run_get {S B} (k : S -> M S B) (s : S) : (get ≫= k) s = k s s.
Proof. reflexivity. Qed.

Lemma run_modify {S B} (f : S -> S) (k : unit -> M S B) (s : S) :
  (modify f ≫= k) s = k tt (f s).
Proof. reflexivity. Qed.

Lemma run_frame_step {B} m (k : unit -> M EVDataETL B) df df' s :
  frame_step m df df' -> cleaned_data s = Some df ->
  (m ≫= k) s = k tt (set_cleaned_data (Some df') s).
Proof. intros Hm Hs. by rewrite (run_bind _ _ _ _ _ (Hm s Hs)). Qed.

(** Clean/Transform on a documented source: it returns, the cleaned frame
    has the documented columns and the five added ones, and its rows are the
    source records cleaned one by one, in order. *)
Lemma clean_and_transform_run (current_year : Z) (s : EVDataETL)
    (raw : DataFrame Source) :
  raw_data s = Some raw -> documented raw -> 2020 <= current_year ->
  exists df,
    clean_and_transform current_year s = (Ok df, set_cleaned_data (Some df) s)
    /\ columns df = cleaned_columns
    /\ Forall2 (cleaned_from current_year (median (map Electric_Range (rows raw))))
               (rows raw) (rows df).
Proof.
  intros Hraw Hdoc Hcy. destruct raw as [C rs]. unfold documented in Hdoc.
  simpl in Hdoc. subst C.
  destruct (cleaning_steps current_year rs Hcy) as (df1 & df2 & f & H1 & H2 & H3 & Hf).
  exists {| columns := cleaned_columns; rows := map f rs |}.
  split; [|split; [done|by apply Forall2_map_same]].
  unfold clean_and_transform.
  rewrite run_get, Hraw, run_modify.
  rewrite (run_frame_step _ _ _ _ _ H1) by reflexivity.
  rewrite (run_frame_step _ _ _ _ _ H2) by reflexivity.
  rewrite (run_frame_step _ _ _ _ _ H3) by reflexivity.
  by apply run_the_cleaned_data.
Qed.

(** ** The model builder *)

Lemma dict_get_set {V} (k k' : string) (v : V) (d : list (string * V)) :
  dict_get (dict_set k v d) k' = if String.eqb k k' then Some v else dict_get d k'.
Proof.
  induction d as [|[k0 v0] d IH]; simpl.
  - by destruct (String.eqb k k').
  - destruct (String.eqb k0 k) eqn:E; simpl.
    + apply String.eqb_eq in E as ->. by destruct (String.eqb k k').
    + rewrite IH. destruct (String.eqb k0 k') eqn:E0; [|done].
      destruct (String.eqb k k') eqn:E1; [|done].
      apply String.eqb_eq in E0 as ->. apply String.eqb_eq in E1 as ->.
      by rewrite String.eqb_refl in E.
Qed.

Lemma run_select names s df :
  cleaned_data s = Some df -> missing_column names df = None ->
  select names s = (Ok df, s).
Proof.
  intros Hs Hm. unfold select.
  rewrite (run_bind _ _ _ _ _ (run_the_cleaned_data _ _ Hs)). by rewrite Hm.
Qed.

Lemma run_the_dimension name s t :
  dict_get (dimension_tables s) name = Some t -> the_dimension name s = (Ok t, s).
Proof. intros H. unfold the_dimension. rewrite run_get. by rewrite H. Qed.

(** A frame with the columns of the cleaned table has every column the
    builders and the joins ask for. *)
Lemma cleaned_columns_complete (names : list string) (df : DataFrame Row) :
  columns df = cleaned_columns ->
  forallb (fun n => existsb (String.eqb n) cleaned_columns) names = true ->
  missing_column names df = None.
Proof.
  intros Hc Hn. unfold missing_column, has_column. rewrite Hc.
  induction names as [|n names IH]; simpl in *; [done|].
  apply andb_prop in Hn as [-> Hn]. simpl. by apply IH.
Qed.

Ltac select_columns Hs Hc :=
  erewrite run_bind;
  [|apply run_select; [exact Hs|apply cleaned_columns_complete; [exact Hc|reflexivity]]].

Section Builders.
Context (s : EVDataETL) (df : DataFrame Row).
Context (Hs : cleaned_data s = Some df) (Hc : columns df = cleaned_columns).

Lemma run_create_location_dimension :
  _create_location_dimension s
  = (Ok tt, set_dimension_tables
              (dict_set "dim_location" (LocationTable (location_dimension (rows df)))
                        (dimension_tables s)) s).
Proof. unfold _create_location_dimension. by select_columns Hs Hc. Qed.

Lemma run_create_vehicle_dimension :
  _create_vehicle_dimension s
  = (Ok tt, set_dimension_tables
              (dict_set "dim_vehicle" (VehicleTable (vehicle_dimension (rows df)))
                        (dimension_tables s)) s).
Proof. unfold _create_vehicle_dimension. by select_columns Hs Hc. Qed.

Lemma run_create_utility_dimension :
  _create_utility_dimension s
  = (Ok tt, set_dimension_tables
              (dict_set "dim_utility" (UtilityTable (utility_dimension (rows df)))
                        (dimension_tables s)) s).
Proof. unfold _create_utility_dimension. by select_columns Hs Hc. Qed.

Lemma run_create_time_dimension :
  _create_time_dimension s
  = (Ok tt, set_dimension_tables
              (dict_set "dim_time" (TimeTable (time_dimension (rows df)))
                        (dimension_tables s)) s).
Proof. unfold _create_time_dimension. by select_columns Hs Hc. Qed.

(** The fact builder, once the four dimensions are in the dictionary. *)
Lemma run_create_fact_table loc veh uti tim :
  dict_get (dimension_tables s) "dim_location" = Some (LocationTable loc) ->
  dict_get (dimension_tables s) "dim_vehicle" = Some (VehicleTable veh) ->
  dict_get (dimension_tables s) "dim_utility" = Some (UtilityTable uti) ->
  dict_get (dimension_tables s) "dim_time" = Some (TimeTable tim) ->
  _create_fact_table s
  = (Ok tt, set_fact_table (Some (fact_rows (rows df) loc veh uti tim)) s).
Proof.
  intros Hl Hv Hu Ht. unfold _create_fact_table.
  rewrite (run_bind _ _ _ _ _ (run_the_cleaned_data _ _ Hs)).
  rewrite (run_bind _ _ _ _ _ (run_the_dimension _ _ _ Hl)).
  rewrite (run_bind _ _ s s loc) by done. select_columns Hs Hc.
  rewrite (run_bind _ _ _ _ _ (run_the_dimension _ _ _ Hv)).
  rewrite (run_bind _ _ s s veh) by done. select_columns Hs Hc.
  rewrite (run_bind _ _ _ _ _ (run_the_dimension _ _ _ Hu)).
  rewrite (run_bind _ _ s s uti) by done. select_columns Hs Hc.
  rewrite (run_bind _ _ _ _ _ (run_the_dimension _ _ _ Ht)).
  rewrite (run_bind _ _ s s tim) by done. select_columns Hs Hc.
  by select_columns Hs Hc.
Qed.
End Builders.

(** The model builder on a cleaned frame: it returns; the four dimension
    tables are entered in the dictionary and the fact table is stored. *)
Lemma create_dimensional_model_run (s : EVDataETL) (df : DataFrame Row) :
  cleaned_data s = Some df -> columns df = cleaned_columns ->
  create_dimensional_model s
  = (Ok (dict_set "fact_vehicle_registration" (FactTable (built_fact (rows df)))
                  (built_dimensions (rows df) (dimension_tables s))),
     set_fact_table (Some (built_fact (rows df)))
       (set_dimension_tables (built_dimensions (rows df) (dimension_tables s)) s)).
Proof.
  intros Hs Hc. unfold create_dimensional_model.
  rewrite run_get, Hs.
  rewrite (run_bind _ _ _ _ _ (run_create_location_dimension s df Hs Hc)).
  erewrite run_bind; [|apply (run_create_vehicle_dimension _ df); [exact Hs|exact Hc]].
  erewrite run_bind; [|apply (run_create_utility_dimension _ df); [exact Hs|exact Hc]].
  erewrite run_bind; [|apply (run_create_time_dimension _ df); [exact Hs|exact Hc]].
  cbn [dimension_tables set_dimension_tables].
  erewrite run_bind;
    [|apply (run_create_fact_table _ df); [exact Hs|exact Hc|..];
      cbn [dimension_tables set_dimension_tables]; rewrite !dict_get_set; reflexivity].
  reflexivity.
Qed.

(* ===================================================================== *)
(** * The dimensions and the joins                                        *)
(* ===================================================================== *)

Lemma with_ids_map {A B C} (mk : Z -> A -> B) (g : B -> C) (h : A -> C) (l : list A) :
  (forall i a, g (mk i a) = h a) -> map g (with_ids mk l) = map h l.
Proof.
  intros Hg. unfold with_ids. rewrite !map_fmap, fmap_imap.
  rewrite (imap_ext _ (const h)); [|intros; apply Hg].
  by rewrite imap_const.
Qed.

Lemma with_ids_Forall {A B} (mk : Z -> A -> B) (P : A -> Prop) (Q : B -> Prop)
    (l : list A) :
  Forall P l -> (forall i a, P a -> Q (mk i a)) -> Forall Q (with_ids mk l).
Proof.
  intros Hl Hmk. apply Forall_forall. intros b Hb. unfold with_ids in Hb.
  apply elem_of_lookup_imap in Hb as (i & a & -> & Ha).
  apply Hmk. eapply Forall_forall; [exact Hl|]. by eapply list_elem_of_lookup_2.
Qed.

(** The natural keys of the vehicle, utility and time dimensions are the
    deduplicated key columns of the cleaned table: pairwise distinct, and
    every cleaned row finds its own. *)
Lemma vehicle_dimension_keys (cleaned : list Row) :
  map vehicle_row_key (vehicle_dimension cleaned)
  = drop_duplicates (map vehicle_key cleaned).
Proof.
  unfold vehicle_dimension.
  rewrite (with_ids_map _ _ id); [|by intros i [[? ?] ?]]. apply map_id.
Qed.

Lemma utility_dimension_keys (cleaned : list Row) :
  map utility_Electric_Utility (utility_dimension cleaned)
  = drop_duplicates (map (fun r : Row => utility_key r) cleaned).
Proof.
  unfold utility_dimension. rewrite (with_ids_map _ _ id); [|done]. apply map_id.
Qed.

Lemma time_dimension_keys (cleaned : list Row) :
  map time_row_key (time_dimension cleaned)
  = drop_duplicates (map time_key cleaned).
Proof.
  unfold time_dimension.
  rewrite (with_ids_map _ _ id); [|by intros i [[? ?] ?]]. apply map_id.
Qed.

(** The location dimension is deduplicated on seven columns and joined on
    six of them: its join keys are the first components. *)
Lemma location_dimension_keys (cleaned : list Row) :
  map location_row_key (location_dimension cleaned)
  = map fst (drop_duplicates
               (map (fun r : Row => (location_key r, obj r Vehicle_Location)) cleaned)).
Proof.
  unfold location_dimension.
  rewrite (with_ids_map _ _ fst); [|done]. by rewrite map_map.
Qed.

Lemma elem_of_map_2 {A B} (f : A -> B) (l : list A) (x : A) : x ∈ l -> f x ∈ map f l.
Proof. rewrite map_fmap. apply list_elem_of_fmap_2. Qed.

Lemma location_key_covered (cleaned : list Row) (r : Row) :
  r ∈ cleaned -> location_key r ∈ map location_row_key (location_dimension cleaned).
Proof.
  intros Hr. rewrite location_dimension_keys.
  apply (elem_of_map_2 fst _ (location_key r, obj r Vehicle_Location)).
  apply elem_of_drop_duplicates.
  by apply (elem_of_map_2 (fun r : Row => (location_key r, obj r Vehicle_Location))).
Qed.

Lemma vehicle_key_covered (cleaned : list Row) (r : Row) :
  r ∈ cleaned -> vehicle_key r ∈ map vehicle_row_key (vehicle_dimension cleaned).
Proof.
  intros Hr. rewrite vehicle_dimension_keys. apply elem_of_drop_duplicates.
  by apply elem_of_map_2.
Qed.

Lemma utility_key_covered (cleaned : list Row) (r : Row) :
  r ∈ cleaned ->
  utility_key r ∈ map utility_Electric_Utility (utility_dimension cleaned).
Proof.
  intros Hr. rewrite utility_dimension_keys. apply elem_of_drop_duplicates.
  by apply (elem_of_map_2 (fun r : Row => utility_key r)).
Qed.

Lemma time_key_covered (cleaned : list Row) (r : Row) :
  r ∈ cleaned -> time_key r ∈ map time_row_key (time_dimension cleaned).
Proof.
  intros Hr. rewrite time_dimension_keys. apply elem_of_drop_duplicates.
  by apply elem_of_map_2.
Qed.

(** Every row of the four joins has a partner in each dimension. *)
Lemma join_dimensions_matched (cleaned : list Row) :
  Forall (fun j : Joined =>
            is_Some j.1.1.1.2 /\ is_Some j.1.1.2 /\ is_Some j.1.2 /\ is_Some j.2)
         (join_dimensions cleaned (location_dimension cleaned)
            (vehicle_dimension cleaned) (utility_dimension cleaned)
            (time_dimension cleaned)).
Proof.
  unfold join_dimensions.
  set (j1 := merge_left _ location_row_key cleaned _).
  set (j2 := merge_left _ vehicle_row_key j1 _).
  set (j3 := merge_left _ utility_Electric_Utility j2 _).
  assert (Forall (fun j => j.1 ∈ cleaned /\ is_Some j.2) j1) as H1.
  { apply Forall_and. split; unfold j1.
    - apply (merge_left_rows _ _ cleaned _ (fun r => r ∈ cleaned)), Forall_forall. auto.
    - apply merge_left_matched. apply location_key_covered. }
  assert (Forall (fun j => (j.1.1 ∈ cleaned /\ is_Some j.1.2) /\ is_Some j.2) j2) as H2.
  { apply Forall_and. split; unfold j2.
    - by apply (merge_left_rows _ _ j1 _ (fun j => j.1 ∈ cleaned /\ is_Some j.2)).
    - apply merge_left_matched. intros l Hl. apply vehicle_key_covered.
      eapply Forall_forall in H1; [|exact Hl]. tauto. }
  assert (Forall (fun j => ((j.1.1.1 ∈ cleaned /\ is_Some j.1.1.2) /\ is_Some j.1.2)
                           /\ is_Some j.2) j3) as H3.
  { apply Forall_and. split; unfold j3.
    - by apply (merge_left_rows _ _ j2 _
                  (fun j => (j.1.1 ∈ cleaned /\ is_Some j.1.2) /\ is_Some j.2)).
    - apply merge_left_matched. intros l Hl. apply utility_key_covered.
      eapply Forall_forall in H2; [|exact Hl]. tauto. }
  assert (Forall (fun j : Joined =>
                    (((j.1.1.1.1 ∈ cleaned /\ is_Some j.1.1.1.2) /\ is_Some j.1.1.2)
                     /\ is_Some j.1.2) /\ is_Some j.2)
                 (merge_left (fun j => time_key j.1.1.1) time_row_key j3
                             (time_dimension cleaned))) as H4.
  { apply Forall_and. split.
    - by apply (merge_left_rows _ _ j3 _
                  (fun j => ((j.1.1.1 ∈ cleaned /\ is_Some j.1.1.2) /\ is_Some j.1.2)
                            /\ is_Some j.2)).
    - apply merge_left_matched. intros l Hl. apply time_key_covered.
      eapply Forall_forall in H3; [|exact Hl]. tauto. }
  eapply Forall_impl; [exact H4|]. simpl. tauto.
Qed.

Lemma built_fact_keys (cleaned : list Row) : Forall keys_present (built_fact cleaned).
Proof.
  unfold built_fact, fact_rows.
  eapply with_ids_Forall; [apply join_dimensions_matched|].
  intros i [[[[r l] v] u] t] (Hl & Hv & Hu & Ht). simpl in *.
  unfold keys_present. simpl. rewrite !fmap_is_Some. tauto.
Qed.

(** The vehicle, utility and time joins never multiply a row; the location
    join does not either when the six join columns determine the
    coordinates. *)
Lemma built_fact_length (cleaned : list Row) :
  (forall r r' : Row, r ∈ cleaned -> r' ∈ cleaned ->
                location_key r = location_key r' ->
                obj r Vehicle_Location = obj r' Vehicle_Location) ->
  length (built_fact cleaned) = length cleaned.
Proof.
  intros Hdet. unfold built_fact, fact_rows, join_dimensions.
  rewrite with_ids_length.
  set (j1 := merge_left _ location_row_key cleaned _).
  set (j2 := merge_left _ vehicle_row_key j1 _).
  set (j3 := merge_left _ utility_Electric_Utility j2 _).
  assert (Forall (fun j => j.1 ∈ cleaned) j1) as H1.
  { unfold j1. apply (merge_left_rows _ _ cleaned _ (fun r => r ∈ cleaned)).
    apply Forall_forall. auto. }
  assert (Forall (fun j => j.1.1 ∈ cleaned) j2) as H2.
  { unfold j2. by apply (merge_left_rows _ _ j1 _ (fun j => j.1 ∈ cleaned)). }
  assert (Forall (fun j => j.1.1.1 ∈ cleaned) j3) as H3.
  { unfold j3. by apply (merge_left_rows _ _ j2 _ (fun j => j.1.1 ∈ cleaned)). }
  rewrite (merge_left_length _ time_row_key j3).
  - unfold j3. rewrite (merge_left_length _ utility_Electric_Utility j2).
    + unfold j2. rewrite (merge_left_length _ vehicle_row_key j1).
      * unfold j1. rewrite (merge_left_length _ location_row_key cleaned);
          [done| |apply location_key_covered].
        rewrite location_dimension_keys, map_fmap.
        apply NoDup_fmap_2_strong; [|apply NoDup_drop_duplicates].
        intros [k1 v1] [k2 v2] Hx Hy Hk. cbn [fst] in Hk. subst k2.
        apply elem_of_drop_duplicates, list_elem_of_In, in_map_iff in Hx
          as (r1 & E1 & Hr1).
        apply elem_of_drop_duplicates, list_elem_of_In, in_map_iff in Hy
          as (r2 & E2 & Hr2).
        pose proof (f_equal fst E1) as K1. pose proof (f_equal snd E1) as V1.
        pose proof (f_equal fst E2) as K2. pose proof (f_equal snd E2) as V2.
        cbn [fst snd] in K1, V1, K2, V2. subst v1 v2. f_equal.
        apply Hdet; [by apply list_elem_of_In..|congruence].
      * rewrite vehicle_dimension_keys. apply NoDup_drop_duplicates.
      * intros l Hl. apply vehicle_key_covered. by eapply Forall_forall in H1.
    + rewrite utility_dimension_keys. apply NoDup_drop_duplicates.
    + intros l Hl. apply utility_key_covered. by eapply Forall_forall in H2.
  - rewrite time_dimension_keys. apply NoDup_drop_duplicates.
  - intros l Hl. apply time_key_covered. by eapply Forall_forall in H3.
Qed.

(** The fact table never has fewer rows than the cleaned table. *)
Lemma built_fact_length_ge (cleaned : list Row) :
  (length cleaned <= length (built_fact cleaned))%nat.
Proof.
  unfold built_fact, fact_rows, join_dimensions. rewrite with_ids_length.
  repeat (etrans; [|apply merge_left_length_ge]). done.
Qed.

(* ===================================================================== *)
(** * The fact table                                                      *)
(* ===================================================================== *)

(** C10.  For every documented input, cleaning and the model builder return,
    and every row of the fact table they store has a location, a vehicle, a
    utility and a time key: each dimension is a deduplicated projection of
    the cleaned table the joins start from, and missing cells match each
    other, so every cleaned row finds a row of each dimension. *)
Theorem fact_keys_present (current_year : Z) (s : EVDataETL) (raw : DataFrame Source) :
  raw_data s = Some raw -> documented raw -> 2020 <= current_year ->
  exists df s1 model s2 fact,
    clean_and_transform current_year s = (Ok df, s1)
    /\ create_dimensional_model s1 = (Ok model, s2)
    /\ fact_table s2 = Some fact
    /\ dict_get model "fact_vehicle_registration" = Some (FactTable fact)
    /\ Forall keys_present fact.
Proof.
  intros Hraw Hdoc Hcy.
  destruct (clean_and_transform_run current_year s raw Hraw Hdoc Hcy)
    as (df & Hclean & Hcols & _).
  eexists df, _, _, _, (built_fact (rows df)).
  split; [exact Hclean|].
  split; [by apply (create_dimensional_model_run _ df)|].
  split; [done|]. split; [|apply built_fact_keys].
  rewrite dict_get_set. done.
Qed.

Lemma fact_keys_present_witness :
  exists df s1 model s2 fact,
    clean_and_transform 2025 (set_raw_data (Some scenario) (init url)) = (Ok df, s1)
    /\ create_dimensional_model s1 = (Ok model, s2)
    /\ fact_table s2 = Some fact
    /\ dict_get model "fact_vehicle_registration" = Some (FactTable fact)
    /\ Forall keys_present fact.
Proof.
  apply (fact_keys_present 2025 (set_raw_data (Some scenario) (init url)) scenario);
    [reflexivity|reflexivity|lia].
Defined.

(** C1, at the input [two_points]: two registrations that agree on the six
    columns of the location join and differ in their coordinates.  The
    location dimension, deduplicated on seven columns, holds the six join
    columns twice; each cleaned row matches both, and the fact table has
    four rows for two cleaned rows. *)
Theorem location_join_fans_out :
  cleaned_count (through_model 2025 two_points).2 = Some 2%nat
  /\ dimension_count (through_model 2025 two_points).2 "dim_location" = Some 2%nat
  /\ fact_count (through_model 2025 two_points).2 = Some 4%nat.
Proof. vm_compute. done. Qed.

(** When no two cleaned rows agree on the six join columns while differing
    in the coordinates, the fact table has exactly the rows of the cleaned
    table, also when whole rows repeat. *)
Lemma fact_rows_preserved (current_year : Z) (s : EVDataETL) (raw : DataFrame Source) :
  raw_data s = Some raw -> documented raw -> 2020 <= current_year ->
  (forall x y : Source, x ∈ rows raw -> y ∈ rows raw ->
     map (fun c => fillna (Str "Unknown") (obj x c))
         [County; City; Postal_Code; Legislative_District; Census_Tract_2020]
     = map (fun c => fillna (Str "Unknown") (obj y c))
           [County; City; Postal_Code; Legislative_District; Census_Tract_2020] ->
     obj x State = obj y State ->
     obj x Vehicle_Location = obj y Vehicle_Location) ->
  exists df s1 model s2 fact,
    clean_and_transform current_year s = (Ok df, s1)
    /\ create_dimensional_model s1 = (Ok model, s2)
    /\ fact_table s2 = Some fact
    /\ length fact = length (rows raw).
Proof.
  intros Hraw Hdoc Hcy Hdet.
  destruct (clean_and_transform_run current_year s raw Hraw Hdoc Hcy)
    as (df & Hclean & Hcols & Hrows).
  eexists df, _, _, _, (built_fact (rows df)).
  split; [exact Hclean|].
  split; [by apply (create_dimensional_model_run _ df)|].
  split; [done|].
  rewrite (Forall2_length _ _ _ Hrows). apply built_fact_length.
  intros r r' Hr Hr' Hk.
  apply list_elem_of_lookup in Hr as [i Hi]. apply list_elem_of_lookup in Hr' as [j Hj].
  destruct (Forall2_lookup_r _ _ _ _ _ Hrows Hi) as (x & Hx & Hxr).
  destruct (Forall2_lookup_r _ _ _ _ _ Hrows Hj) as (y & Hy & Hyr).
  rewrite (cleaned_obj _ _ _ _ Hxr), (cleaned_obj _ _ _ _ Hyr). simpl.
  unfold location_key in Hk. simpl in Hk.
  rewrite !(cleaned_obj _ _ _ _ Hxr), !(cleaned_obj _ _ _ _ Hyr) in Hk. simpl in Hk.
  apply Hdet; [by eapply list_elem_of_lookup_2..| |]; simpl; congruence.
Qed.

(* ===================================================================== *)
(** * Cleaning                                                            *)
(* ===================================================================== *)





(** The codes of the two lookup tables, whatever the cell. *)
Lemma ev_type_code_range (c : cell) :
  fillna0_int (map_dict ev_type_mapping c) ∈ [0; 1; 2].
Proof.
  rewrite list_elem_of_In.
  destruct c as [| |t]; [vm_compute; auto 10..|].
  unfold map_dict, ev_type_mapping, dict_get.
  repeat match goal with
         | |- context [String.eqb ?k t] => destruct (String.eqb k t); [vm_compute; auto 10|]
         end.
  vm_compute; auto 10.
Qed.

Lemma cafv_code_range (c : cell) :
  fillna0_int (map_dict cafv_mapping c) ∈ [0; 1; 2; 3].
Proof.
  rewrite list_elem_of_In.
  destruct c as [| |t]; [vm_compute; auto 10..|].
  unfold map_dict, cafv_mapping, dict_get.
  repeat match goal with
         | |- context [String.eqb ?k t] => destruct (String.eqb k t); [vm_compute; auto 10|]
         end.
  vm_compute; auto 10.
Qed.

Lemma ev_type_code_default (c : cell) :
  c <> Str "Battery Electric Vehicle (BEV)" ->
  c <> Str "Plug-in Hybrid Electric Vehicle (PHEV)" ->
  fillna0_int (map_dict ev_type_mapping c) = 0.
Proof.
  intros H1 H2. destruct c as [| |t]; [reflexivity..|].
  unfold map_dict, ev_type_mapping, dict_get.
  destruct (String.eqb_spec "Battery Electric Vehicle (BEV)" t) as [<-|_]; [done|].
  destruct (String.eqb_spec "Plug-in Hybrid Electric Vehicle (PHEV)" t) as [<-|_]; [done|].
  destruct (String.eqb "Unknown" t); reflexivity.
Qed.

Lemma cafv_code_default (c : cell) :
  c <> Str "Clean Alternative Fuel Vehicle Eligible" ->
  c <> Str "Not eligible due to low battery range" ->
  c <> Str "Eligibility unknown as battery range has not been researched" ->
  fillna0_int (map_dict cafv_mapping c) = 0.
Proof.
  intros H1 H2 H3. destruct c as [| |t]; [reflexivity..|].
  unfold map_dict, cafv_mapping, dict_get.
  destruct (String.eqb_spec "Clean Alternative Fuel Vehicle Eligible" t) as [<-|_]; [done|].
  destruct (String.eqb_spec "Not eligible due to low battery range" t) as [<-|_]; [done|].
  destruct (String.eqb_spec
              "Eligibility unknown as battery range has not been researched" t)
    as [<-|_]; [done|].
  destruct (String.eqb "Unknown" t); reflexivity.
Qed.

(** C4.  After Clean/Transform on a documented input, in every row the
    vehicle-type code is the code of the row's vehicle-type cell and lies in
    {0,1,2}, and the eligibility code is the code of the row's eligibility
    cell and lies in {0,1,2,3}; a cell that is not a key of the lookup table
    other than "Unknown" (the "Unknown" placeholder, any other string, a
    number, a missing cell) has code 0. *)
Theorem codes_in_range (current_year : Z) (s : EVDataETL) (raw : DataFrame Source) :
  raw_data s = Some raw -> documented raw -> 2020 <= current_year ->
  exists df,
    clean_and_transform current_year s = (Ok df, set_cleaned_data (Some df) s)
    /\ Forall
         (fun r : Row =>
            EV_Type_Code r = fillna0_int (map_dict ev_type_mapping (obj r Electric_Vehicle_Type))
            /\ CAFV_Code r = fillna0_int (map_dict cafv_mapping (obj r CAFV_Eligibility))
            /\ EV_Type_Code r ∈ [0; 1; 2]
            /\ CAFV_Code r ∈ [0; 1; 2; 3]
            /\ (obj r Electric_Vehicle_Type <> Str "Battery Electric Vehicle (BEV)" ->
                obj r Electric_Vehicle_Type <> Str "Plug-in Hybrid Electric Vehicle (PHEV)" ->
                EV_Type_Code r = 0)
            /\ (obj r CAFV_Eligibility <> Str "Clean Alternative Fuel Vehicle Eligible" ->
                obj r CAFV_Eligibility <> Str "Not eligible due to low battery range" ->
                obj r CAFV_Eligibility
                <> Str "Eligibility unknown as battery range has not been researched" ->
                CAFV_Code r = 0))
         (rows df)
    /\ fillna0_int (map_dict ev_type_mapping (Str "Unknown")) = 0
    /\ fillna0_int (map_dict cafv_mapping (Str "Unknown")) = 0
    /\ fillna0_int (map_dict ev_type_mapping NaN) = 0
    /\ fillna0_int (map_dict cafv_mapping NaN) = 0.
Proof.
  intros Hraw Hdoc Hcy.
  destruct (clean_and_transform_run current_year s raw Hraw Hdoc Hcy)
    as (df & Hclean & Hcols & Hrows).
  exists df. split; [exact Hclean|]. split; [|done].
  apply Forall_forall. intros r Hr.
  apply list_elem_of_lookup in Hr as [i Hi].
  destruct (Forall2_lookup_r _ _ _ _ _ Hrows Hi) as (x & _ & Hxr).
  assert (EV_Type_Code r
          = fillna0_int (map_dict ev_type_mapping (obj r Electric_Vehicle_Type))) as Hev
    by (by rewrite (cleaned_EV_Type_Code _ _ _ _ Hxr), (cleaned_obj _ _ _ _ Hxr)).
  assert (CAFV_Code r
          = fillna0_int (map_dict cafv_mapping (obj r CAFV_Eligibility))) as Hcafv
    by (by rewrite (cleaned_CAFV_Code _ _ _ _ Hxr), (cleaned_obj _ _ _ _ Hxr)).
  split; [done|]. split; [done|]. rewrite Hev, Hcafv.
  split; [apply ev_type_code_range|]. split; [apply cafv_code_range|].
  split; [apply ev_type_code_default|apply cafv_code_default].
Qed.

Lemma codes_in_range_witness :
  exists df,
    clean_and_transform 2025 (set_raw_data (Some scenario) (init url))
    = (Ok df, set_cleaned_data (Some df) (set_raw_data (Some scenario) (init url)))
    /\ Forall
         (fun r : Row =>
            EV_Type_Code r = fillna0_int (map_dict ev_type_mapping (obj r Electric_Vehicle_Type))
            /\ CAFV_Code r = fillna0_int (map_dict cafv_mapping (obj r CAFV_Eligibility))
            /\ EV_Type_Code r ∈ [0; 1; 2]
            /\ CAFV_Code r ∈ [0; 1; 2; 3]
            /\ (obj r Electric_Vehicle_Type <> Str "Battery Electric Vehicle (BEV)" ->
                obj r Electric_Vehicle_Type <> Str "Plug-in Hybrid Electric Vehicle (PHEV)" ->
                EV_Type_Code r = 0)
            /\ (obj r CAFV_Eligibility <> Str "Clean Alternative Fuel Vehicle Eligible" ->
                obj r CAFV_Eligibility <> Str "Not eligible due to low battery range" ->
                obj r CAFV_Eligibility
                <> Str "Eligibility unknown as battery range has not been researched" ->
                CAFV_Code r = 0))
         (rows df)
    /\ fillna0_int (map_dict ev_type_mapping (Str "Unknown")) = 0
    /\ fillna0_int (map_dict cafv_mapping (Str "Unknown")) = 0
    /\ fillna0_int (map_dict ev_type_mapping NaN) = 0
    /\ fillna0_int (map_dict cafv_mapping NaN) = 0.
Proof.
  apply (codes_in_range 2025 (set_raw_data (Some scenario) (init url)) scenario);
    [reflexivity|reflexivity|lia].
Defined.

(** The bin of a model year when the clock reads 2020 or later: the
    intervals are closed on the right, so 2015 ends the first bin and 2020
    the second. *)
Lemma year_category_bins (current_year y : Z) :
  2020 <= current_year ->
  cut_one (year_bins current_year) year_labels true (Some y)
  = if y <? 0 then None
    else if y <=? 2015 then Some "Pre-2015"
    else if y <=? 2020 then Some "2015-2020"
    else if y <=? current_year + 1 then Some "2021+"
    else None.
Proof.
  intros Hcy. unfold cut_one, year_bins, year_labels, searchsorted_left. simpl.
  case_bool_decide as H0; simpl.
  - injection H0 as ->. reflexivity.
  - assert (y <> 0) by congruence.
    destruct (Z.ltb_spec 0 y), (Z.ltb_spec 2015 y), (Z.ltb_spec 2020 y),
      (Z.ltb_spec (current_year + 1) y), (Z.ltb_spec y 0), (Z.leb_spec y 2015),
      (Z.leb_spec y 2020), (Z.leb_spec y (current_year + 1));
      simpl; try lia; reflexivity.
Qed.

(** C5, at the input [year_2015]: one registration of model year 2015.  Its
    decade is 2010 = floor(2015/10)*10, and its year category is "Pre-2015",
    where the claim (and the label "2015-2020") puts 2015 in the second
    bucket. *)
Theorem year_2015_is_binned_pre_2015 :
  (fun r : Row => Model_Year r) <$> cleaned_row (through_model 2025 year_2015).2 0
  = Some (Some 2015)
  /\ Model_Decade <$> cleaned_row (through_model 2025 year_2015).2 0 = Some (Some 2010)
  /\ Year_Category <$> cleaned_row (through_model 2025 year_2015).2 0
     = Some (Some "Pre-2015").
Proof. vm_compute. done. Qed.

(** The derived fields of every other year are as the claim has them. *)
Lemma derived_fields (current_year : Z) (s : EVDataETL) (raw : DataFrame Source) :
  raw_data s = Some raw -> documented raw -> 2020 <= current_year ->
  exists df,
    clean_and_transform current_year s = (Ok df, set_cleaned_data (Some df) s)
    /\ Forall
         (fun r : Row =>
            forall y, Model_Year r = Some y ->
              Model_Decade r = Some (y / 10 * 10)
              /\ (0 <= y < 2015 -> Year_Category r = Some "Pre-2015")
              /\ (y = 2015 -> Year_Category r = Some "Pre-2015")
              /\ (2015 < y <= 2020 -> Year_Category r = Some "2015-2020")
              /\ (2021 <= y <= current_year + 1 -> Year_Category r = Some "2021+"))
         (rows df).
Proof.
  intros Hraw Hdoc Hcy.
  destruct (clean_and_transform_run current_year s raw Hraw Hdoc Hcy)
    as (df & Hclean & Hcols & Hrows).
  exists df. split; [exact Hclean|].
  apply Forall_forall. intros r Hr y Hy.
  apply list_elem_of_lookup in Hr as [i Hi].
  destruct (Forall2_lookup_r _ _ _ _ _ Hrows Hi) as (x & _ & Hxr).
  rewrite (cleaned_Model_Decade _ _ _ _ Hxr), (cleaned_Year_Category _ _ _ _ Hxr).
  rewrite <- (cleaned_Model_Year _ _ _ _ Hxr), Hy, year_category_bins by done.
  split; [done|].
  destruct (Z.ltb_spec y 0), (Z.leb_spec y 2015), (Z.leb_spec y 2020),
    (Z.leb_spec y (current_year + 1)); repeat split; intros; try lia; reflexivity.
Qed.

(* ===================================================================== *)
(** * Coordinates                                                         *)
(* ===================================================================== *)

(** The well-formed point of the claim. *)
Lemma locate_point :
  locate (Str "POINT (-122.33 47.60)")
  = {| latitude := Some (Py.Finite (4760 # 100));
       longitude := Some (Py.Finite (-12233 # 100)) |}.
Proof. reflexivity. Qed.

(** The placeholder, a missing cell and a cell that is not a string leave
    both coordinates missing. *)
Lemma locate_unknown :
  locate (Str "Unknown") = no_coordinates /\ locate NaN = no_coordinates
  /\ forall z, locate (Num z) = no_coordinates.
Proof. repeat split. Qed.

(** So does a string with a number of tokens other than two, and a string
    whose first token is not a number. *)
Lemma locate_token_count (text : string) :
  length (point_tokens text) <> 2%nat -> locate (Str text) = no_coordinates.
Proof.
  intros Hn. unfold locate. destruct (_ && _); [|done].
  unfold try_pass, parse_point. rewrite run_bind with (a := text) (s' := no_coordinates) by done.
  fold (point_tokens text).
  destruct (point_tokens text) as [|c0 [|c1 [|c2 l]]]; simpl in *; done.
Qed.

Lemma locate_first_token (text c0 c1 : string) :
  point_tokens text = [c0; c1] -> Py.float c0 = None ->
  locate (Str text) = no_coordinates.
Proof.
  intros Ht Hf. unfold locate. destruct (_ && _); [|done].
  unfold try_pass, parse_point. rewrite run_bind with (a := text) (s' := no_coordinates) by done.
  fold (point_tokens text). rewrite Ht.
  unfold to_float. rewrite Hf. reflexivity.
Qed.

(** A string whose first token is a number and whose second is not: the
    longitude has been assigned when the conversion of the latitude raises,
    and stays. *)
Lemma locate_second_token (text c0 c1 : string) (x : Py.pyfloat) :
  text <> "Unknown" ->
  point_tokens text = [c0; c1] -> Py.float c0 = Some x -> Py.float c1 = None ->
  locate (Str text) = {| latitude := None; longitude := Some x |}.
Proof.
  intros Hu Ht H0 H1. unfold locate.
  rewrite !bool_decide_eq_true_2 by congruence. simpl andb. cbv iota.
  unfold try_pass, parse_point. rewrite run_bind with (a := text) (s' := no_coordinates) by done.
  fold (point_tokens text). rewrite Ht.
  unfold to_float. rewrite H0, H1. reflexivity.
Qed.

(** C6, at the input [half_point]: one registration whose coordinates read
    "POINT (-122.33 abc)".  The location dimension is built, without an
    exception; its row has no latitude and has longitude -122.33, where the
    claim (and the comment "Keep as None if parsing fails") leaves both
    missing. *)
Theorem malformed_point_keeps_longitude :
  location_coordinates (through_model 2025 half_point).2
  = Some [(None, Some (Py.Finite (-12233 # 100)))].
Proof. vm_compute. reflexivity. Qed.

(* ===================================================================== *)
(** * The three-row scenario                                              *)
(* ===================================================================== *)

(** C2 as the claim states it fails on the vehicle dimension: the three
    rows have three different vehicle types after cleaning (BEV, "Unknown",
    PHEV), so the dimension has three rows, not two. *)
Lemma scenario_vehicle_rows_counterexample :
  ~ (dimension_count (through_model 2025 scenario).2 "dim_vehicle" = Some 2%nat).
Proof. vm_compute. discriminate. Qed.

(** C2, amended.  On the three-row scenario, cleaning fills the range of
    row 2 with the median of 150 and 60, which is 105, its price with 0 and
    its type with "Unknown" (code 0); row 3 keeps price 0; the fact table
    has 3 rows, the time dimension 2 rows and the vehicle dimension 3
    rows. *)
Theorem scenario_outcome :
  (exists q, median (map Electric_Range (rows scenario)) = Some q /\ (q == 105)%Q
             /\ (fun r : Row => Electric_Range r)
                  <$> cleaned_row (through_model 2025 scenario).2 1 = Some (Some q))
  /\ (fun r : Row => Base_MSRP r) <$> cleaned_row (through_model 2025 scenario).2 1
     = Some (Some 0%Q)
  /\ (fun r : Row => obj r Electric_Vehicle_Type)
       <$> cleaned_row (through_model 2025 scenario).2 1 = Some (Str "Unknown")
  /\ EV_Type_Code <$> cleaned_row (through_model 2025 scenario).2 1 = Some 0
  /\ (fun r : Row => Base_MSRP r) <$> cleaned_row (through_model 2025 scenario).2 2
     = Some (Some 0%Q)
  /\ fact_count (through_model 2025 scenario).2 = Some 3%nat
  /\ dimension_count (through_model 2025 scenario).2 "dim_time" = Some 2%nat
  /\ dimension_count (through_model 2025 scenario).2 "dim_vehicle" = Some 3%nat.
Proof.
  split.
  - exists (210 # 2)%Q. split; [reflexivity|]. split; [reflexivity|].
    vm_compute. reflexivity.
  - vm_compute. done.
Qed.

(* ===================================================================== *)
(** * The report                                                          *)
(* ===================================================================== *)

(** Cleaning neither drops nor adds a row. *)
Lemma cleaning_keeps_rows (current_year : Z) (s : EVDataETL) (raw : DataFrame Source) :
  raw_data s = Some raw -> documented raw -> 2020 <= current_year ->
  exists df,
    clean_and_transform current_year s = (Ok df, set_cleaned_data (Some df) s)
    /\ length (rows df) = length (rows raw).
Proof.
  intros Hraw Hdoc Hcy.
  destruct (clean_and_transform_run current_year s raw Hraw Hdoc Hcy)
    as (df & Hclean & _ & Hrows).
  exists df. split; [exact Hclean|]. symmetry. by eapply Forall2_length.
Qed.

(** On a source with at least one record the report gives a retention of
    100 percent. *)
Lemma retention_is_100 (current_year : Z) (s : EVDataETL) (raw : DataFrame Source) :
  raw_data s = Some raw -> documented raw -> 2020 <= current_year ->
  rows raw <> [] ->
  exists df s1 report q,
    clean_and_transform current_year s = (Ok df, s1)
    /\ generate_summary_report s1 = (Ok report, s1)
    /\ retention report = Some q /\ (q == 100)%Q.
Proof.
  intros Hraw Hdoc Hcy Hne.
  destruct (cleaning_keeps_rows current_year s raw Hraw Hdoc Hcy) as (df & Hclean & Hlen).
  destruct (rows raw) as [|x l] eqn:E; [done|].
  eexists df, _, _, _. split; [exact Hclean|].
  unfold generate_summary_report. rewrite run_get.
  cbn [cleaned_data raw_data set_cleaned_data]. rewrite Hraw, Hlen, E.
  unfold retention_percentage. cbn [length].
  split; [reflexivity|]. split; [reflexivity|].
  unfold Qeq, Qdiv, Qmult, Qinv, inject_Z. cbn [Qnum Qden].
  generalize (Z.of_nat (S (length l))) (Nat2Z.inj_succ (length l)) (Nat2Z.is_nonneg (length l)).
  intros z Hz Hpos. destruct z as [|p|p]; try lia. simpl. lia.
Qed.

(** C9, at the input [header_only]: the documented header and no record.
    Cleaning, the model builder and the load go through on zero rows; the
    report then divides zero by zero, and the run ends with a
    [ZeroDivisionError] where the claim has a retention of 100 percent. *)
Theorem report_fails_on_header_only :
  cleaned_count (through_model 2025 header_only).2 = Some 0%nat
  /\ (main false (Ok header_only) 2025 empty_world).1
     = Raise (ZeroDivisionError "division by zero")
  /\ (generate_summary_report (through_model 2025 header_only).2).1
     = Raise (ZeroDivisionError "division by zero").
Proof. vm_compute. done. Qed.

(* ===================================================================== *)
(** * The stage guards                                                    *)
(* ===================================================================== *)

(** C8 as the claim states it fails on the model builder, and it names a
    class the script does not raise.  Clean/Transform assigns the cleaned
    frame before its three steps; when a step raises (here the binning of
    the years, the clock reading 2019) the stage has not completed, yet the
    frame is there, without its year category.  The model builder then
    passes its guard, raises a [KeyError] in the time dimension and leaves
    three dimension tables in the object, which held none.  And the
    exception of the guards is a [ValueError]: no exception of the script
    is a [StateError]. *)
Lemma stage_guards_counterexample :
  (exists msg,
     (clean_and_transform 2019 (extract_data (Ok header_only) (init url)).2).1
     = Raise (ValueError msg))
  /\ (exists key, (create_dimensional_model half_cleaned).1 = Raise (KeyError key))
  /\ map fst (dimension_tables half_cleaned) = []
  /\ map fst (dimension_tables (create_dimensional_model half_cleaned).2)
     = ["dim_location"; "dim_vehicle"; "dim_utility"]
  /\ ~ (exists e, create_dimensional_model half_cleaned = (Raise e, half_cleaned))
  /\ (forall e : exn, class_name e <> "StateError").
Proof.
  split; [eexists; vm_compute; reflexivity|].
  split; [eexists; vm_compute; reflexivity|].
  split; [vm_compute; reflexivity|].
  split; [vm_compute; reflexivity|].
  split.
  - intros [e H].
    apply (f_equal (fun r : Result (list (string * Table)) * EVDataETL =>
                      length (dimension_tables r.2))) in H.
    vm_compute in H. discriminate.
  - intros e. by destruct e.
Qed.


(* ===================================================================== *)
(** * The load                                                            *)
(* ===================================================================== *)

Section Store.
Context {V : Type}.
Implicit Types (kvs : list (string * V)) (t : gmap string V).

Lemma load_tables_snoc kvs kv t :
  load_tables (kvs ++ [kv]) t = <[kv.1 := kv.2]> (load_tables kvs t).
Proof. unfold load_tables. by rewrite foldl_app. Qed.

(** The table a name is bound to after the writes: the last one written
    under that name, or the one that was there. *)
Lemma lookup_load_tables kvs t k :
  load_tables kvs t !! k
  = match dict_get (reverse kvs) k with
    | Some v => Some v
    | None => t !! k
    end.
Proof.
  induction kvs as [|kv kvs IH] using rev_ind; [done|].
  rewrite load_tables_snoc, reverse_snoc. destruct kv as [k' v]. simpl.
  destruct (String.eqb_spec k' k) as [->|Hne].
  - by rewrite lookup_insert_eq.
  - by rewrite lookup_insert_ne.
Qed.

(** Writing the same tables again changes nothing. *)
Lemma load_tables_idem kvs t : load_tables kvs (load_tables kvs t) = load_tables kvs t.
Proof.
  apply map_eq. intros k. rewrite !lookup_load_tables.
  by destruct (dict_get (reverse kvs) k).
Qed.
End Store.

Lemma lookup_drop_indexes kvs (i : gmap string (string * string)) n e :
  drop_indexes kvs i !! n = Some e <-> i !! n = Some e /\ e.1 ∉ map fst kvs.
Proof.
  revert i. induction kvs as [|kv kvs IH]; intros i; simpl.
  - rewrite elem_of_nil. tauto.
  - unfold drop_indexes in *. simpl. rewrite IH, map_lookup_filter_Some, elem_of_cons.
    simpl. split.
    + intros [[H1 H2] H3]. split; [done|]. intros [?|?]; [congruence|done].
    + intros [H1 H2]. split; [split; [done|]|]; intros ?; apply H2; [by left|by right].
Qed.

Lemma drop_indexes_subseteq kvs (i : gmap string (string * string)) :
  drop_indexes kvs i ⊆ i.
Proof.
  apply map_subseteq_spec. intros n e H. by apply lookup_drop_indexes in H as [? _].
Qed.

Lemma drop_indexes_mono kvs (i j : gmap string (string * string)) :
  i ⊆ j -> drop_indexes kvs i ⊆ drop_indexes kvs j.
Proof.
  intros Hij. apply map_subseteq_spec. intros n e [H1 H2]%lookup_drop_indexes.
  apply lookup_drop_indexes. split; [|done]. by eapply lookup_weaken.
Qed.

Lemma drop_indexes_idem kvs (i : gmap string (string * string)) :
  drop_indexes kvs (drop_indexes kvs i) = drop_indexes kvs i.
Proof.
  apply (anti_symm (⊆)); [apply drop_indexes_subseteq|].
  apply map_subseteq_spec. intros n e H.
  apply lookup_drop_indexes. split; [done|]. by apply lookup_drop_indexes in H as [_ ?].
Qed.

(** The writes of a session, one after the other. *)
Lemma run_to_sqls (kvs : list (string * Table)) (db : Database) :
  for_each kvs (fun kv => to_sql kv.1 kv.2) db
  = (Ok tt, {| tables := load_tables kvs (tables db);
               indexes := drop_indexes kvs (indexes db) |}).
Proof.
  revert db. induction kvs as [|kv kvs IH]; intros db; simpl.
  - by destruct db.
  - erewrite run_bind by reflexivity. by rewrite IH.
Qed.

(** One [CREATE INDEX IF NOT EXISTS]. *)
Lemma run_create_index (name table column : string) (db : Database) :
  create_index (name, table, column) db
  = match indexes db !! name with
    | Some _ => (Ok tt, db)
    | None =>
        match tables db !! table with
        | None => (Raise (OperationalError ("no such table: " +:+ table)), db)
        | Some t =>
            if existsb (String.eqb column) (table_columns t)
            then (Ok tt, {| tables := tables db;
                            indexes := <[name := (table, column)]> (indexes db) |})
            else (Raise (OperationalError ("no such column: " +:+ column)), db)
        end
    end.
Proof.
  unfold create_index. rewrite run_get.
  destruct (indexes db !! name); [done|].
  destruct (tables db !! table); [|done].
  by destruct (existsb _ _).
Qed.

(** Creating the indexes only adds indexes, and ends the same way from any
    set of indexes between the one it started from and the one it reached. *)
Lemma create_indexes_stable (qs : list (string * string * string))
    (t : gmap string Table) (i : gmap string (string * string))
    (r : Result unit) (db' : Database) :
  for_each qs create_index {| tables := t; indexes := i |} = (r, db') ->
  tables db' = t /\ i ⊆ indexes db'
  /\ forall m, i ⊆ m -> m ⊆ indexes db' ->
       for_each qs create_index {| tables := t; indexes := m |} = (r, db').
Proof.
  revert i. induction qs as [|[[name table] column] qs IH]; intros i Hrun.
  - injection Hrun as <- <-. split; [done|]. split; [done|].
    intros m H1 H2. simpl in *. by rewrite (anti_symm (⊆) _ _ H1 H2).
  - cbn [for_each] in Hrun |- *.
    unfold mbind, M_bind, bind in Hrun |- *. rewrite run_create_index in Hrun.
    cbn [tables indexes] in Hrun.
    assert (forall m, i ⊆ m -> m ⊆ i ->
              create_index (name, table, column) {| tables := t; indexes := m |}
              = create_index (name, table, column) {| tables := t; indexes := i |}) as Hsame.
    { intros m H1 H2. by rewrite (anti_symm (⊆) _ _ H1 H2). }
    destruct (i !! name) as [e|] eqn:Hi.
    + destruct (IH i Hrun) as (Ht & Hsub & Hm). split; [done|]. split; [done|].
      intros m H1 H2. rewrite run_create_index. cbn [tables indexes].
      rewrite (lookup_weaken _ _ _ _ Hi H1). by apply Hm.
    + destruct (t !! table) as [tb|] eqn:Htb.
      * destruct (existsb (String.eqb column) (table_columns tb)) eqn:Hcol.
        -- destruct (IH _ Hrun) as (Ht & Hsub & Hm). split; [done|].
           assert (indexes db' !! name = Some (table, column)) as Hfinal
             by (eapply lookup_weaken; [apply lookup_insert_eq|done]).
           split; [etrans; [by apply insert_subseteq|done]|].
           intros m H1 H2. rewrite run_create_index. cbn [tables indexes].
           destruct (m !! name) as [e|] eqn:Hmn.
           ++ assert (e = (table, column)) as ->
                by (pose proof (lookup_weaken _ _ _ _ Hmn H2); congruence).
              apply Hm; [|done]. by apply insert_subseteq_l.
           ++ rewrite Htb, Hcol. apply Hm; [by apply insert_mono|].
              by apply insert_subseteq_l.
        -- injection Hrun as <- <-. split; [done|]. split; [done|].
           intros m H1 H2. rewrite Hsame by done. rewrite run_create_index.
           cbn [tables indexes]. by rewrite Hi, Htb, Hcol.
      * injection Hrun as <- <-. split; [done|]. split; [done|].
        intros m H1 H2. rewrite Hsame by done. rewrite run_create_index.
        cbn [tables indexes]. by rewrite Hi, Htb.
Qed.

(** A session writes the dimension tables and the fact table, then creates
    the indexes. *)
Lemma run_load_session (dims : list (string * Table)) (fact : list FactRow)
    (db : Database) :
  load_session dims fact db
  = for_each index_queries create_index
      {| tables := load_tables (dims ++ [("fact_vehicle_registration", FactTable fact)])
                               (tables db);
         indexes := drop_indexes (dims ++ [("fact_vehicle_registration", FactTable fact)])
                                 (indexes db) |}.
Proof.
  unfold load_session. rewrite (run_bind _ _ _ _ _ (run_to_sqls dims db)).
  erewrite run_bind by reflexivity. unfold _create_indexes.
  f_equal. cbn [tables indexes]. rewrite load_tables_snoc.
  unfold drop_indexes. by rewrite foldl_app.
Qed.

(** A second session with the same tables ends as the first did and leaves
    the database as the first left it. *)
Lemma load_session_idem (dims : list (string * Table)) (fact : list FactRow)
    (db db1 : Database) (r : Result unit) :
  load_session dims fact db = (r, db1) -> load_session dims fact db1 = (r, db1).
Proof.
  rewrite !run_load_session.
  set (kvs := dims ++ [("fact_vehicle_registration", FactTable fact)]).
  intros Hrun. destruct (create_indexes_stable _ _ _ _ _ Hrun) as (Ht & Hsub & Hm).
  rewrite Ht, load_tables_idem. apply Hm.
  - rewrite <- (drop_indexes_idem kvs (indexes db)). by apply drop_indexes_mono.
  - apply drop_indexes_subseteq.
Qed.

(** The load leaves the object and the flat files alone, and a second load
    of the same object ends as the first and changes nothing. *)
Lemma load_to_warehouse_idem (db_path : string) (s : EVDataETL) (w : World)
    (r : Result unit) (sys1 : System) :
  load_to_warehouse db_path {| etl := s; world := w |} = (r, sys1) ->
  etl sys1 = s /\ csv_files (world sys1) = csv_files w
  /\ forall c,
       load_to_warehouse db_path
         {| etl := s;
            world := {| databases := databases (world sys1); csv_files := c |} |}
       = (r, {| etl := s;
                world := {| databases := databases (world sys1); csv_files := c |} |}).
Proof.
  unfold load_to_warehouse. cbn [etl world databases csv_files].
  destruct (dimension_tables s) as [|d ds] eqn:Hd.
  { intros [= <- <-]. by destruct w. }
  destruct (fact_table s) as [fact|] eqn:Hf.
  2: { intros [= <- <-]. by destruct w. }
  destruct (load_session (d :: ds) fact _) as [r1 db1] eqn:Hload.
  intros [= <- <-]. cbn [etl world databases csv_files].
  split; [done|]. split; [done|]. intros c.
  rewrite lookup_insert_eq. cbn [default from_option id].
  rewrite (load_session_idem _ _ _ _ _ Hload). by rewrite insert_insert_eq.
Qed.

(** The export writes one file per table. *)
Lemma run_export_to_csv (output_dir : string) (s : EVDataETL) (w : World) :
  export_to_csv output_dir {| etl := s; world := w |}
  = (Ok tt,
     {| etl := s;
        world := {| databases := databases w;
                    csv_files := load_tables (csv_writes output_dir s) (csv_files w) |} |}).
Proof.
  unfold export_to_csv. rewrite run_get. cbn [etl].
  assert (forall kvs w',
            for_each kvs (fun kv : string * Table =>
              modify (fun sys' : System =>
                {| etl := etl sys';
                   world := {| databases := databases (world sys');
                               csv_files := <[output_dir +:+ "/" +:+ kv.1 +:+ ".csv" := kv.2]>
                                              (csv_files (world sys')) |} |}))
              {| etl := s; world := w' |}
            = (Ok tt,
               {| etl := s;
                  world := {| databases := databases w';
                              csv_files :=
                                load_tables
                                  (map (fun kv : string * Table =>
                                          (output_dir +:+ "/" +:+ kv.1 +:+ ".csv", kv.2)) kvs)
                                  (csv_files w') |} |})) as Hwrites.
  { induction kvs as [|kv kvs IH]; intros w'; simpl.
    - by destruct w'.
    - erewrite run_bind by reflexivity. cbn [etl world databases csv_files].
      by rewrite IH. }
  rewrite (run_bind _ _ _ _ _ (Hwrites _ _)). unfold csv_writes. rewrite map_app.
  unfold load_tables. rewrite foldl_app. fold (@load_tables Table).
  destruct (fact_table s); reflexivity.
Qed.

(** The report reads the object and leaves it as it is. *)
Lemma generate_summary_report_state (s : EVDataETL) :
  (generate_summary_report s).2 = s.
Proof.
  unfold generate_summary_report. rewrite run_get.
  unfold mbind, M_bind, bind.
  destruct (cleaned_data s); [|done]. destruct (raw_data s); [|done].
  by destruct (retention_percentage _ _).
Qed.

(** The stages of [main], regrouped: first the object alone, then the
    world. *)
Lemma pipeline_split (export_csv : bool) (response : Result (DataFrame Source))
    (current_year : Z) (sys : System) :
  pipeline export_csv response current_year sys
  = (on_etl (stages response current_year) ≫= fun _ => deliver export_csv) sys.
Proof.
  unfold pipeline, stages, deliver, try_reraise, on_etl, mbind, M_bind, bind.
  destruct (extract_data response (etl sys)) as [[a|e] s1]; [|done].
  cbn [etl world]. destruct (explore_data s1) as [[[]|e] s2]; [|done].
  cbn [etl world]. destruct (clean_and_transform current_year s2) as [[b|e] s3]; [|done].
  cbn [etl world]. by destruct (create_dimensional_model s3) as [[c|e] s4].
Qed.

(** The world stages on a world they have already written to. *)
Lemma deliver_idem (export_csv : bool) (s : EVDataETL) (w : World)
    (r : Result Report) (sys1 : System) :
  deliver export_csv {| etl := s; world := w |} = (r, sys1) ->
  deliver export_csv {| etl := s; world := world sys1 |} = (r, sys1).
Proof.
  unfold deliver, mbind, M_bind, bind.
  destruct (load_to_warehouse _ {| etl := s; world := w |}) as [rl sysl] eqn:Hload.
  destruct (load_to_warehouse_idem _ _ _ _ _ Hload) as (Hetl & Hcsv & Hagain).
  destruct sysl as [sl [dl cl]]. cbn [etl world databases csv_files] in *. subst sl cl.
  destruct rl as [[]|e].
  2: { intros [= <- <-]. cbn [world]. by rewrite Hagain. }
  destruct export_csv.
  - rewrite run_export_to_csv. cbn [databases csv_files].
    unfold on_etl. cbn [etl world].
    pose proof (generate_summary_report_state s) as Hrep.
    destruct (generate_summary_report s) as [rr sr] eqn:Hg. cbn [snd] in Hrep. subst sr.
    intros [= <- <-]. cbn [world]. rewrite Hagain, run_export_to_csv.
    cbn [databases csv_files etl world]. by rewrite Hg, load_tables_idem.
  - unfold on_etl, mret, M_ret, ret. cbn [etl world].
    pose proof (generate_summary_report_state s) as Hrep.
    destruct (generate_summary_report s) as [rr sr] eqn:Hg. cbn [snd] in Hrep. subst sr.
    intros [= <- <-]. cbn [world]. rewrite Hagain. cbn [etl world]. by rewrite Hg.
Qed.

(** [main]: the object stages on a fresh object, then the world stages. *)
Lemma main_stages (export_csv : bool) (response : Result (DataFrame Source))
    (current_year : Z) (w : World) :
  main export_csv response current_year w
  = match stages response current_year (init url) with
    | (Ok _, s) =>
        let '(r, sys) := deliver export_csv {| etl := s; world := w |} in (r, world sys)
    | (Raise e, _) => (Raise e, w)
    end.
Proof.
  unfold main. rewrite pipeline_split.
  unfold mbind at 1, M_bind at 1, bind at 1, on_etl. cbn [etl world].
  by destruct (stages response current_year (init url)) as [[m|e] s].
Qed.

(** C7.  Running the pipeline again, on the same response of the source and
    with the clock in the same year, in the world the first run left: the
    run ends as the first did and the world is unchanged -- every table of
    the warehouse, every index and every exported file is as the first run
    left it, each table being replaced and not appended to. *)
Theorem rerun_changes_nothing (export_csv : bool) (response : Result (DataFrame Source))
    (current_year : Z) (w : World) :
  main export_csv response current_year (main export_csv response current_year w).2
  = main export_csv response current_year w.
Proof.
  rewrite !main_stages.
  destruct (stages response current_year (init url)) as [[m|e] s]; [|done].
  destruct (deliver export_csv {| etl := s; world := w |}) as [r sys1] eqn:Hd.
  cbn [snd]. by rewrite (deliver_idem _ _ _ _ _ Hd).
Qed.

(** When every index is asked on a table that is there and has the column,
    the indexes are created (or found) and the tables are untouched. *)
Lemma create_indexes_ok (qs : list (string * string * string))
    (t : gmap string Table) (i : gmap string (string * string)) :
  Forall (fun q => exists tb, t !! q.1.2 = Some tb
                              /\ existsb (String.eqb q.2) (table_columns tb) = true) qs ->
  exists i', for_each qs create_index {| tables := t; indexes := i |}
             = (Ok tt, {| tables := t; indexes := i' |}).
Proof.
  intros Hqs. revert i. induction Hqs as [|[[name table] column] qs (tb & Htb & Hcol) _ IH];
    intros i.
  - by exists i.
  - cbn [for_each]. unfold mbind, M_bind, bind. rewrite run_create_index.
    cbn [tables indexes fst snd] in *. destruct (i !! name); [apply IH|].
    rewrite Htb, Hcol. apply IH.
Qed.

(** The object stages on a documented source. *)
Lemma run_stages (current_year : Z) (raw : DataFrame Source) :
  documented raw -> 2020 <= current_year ->
  exists df model,
    clean_and_transform current_year (set_raw_data (Some raw) (init url))
    = (Ok df, set_cleaned_data (Some df) (set_raw_data (Some raw) (init url)))
    /\ columns df = cleaned_columns
    /\ stages (Ok raw) current_year (init url)
       = (Ok model,
          set_fact_table (Some (built_fact (rows df)))
            (set_dimension_tables (built_dimensions (rows df) [])
               (set_cleaned_data (Some df) (set_raw_data (Some raw) (init url))))).
Proof.
  intros Hdoc Hcy.
  destruct (clean_and_transform_run current_year (set_raw_data (Some raw) (init url)) raw
              eq_refl Hdoc Hcy) as (df & Hclean & Hcols & _).
  exists df. eexists. split; [exact Hclean|]. split; [exact Hcols|].
  unfold stages.
  rewrite (run_bind _ _ (init url) (set_raw_data (Some raw) (init url)) raw) by done.
  assert (explore_data (set_raw_data (Some raw) (init url))
          = (Ok tt, set_raw_data (Some raw) (init url))) as Hexp.
  { unfold explore_data. rewrite run_get. cbn [raw_data set_raw_data].
    destruct raw as [C rs]. unfold documented in Hdoc. simpl in Hdoc. by subst C. }
  rewrite (run_bind _ _ _ _ _ Hexp), (run_bind _ _ _ _ _ Hclean).
  by rewrite (create_dimensional_model_run _ df).
Qed.

(** On a fresh object the dictionary holds the four dimensions, in the order
    they were built. *)
Lemma built_dimensions_fresh (cleaned : list Row) :
  built_dimensions cleaned []
  = [("dim_location", LocationTable (location_dimension cleaned));
     ("dim_vehicle", VehicleTable (vehicle_dimension cleaned));
     ("dim_utility", UtilityTable (utility_dimension cleaned));
     ("dim_time", TimeTable (time_dimension cleaned))].
Proof. reflexivity. Qed.

Lemma run_load_to_warehouse (db_path : string) (s : EVDataETL) (w : World)
    (d : string * Table) (ds : list (string * Table)) (fact : list FactRow) :
  dimension_tables s = d :: ds -> fact_table s = Some fact ->
  load_to_warehouse db_path {| etl := s; world := w |}
  = let '(r, conn') :=
      load_session (d :: ds) fact (default empty_database (databases w !! db_path)) in
    (r, {| etl := s;
           world := {| databases := <[db_path := conn']> (databases w);
                       csv_files := csv_files w |} |}).
Proof. intros Hd Hf. unfold load_to_warehouse. cbn [etl world]. by rewrite Hd, Hf. Qed.

(** After a run on a documented source the warehouse holds, under their
    names, the four dimension tables and the fact table built from the
    cleaned table, whatever it held before. *)
Lemma warehouse_after_run (export_csv : bool) (current_year : Z)
    (raw : DataFrame Source) (w : World) :
  documented raw -> 2020 <= current_year ->
  exists df db,
    clean_and_transform current_year (set_raw_data (Some raw) (init url))
    = (Ok df, set_cleaned_data (Some df) (set_raw_data (Some raw) (init url)))
    /\ databases (main export_csv (Ok raw) current_year w).2 !! "ev_data_warehouse.db"
       = Some db
    /\ tables db !! "dim_location" = Some (LocationTable (location_dimension (rows df)))
    /\ tables db !! "dim_vehicle" = Some (VehicleTable (vehicle_dimension (rows df)))
    /\ tables db !! "dim_utility" = Some (UtilityTable (utility_dimension (rows df)))
    /\ tables db !! "dim_time" = Some (TimeTable (time_dimension (rows df)))
    /\ tables db !! "fact_vehicle_registration" = Some (FactTable (built_fact (rows df))).
Proof.
  intros Hdoc Hcy.
  destruct (run_stages current_year raw Hdoc Hcy) as (df & model & Hclean & Hcols & Hst).
  exists df. rewrite main_stages, Hst.
  set (s := set_fact_table _ _).
  set (conn := default empty_database (databases w !! "ev_data_warehouse.db")).
  set (kvs := built_dimensions (rows df) []
              ++ [("fact_vehicle_registration", FactTable (built_fact (rows df)))]).
  destruct (create_indexes_ok index_queries (load_tables kvs (tables conn))
              (drop_indexes kvs (indexes conn))) as [i' Hidx].
  { unfold index_queries. repeat constructor; cbn [fst snd];
      eexists; (split; [rewrite lookup_load_tables; reflexivity|reflexivity]). }
  exists {| tables := load_tables kvs (tables conn); indexes := i' |}.
  split; [exact Hclean|].
  assert (load_to_warehouse "ev_data_warehouse.db" {| etl := s; world := w |}
          = (Ok tt,
             {| etl := s;
                world := {| databases :=
                              <["ev_data_warehouse.db" :=
                                  {| tables := load_tables kvs (tables conn);
                                     indexes := i' |}]> (databases w);
                            csv_files := csv_files w |} |})) as Hload.
  { rewrite (run_load_to_warehouse _ s w _ _ (built_fact (rows df))
               (built_dimensions_fresh (rows df)) eq_refl).
    rewrite <- built_dimensions_fresh, run_load_session. fold conn kvs.
    by rewrite Hidx. }
  split.
  - unfold deliver. rewrite (run_bind _ _ _ _ _ Hload).
    destruct export_csv.
    + rewrite (run_bind _ _ _ _ _ (run_export_to_csv _ _ _)).
      unfold on_etl. cbn [etl world].
      destruct (generate_summary_report s) as [rr sr]. cbn [snd world databases].
      apply lookup_insert_eq.
    + erewrite run_bind by reflexivity.
      unfold on_etl. cbn [etl world].
      destruct (generate_summary_report s) as [rr sr]. cbn [snd world databases].
      apply lookup_insert_eq.
  - cbn [tables]. rewrite !lookup_load_tables. repeat split; reflexivity.
Qed.

(* ===================================================================== *)
(** * What cleaning leaves alone                                          *)
(* ===================================================================== *)

Lemma set_cleaned_data_same (s : EVDataETL) : set_cleaned_data (cleaned_data s) s = s.
Proof. by destruct s. Qed.

Lemma frame_only_ret {A} (a : A) : frame_only (mret a).
Proof. intros s. symmetry. apply set_cleaned_data_same. Qed.

Lemma frame_only_raise {A} (e : exn) : frame_only (@raise EVDataETL A e).
Proof. intros s. symmetry. apply set_cleaned_data_same. Qed.

Lemma frame_only_lift {A} (r : Result A) : frame_only (lift r).
Proof. destruct r; [apply frame_only_ret|apply frame_only_raise]. Qed.

Lemma frame_only_bind {A B} (m : M EVDataETL A) (k : A -> M EVDataETL B) :
  frame_only m -> (forall a, frame_only (k a)) -> frame_only (m ≫= k).
Proof.
  intros Hm Hk s. unfold mbind, M_bind, bind. specialize (Hm s).
  destruct (m s) as [[a|e] s1]; simpl in *; [|done].
  specialize (Hk a s1). rewrite Hk at 1. rewrite Hm. by destruct s.
Qed.

Lemma frame_only_the_cleaned_data : frame_only the_cleaned_data.
Proof.
  intros s. unfold the_cleaned_data. rewrite run_get.
  destruct (cleaned_data s); simpl; symmetry; apply set_cleaned_data_same.
Qed.

Lemma frame_only_store (c : option (DataFrame Row)) : frame_only (modify (set_cleaned_data c)).
Proof. intros s. by destruct s. Qed.

Lemma frame_only_when_column name body :
  (forall df, frame_only (body df)) -> frame_only (when_column name body).
Proof.
  intros Hb. apply frame_only_bind; [apply frame_only_the_cleaned_data|].
  intros df. destruct (has_column name df); [apply Hb|apply frame_only_ret].
Qed.

Lemma frame_only_set_column {V} name (set : V -> Row -> Row) series :
  frame_only (set_column name set series).
Proof.
  apply frame_only_bind; [apply frame_only_the_cleaned_data|].
  intros df. apply frame_only_store.
Qed.

Lemma frame_only_for_each {A} (l : list A) (body : A -> M EVDataETL unit) :
  (forall x, frame_only (body x)) -> frame_only (for_each l body).
Proof.
  intros Hb. induction l as [|x l IH]; simpl; [apply frame_only_ret|].
  apply frame_only_bind; [apply Hb|]. intros _. apply IH.
Qed.

Lemma frame_only_fill_unknown (c : ocol) : frame_only (fill_unknown c).
Proof. apply frame_only_when_column. intros df. apply frame_only_set_column. Qed.

Lemma frame_only_handle_missing_values : frame_only _handle_missing_values.
Proof.
  unfold _handle_missing_values.
  repeat first
    [ apply frame_only_ret
    | apply frame_only_fill_unknown
    | apply frame_only_when_column; intros ?
    | apply frame_only_set_column
    | apply frame_only_for_each; intros ?
    | apply frame_only_bind; [|intros _] ].
Qed.

Lemma frame_only_encode_categorical_variables : frame_only _encode_categorical_variables.
Proof.
  unfold _encode_categorical_variables.
  repeat first
    [ apply frame_only_bind; [|intros _]
    | apply frame_only_when_column; intros ?
    | apply frame_only_set_column ].
Qed.

Lemma frame_only_create_derived_fields (current_year : Z) :
  frame_only (_create_derived_fields current_year).
Proof.
  unfold _create_derived_fields.
  repeat first
    [ apply frame_only_lift
    | apply frame_only_set_column
    | apply frame_only_when_column; intros ?
    | apply frame_only_bind; [|intros ?] ].
Qed.

(** Clean/Transform, whatever the object and the clock: the object it
    leaves is the one it found, the cleaned frame apart. *)
Lemma frame_only_clean_and_transform (current_year : Z) :
  frame_only (clean_and_transform current_year).
Proof.
  intros s. unfold clean_and_transform. rewrite run_get.
  destruct (raw_data s) as [raw|]; [|symmetry; apply set_cleaned_data_same].
  revert s. fold (@frame_only (DataFrame Row)).
  repeat first
    [ apply frame_only_store
    | apply frame_only_handle_missing_values
    | apply frame_only_encode_categorical_variables
    | apply frame_only_create_derived_fields
    | apply frame_only_the_cleaned_data
    | apply frame_only_bind; [|intros _] ].
Qed.

(** X1.  Clean/Transform works on a copy: whether it returns or raises, and
    whatever the columns of the source and the clock, it leaves the raw
    data, the address of the source, the dimension tables and the fact table
    of the object as they were. *)
Theorem cleaning_works_on_a_copy (current_year : Z) (s : EVDataETL) :
  raw_data (clean_and_transform current_year s).2 = raw_data s
  /\ data_url (clean_and_transform current_year s).2 = data_url s
  /\ dimension_tables (clean_and_transform current_year s).2 = dimension_tables s
  /\ fact_table (clean_and_transform current_year s).2 = fact_table s.
Proof.
  rewrite (frame_only_clean_and_transform current_year s). by destruct s.
Qed.

(** X2.  Clean/Transform starts from the raw data every time: called again
    on the object it has left, it ends the same way (the same frame or the
    same exception) and leaves the object as the first call did. *)
Theorem cleaning_again_changes_nothing (current_year : Z) (s : EVDataETL) :
  clean_and_transform current_year (clean_and_transform current_year s).2
  = clean_and_transform current_year s.
Proof.
  pose proof (frame_only_clean_and_transform current_year s) as Hs.
  destruct (clean_and_transform current_year s) as [r s1] eqn:Hrun. cbn [snd] in *.
  rewrite <- Hrun. unfold clean_and_transform. rewrite !run_get.
  rewrite Hs. cbn [raw_data set_cleaned_data].
  destruct (raw_data s) as [raw|] eqn:Hraw.
  - rewrite !run_modify. by destruct s.
  - unfold clean_and_transform in Hrun. rewrite run_get, Hraw in Hrun.
    injection Hrun as <- <-. by rewrite set_cleaned_data_same.
Qed.

(* ===================================================================== *)
(** * The derived columns                                                 *)
(* ===================================================================== *)

(** X3.  After Clean/Transform on a documented input, the year category of
    a row is one of the three labels or is missing, and it is missing
    exactly when the model year is missing, is negative, or lies beyond the
    year after the run: a vehicle dated later than next year has no
    category. *)
Theorem year_category_missing (current_year : Z) (s : EVDataETL)
    (raw : DataFrame Source) :
  raw_data s = Some raw -> documented raw -> 2020 <= current_year ->
  exists df,
    clean_and_transform current_year s = (Ok df, set_cleaned_data (Some df) s)
    /\ Forall
         (fun r : Row =>
            Year_Category r ∈ [None; Some "Pre-2015"; Some "2015-2020"; Some "2021+"]
            /\ (Year_Category r = None
                <-> match Model_Year r with
                    | None => True
                    | Some y => y < 0 \/ current_year + 1 < y
                    end))
         (rows df).
Proof.
  intros Hraw Hdoc Hcy.
  destruct (clean_and_transform_run current_year s raw Hraw Hdoc Hcy)
    as (df & Hclean & Hcols & Hrows).
  exists df. split; [exact Hclean|].
  apply Forall_forall. intros r Hr.
  apply list_elem_of_lookup in Hr as [i Hi].
  destruct (Forall2_lookup_r _ _ _ _ _ Hrows Hi) as (x & _ & Hxr).
  rewrite (cleaned_Year_Category _ _ _ _ Hxr), (cleaned_Model_Year _ _ _ _ Hxr).
  destruct (Model_Year x) as [y|]; [|split; [set_solver|done]].
  rewrite year_category_bins by done.
  destruct (Z.ltb_spec y 0), (Z.leb_spec y 2015), (Z.leb_spec y 2020),
    (Z.leb_spec y (current_year + 1));
    (split; [set_solver|split; [try done; intros _; lia|try done; lia]]).
Qed.

Lemma year_category_missing_witness :
  exists df,
    clean_and_transform 2025 (set_raw_data (Some scenario) (init url))
    = (Ok df, set_cleaned_data (Some df) (set_raw_data (Some scenario) (init url)))
    /\ Forall
         (fun r : Row =>
            Year_Category r ∈ [None; Some "Pre-2015"; Some "2015-2020"; Some "2021+"]
            /\ (Year_Category r = None
                <-> match Model_Year r with
                    | None => True
                    | Some y => y < 0 \/ 2025 + 1 < y
                    end))
         (rows df).
Proof.
  apply (year_category_missing 2025 (set_raw_data (Some scenario) (init url)) scenario);
    [reflexivity|reflexivity|lia].
Defined.

(** X4.  After Clean/Transform on a documented input, the decade of a row
    is the multiple of ten that starts the ten years its model year lies in
    (the division rounds down, also below zero), and is missing when the
    model year is. *)
Theorem model_decade_bounds (current_year : Z) (s : EVDataETL)
    (raw : DataFrame Source) :
  raw_data s = Some raw -> documented raw -> 2020 <= current_year ->
  exists df,
    clean_and_transform current_year s = (Ok df, set_cleaned_data (Some df) s)
    /\ Forall
         (fun r : Row =>
            match Model_Year r with
            | Some y =>
                exists d, Model_Decade r = Some d /\ d mod 10 = 0 /\ d <= y < d + 10
            | None => Model_Decade r = None
            end)
         (rows df).
Proof.
  intros Hraw Hdoc Hcy.
  destruct (clean_and_transform_run current_year s raw Hraw Hdoc Hcy)
    as (df & Hclean & Hcols & Hrows).
  exists df. split; [exact Hclean|].
  apply Forall_forall. intros r Hr.
  apply list_elem_of_lookup in Hr as [i Hi].
  destruct (Forall2_lookup_r _ _ _ _ _ Hrows Hi) as (x & _ & Hxr).
  rewrite (cleaned_Model_Decade _ _ _ _ Hxr), (cleaned_Model_Year _ _ _ _ Hxr).
  destruct (Model_Year x) as [y|]; [|done].
  exists (y / 10 * 10). split; [done|]. split.
  - apply Z_mod_mult.
  - pose proof (Z.div_mod y 10). pose proof (Z.mod_pos_bound y 10). lia.
Qed.

Lemma model_decade_bounds_witness :
  exists df,
    clean_and_transform 2025 (set_raw_data (Some scenario) (init url))
    = (Ok df, set_cleaned_data (Some df) (set_raw_data (Some scenario) (init url)))
    /\ Forall
         (fun r : Row =>
            match Model_Year r with
            | Some y =>
                exists d, Model_Decade r = Some d /\ d mod 10 = 0 /\ d <= y < d + 10
            | None => Model_Decade r = None
            end)
         (rows df).
Proof.
  apply (model_decade_bounds 2025 (set_raw_data (Some scenario) (init url)) scenario);
    [reflexivity|reflexivity|lia].
Defined.

(** The median of a column without a value is missing. *)
Lemma median_all_missing (column : list (option Q)) :
  Forall (fun x => x = None) column -> median column = None.
Proof.
  intros Hc. unfold median.
  assert (dropna column = []) as ->; [|done].
  induction Hc as [|x l -> _ IH]; [done|]. exact IH.
Qed.

(** X5.  When no record of a documented source has a range, the median is
    missing and filling with it fills nothing: every range is still missing
    after Clean/Transform. *)
Theorem ranges_stay_missing (current_year : Z) (s : EVDataETL)
    (raw : DataFrame Source) :
  raw_data s = Some raw -> documented raw -> 2020 <= current_year ->
  Forall (fun x : Source => Electric_Range x = None) (rows raw) ->
  exists df,
    clean_and_transform current_year s = (Ok df, set_cleaned_data (Some df) s)
    /\ length (rows df) = length (rows raw)
    /\ Forall (fun r : Row => Electric_Range r = None) (rows df).
Proof.
  intros Hraw Hdoc Hcy Hnone.
  destruct (clean_and_transform_run current_year s raw Hraw Hdoc Hcy)
    as (df & Hclean & Hcols & Hrows).
  exists df. split; [exact Hclean|].
  split; [symmetry; by eapply Forall2_length|].
  rewrite median_all_missing in Hrows by (by apply Forall_map).
  apply Forall_forall. intros r Hr.
  apply list_elem_of_lookup in Hr as [i Hi].
  destruct (Forall2_lookup_r _ _ _ _ _ Hrows Hi) as (x & Hx & Hxr).
  rewrite (cleaned_Electric_Range _ _ _ _ Hxr).
  eapply Forall_forall in Hnone; [|by eapply list_elem_of_lookup_2]. by rewrite Hnone.
Qed.

Lemma ranges_stay_missing_witness :
  exists df,
    clean_and_transform 2025 (set_raw_data (Some no_ranges) (init url))
    = (Ok df, set_cleaned_data (Some df) (set_raw_data (Some no_ranges) (init url)))
    /\ length (rows df) = length (rows no_ranges)
    /\ Forall (fun r : Row => Electric_Range r = None) (rows df).
Proof.
  apply (ranges_stay_missing 2025 (set_raw_data (Some no_ranges) (init url)) no_ranges);
    [reflexivity|reflexivity|lia|repeat constructor].
Defined.

(** ** What cleaning keeps *)

(** X6.  Clean/Transform on a documented input keeps the records in their
    order and changes no cell that holds a value: every cell of a text
    column that is not missing, every range and every price that is there
    are as in the source; the state, the coordinates cell, the identifier,
    the model year and the registration number are as in the source even
    when they are missing. *)
Theorem cleaning_keeps_present_values (current_year : Z) (s : EVDataETL)
    (raw : DataFrame Source) :
  raw_data s = Some raw -> documented raw -> 2020 <= current_year ->
  exists df,
    clean_and_transform current_year s = (Ok df, set_cleaned_data (Some df) s)
    /\ Forall2
         (fun (x : Source) (r : Row) =>
            (forall c, obj x c <> NaN -> obj r c = obj x c)
            /\ obj r State = obj x State
            /\ obj r Vehicle_Location = obj x Vehicle_Location
            /\ VIN_1_10 r = VIN_1_10 x
            /\ Model_Year r = Model_Year x
            /\ DOL_Vehicle_ID r = DOL_Vehicle_ID x
            /\ (forall v, Electric_Range x = Some v -> Electric_Range r = Some v)
            /\ (forall v, Base_MSRP x = Some v -> Base_MSRP r = Some v))
         (rows raw) (rows df).
Proof.
  intros Hraw Hdoc Hcy.
  destruct (clean_and_transform_run current_year s raw Hraw Hdoc Hcy)
    as (df & Hclean & Hcols & Hrows).
  exists df. split; [exact Hclean|].
  eapply Forall2_impl; [exact Hrows|]. intros x r Hxr.
  split; [|split; [|split; [|split; [|split; [|split; [|split]]]]]].
  - intros c Hc. rewrite (cleaned_obj _ _ _ _ Hxr).
    destruct (bool_decide _); [|done]. by destruct (obj x c).
  - by rewrite (cleaned_obj _ _ _ _ Hxr).
  - by rewrite (cleaned_obj _ _ _ _ Hxr).
  - apply (cleaned_VIN _ _ _ _ Hxr).
  - apply (cleaned_Model_Year _ _ _ _ Hxr).
  - apply (cleaned_DOL_Vehicle_ID _ _ _ _ Hxr).
  - intros v Hv. by rewrite (cleaned_Electric_Range _ _ _ _ Hxr), Hv.
  - intros v Hv. by rewrite (cleaned_Base_MSRP _ _ _ _ Hxr), Hv.
Qed.

Lemma cleaning_keeps_present_values_witness :
  exists df,
    clean_and_transform 2025 (set_raw_data (Some scenario) (init url))
    = (Ok df, set_cleaned_data (Some df) (set_raw_data (Some scenario) (init url)))
    /\ Forall2
         (fun (x : Source) (r : Row) =>
            (forall c, obj x c <> NaN -> obj r c = obj x c)
            /\ obj r State = obj x State
            /\ obj r Vehicle_Location = obj x Vehicle_Location
            /\ VIN_1_10 r = VIN_1_10 x
            /\ Model_Year r = Model_Year x
            /\ DOL_Vehicle_ID r = DOL_Vehicle_ID x
            /\ (forall v, Electric_Range x = Some v -> Electric_Range r = Some v)
            /\ (forall v, Base_MSRP x = Some v -> Base_MSRP r = Some v))
         (rows scenario) (rows df).
Proof.
  apply (cleaning_keeps_present_values 2025 (set_raw_data (Some scenario) (init url))
           scenario);
    [reflexivity|reflexivity|lia].
Defined.

(** ** The hashed identifier *)

Lemma le_bytes_length (n : nat) (x : Z) : length (MD5.le_bytes n x) = n.
Proof. revert x. induction n as [|n IH]; intros x; simpl; [done|]. by rewrite IH. Qed.

Lemma le_bytes_range (n : nat) (x : Z) :
  Forall (fun b => 0 <= b < 256) (MD5.le_bytes n x).
Proof.
  revert x. induction n as [|n IH]; intros x; simpl; constructor; [|apply IH].
  change 255 with (Z.ones 8). rewrite Z.land_ones by lia.
  apply Z.mod_pos_bound. lia.
Qed.

(** A digest has sixteen bytes, whatever the message. *)
Lemma digest_bytes (msg : list Z) :
  length (MD5.digest msg) = 16%nat /\ Forall (fun b => 0 <= b < 256) (MD5.digest msg).
Proof.
  unfold MD5.digest. destruct (fold_left _ _ _) as [[[a b] c] d].
  split.
  - rewrite !length_app, !le_bytes_length. done.
  - rewrite !Forall_app. repeat split; apply le_bytes_range.
Qed.

Lemma hex_digits (b : Z) :
  0 <= b < 256 ->
  is_hex (MD5.hex_digit (Z.shiftr b 4)) = true /\ is_hex (MD5.hex_digit (Z.land b 15)) = true.
Proof.
  intros Hb.
  assert (forallb (fun b => is_hex (MD5.hex_digit (Z.shiftr b 4))
                            && is_hex (MD5.hex_digit (Z.land b 15)))
                  (seqZ 0 256) = true) as Hall by (vm_compute; reflexivity).
  rewrite forallb_forall in Hall. apply andb_prop, Hall, list_elem_of_In, elem_of_seqZ. lia.
Qed.

Lemma substring_take (n : nat) (s : string) :
  list_ascii_of_string (String.substring 0 n s) = take n (list_ascii_of_string s).
Proof.
  revert s. induction n as [|n IH]; intros [|c s]; simpl; try done. by rewrite IH.
Qed.

Lemma string_length_list (s : string) :
  String.length s = length (list_ascii_of_string s).
Proof. induction s as [|c s IH]; simpl; [done|]. by rewrite IH. Qed.

(** X7.  The hashed identifier of a row is the placeholder "Unknown" when
    the identifier is missing; otherwise it is exactly ten lower-case
    hexadecimal digits, the first ten of the digest, and so never reads as
    the placeholder. *)
Theorem vin_hash_format (x : option string) :
  match x with
  | Some vin =>
      String.length (vin_hash x) = 10%nat
      /\ Forall (fun c => is_hex c = true) (list_ascii_of_string (vin_hash x))
      /\ vin_hash x <> "Unknown"
      /\ vin_hash x = String.substring 0 10 (MD5.hexdigest vin)
  | None => vin_hash x = "Unknown"
  end.
Proof.
  destruct x as [vin|]; [|done].
  assert (String.length (vin_hash (Some vin)) = 10%nat
          /\ Forall (fun c => is_hex c = true) (list_ascii_of_string (vin_hash (Some vin))))
    as [Hlen Hhex].
  { rewrite string_length_list. unfold vin_hash, MD5.hexdigest, MD5.hex.
    rewrite substring_take, list_ascii_of_string_of_list_ascii.
    destruct (digest_bytes (map (fun c => Z.of_N (N_of_ascii c)) (list_ascii_of_string vin)))
      as [Hn Hb].
    split.
    - rewrite length_take, (flat_map_constant_length (c := 2)) by done. lia.
    - apply Forall_take, Forall_flat_map. eapply Forall_impl; [exact Hb|].
      intros b Hr. destruct (hex_digits b Hr). by repeat constructor. }
  split; [done|]. split; [done|]. split; [|done].
  intros Heq. rewrite Heq in Hlen. discriminate.
Qed.

(* ===================================================================== *)
(** * Keys of the star schema                                             *)
(* ===================================================================== *)

(** The identifiers [range(1, len(data) + 1)] gives. *)
Lemma with_ids_ids {A B} (mk : Z -> A -> B) (id : B -> Z) (l : list A) :
  (forall i a, id (mk i a) = i) ->
  map id (with_ids mk l) = seqZ 1 (Z.of_nat (length l)).
Proof.
  intros Hid. apply list_eq. intros i. unfold with_ids.
  rewrite map_fmap, list_lookup_fmap, list_lookup_imap.
  destruct (l !! i) as [a|] eqn:Hi; simpl.
  - rewrite Hid. symmetry. apply lookup_seqZ. apply lookup_lt_Some in Hi. lia.
  - symmetry. apply lookup_seqZ_ge. apply lookup_ge_None in Hi. lia.
Qed.

(** X8.  The vehicle, utility and time dimensions are deduplicated on the
    columns they are joined on: no two rows of a dimension carry the same
    natural key, a key is in the dimension exactly when a cleaned row
    carries it, and the dimension has no more rows than the cleaned
    table. *)
Theorem dimensions_have_distinct_keys (cleaned : list Row) :
  (NoDup (map vehicle_row_key (vehicle_dimension cleaned))
   /\ (forall k, k ∈ map vehicle_row_key (vehicle_dimension cleaned)
                 <-> k ∈ map vehicle_key cleaned)
   /\ (length (vehicle_dimension cleaned) <= length cleaned)%nat)
  /\ (NoDup (map utility_Electric_Utility (utility_dimension cleaned))
      /\ (forall k, k ∈ map utility_Electric_Utility (utility_dimension cleaned)
                    <-> k ∈ map (fun r : Row => utility_key r) cleaned)
      /\ (length (utility_dimension cleaned) <= length cleaned)%nat)
  /\ (NoDup (map time_row_key (time_dimension cleaned))
      /\ (forall k, k ∈ map time_row_key (time_dimension cleaned)
                    <-> k ∈ map time_key cleaned)
      /\ (length (time_dimension cleaned) <= length cleaned)%nat).
Proof.
  rewrite vehicle_dimension_keys, utility_dimension_keys, time_dimension_keys.
  unfold vehicle_dimension, utility_dimension, time_dimension.
  rewrite !with_ids_length.
  repeat split; try apply NoDup_drop_duplicates; try apply elem_of_drop_duplicates.
  all: etrans; [apply drop_duplicates_length|]; by rewrite length_map.
Qed.

(** A list without repetition has as many elements as there are distinct
    elements in a list with the same elements. *)
Lemma NoDup_distinct_length {A} `{EqDecision A} (l k : list A) :
  NoDup l -> (forall x, x ∈ l <-> x ∈ k) -> length l = length (remove_dups k).
Proof.
  intros Hl Hlk. apply Permutation_length, NoDup_Permutation.
  - exact Hl.
  - apply NoDup_remove_dups.
  - intros x. rewrite elem_of_remove_dups. apply Hlk.
Qed.

(** A projection that determines the key carries deduplication over: the
    projected keys are distinct, and they are the projections there were. *)
Lemma drop_duplicates_projection {K V} `{EqDecision K} (f : K -> V) (keys : list K) :
  (forall k1 k2, k1 ∈ keys -> k2 ∈ keys -> f k1 = f k2 -> k1 = k2) ->
  NoDup (map f (drop_duplicates keys))
  /\ (forall v, v ∈ map f (drop_duplicates keys) <-> v ∈ map f keys).
Proof.
  intros Hinj. split.
  - rewrite map_fmap. apply NoDup_fmap_2_strong; [|apply NoDup_drop_duplicates].
    intros k1 k2 H1 H2 Hf. rewrite elem_of_drop_duplicates in H1.
    rewrite elem_of_drop_duplicates in H2. by apply Hinj.
  - intros v. rewrite !map_fmap, !list_elem_of_fmap.
    split; intros (k & -> & Hk); exists k; (split; [done|]);
      by apply elem_of_drop_duplicates.
Qed.

(** X9.  The columns cleaning derives add no row to a dimension.  After
    Clean/Transform on a documented input, the time dimension has exactly
    one row for each distinct model year of the source, a missing year
    counting as one (the decade and the category follow from the year); and
    the vehicle dimension has exactly one row for each distinct combination
    of make, model, type and eligibility of the cleaned table (the two
    codes follow from the type and the eligibility). *)
Theorem derived_columns_add_no_dimension_rows (current_year : Z) (s : EVDataETL)
    (raw : DataFrame Source) :
  raw_data s = Some raw -> documented raw -> 2020 <= current_year ->
  exists df,
    clean_and_transform current_year s = (Ok df, set_cleaned_data (Some df) s)
    /\ (NoDup (map time_Model_Year (time_dimension (rows df)))
        /\ (forall y, y ∈ map time_Model_Year (time_dimension (rows df))
                      <-> y ∈ map Model_Year (rows raw))
        /\ length (time_dimension (rows df))
           = length (remove_dups (map Model_Year (rows raw))))
    /\ (NoDup (map vehicle_cols (vehicle_dimension (rows df)))
        /\ (forall c, c ∈ map vehicle_cols (vehicle_dimension (rows df))
                      <-> c ∈ map (fun r : Row =>
                                     map (obj r) [Make; Model; Electric_Vehicle_Type;
                                                  CAFV_Eligibility])
                                  (rows df))
        /\ length (vehicle_dimension (rows df))
           = length (remove_dups
                       (map (fun r : Row =>
                               map (obj r) [Make; Model; Electric_Vehicle_Type;
                                            CAFV_Eligibility])
                            (rows df)))).
Proof.
  intros Hraw Hdoc Hcy.
  destruct (clean_and_transform_run current_year s raw Hraw Hdoc Hcy)
    as (df & Hclean & Hcols & Hrows).
  exists df. split; [exact Hclean|].
  assert (forall r : Row, r ∈ rows df ->
            time_key r = (Model_Year r, decade (Model_Year r),
                          cut_one (year_bins current_year) year_labels true (Model_Year r))
            /\ vehicle_key r
               = (map (obj r) [Make; Model; Electric_Vehicle_Type; CAFV_Eligibility],
                  fillna0_int (map_dict ev_type_mapping (obj r Electric_Vehicle_Type)),
                  fillna0_int (map_dict cafv_mapping (obj r CAFV_Eligibility)))) as Hkey.
  { intros r Hr. apply list_elem_of_lookup in Hr as [i Hi].
    destruct (Forall2_lookup_r _ _ _ _ _ Hrows Hi) as (x & _ & Hxr).
    unfold time_key, vehicle_key.
    rewrite (cleaned_Model_Decade _ _ _ _ Hxr), (cleaned_Year_Category _ _ _ _ Hxr),
      (cleaned_Model_Year _ _ _ _ Hxr), (cleaned_EV_Type_Code _ _ _ _ Hxr),
      (cleaned_CAFV_Code _ _ _ _ Hxr).
    split; [done|]. by rewrite !(cleaned_obj _ _ _ _ Hxr). }
  assert (map (fun r : Row => Model_Year r) (rows df) = map Model_Year (rows raw))
    as Hyears.
  { clear -Hrows. induction Hrows as [|x r xs rs Hxr _ IH]; [done|].
    cbn [map]. by rewrite (cleaned_Model_Year _ _ _ _ Hxr), IH. }
  assert (map time_Model_Year (time_dimension (rows df))
          = map (fun k : option Z * option Z * option string => k.1.1)
                (drop_duplicates (map time_key (rows df)))) as Et.
  { rewrite <- time_dimension_keys. by rewrite map_map. }
  assert (map vehicle_cols (vehicle_dimension (rows df))
          = map (fun k : list cell * Z * Z => k.1.1)
                (drop_duplicates (map vehicle_key (rows df)))) as Ev.
  { rewrite <- vehicle_dimension_keys. by rewrite map_map. }
  split.
  - destruct (drop_duplicates_projection
                (fun k : option Z * option Z * option string => k.1.1)
                (map time_key (rows df))) as [Hnd Hin].
    { intros k1 k2 H1 H2 Hy.
      apply list_elem_of_In, in_map_iff in H1 as (r1 & <- & Hr1).
      apply list_elem_of_In, in_map_iff in H2 as (r2 & <- & Hr2).
      apply list_elem_of_In in Hr1, Hr2.
      destruct (Hkey r1 Hr1) as [E1 _]. destruct (Hkey r2 Hr2) as [E2 _].
      rewrite E1, E2 in *. cbn [fst] in Hy. by rewrite Hy. }
    assert (forall y, y ∈ map time_Model_Year (time_dimension (rows df))
                      <-> y ∈ map Model_Year (rows raw)) as Hiff.
    { intros y. rewrite Et, Hin, map_map, <- Hyears. reflexivity. }
    split; [by rewrite Et|]. split; [exact Hiff|].
    etrans; [symmetry; apply (length_map time_Model_Year)|].
    apply NoDup_distinct_length; [by rewrite Et|exact Hiff].
  - destruct (drop_duplicates_projection
                (fun k : list cell * Z * Z => k.1.1)
                (map vehicle_key (rows df))) as [Hnd Hin].
    { intros k1 k2 H1 H2 Hy.
      apply list_elem_of_In, in_map_iff in H1 as (r1 & <- & Hr1).
      apply list_elem_of_In, in_map_iff in H2 as (r2 & <- & Hr2).
      apply list_elem_of_In in Hr1, Hr2.
      destruct (Hkey r1 Hr1) as [_ E1]. destruct (Hkey r2 Hr2) as [_ E2].
      rewrite E1, E2 in *. cbn [fst map] in Hy |- *. injection Hy as H1 H2 H3 H4.
      by rewrite H1, H2, H3, H4. }
    assert (forall c, c ∈ map vehicle_cols (vehicle_dimension (rows df))
                      <-> c ∈ map (fun r : Row =>
                                     map (obj r) [Make; Model; Electric_Vehicle_Type;
                                                  CAFV_Eligibility])
                                  (rows df)) as Hiff.
    { intros c. rewrite Ev, Hin, map_map. reflexivity. }
    split; [by rewrite Ev|]. split; [exact Hiff|].
    etrans; [symmetry; apply (length_map vehicle_cols)|].
    apply NoDup_distinct_length; [by rewrite Ev|exact Hiff].
Qed.

Lemma derived_columns_add_no_dimension_rows_witness :
  exists df,
    clean_and_transform 2025 (set_raw_data (Some scenario) (init url))
    = (Ok df, set_cleaned_data (Some df) (set_raw_data (Some scenario) (init url)))
    /\ (NoDup (map time_Model_Year (time_dimension (rows df)))
        /\ (forall y, y ∈ map time_Model_Year (time_dimension (rows df))
                      <-> y ∈ map Model_Year (rows scenario))
        /\ length (time_dimension (rows df))
           = length (remove_dups (map Model_Year (rows scenario))))
    /\ (NoDup (map vehicle_cols (vehicle_dimension (rows df)))
        /\ (forall c, c ∈ map vehicle_cols (vehicle_dimension (rows df))
                      <-> c ∈ map (fun r : Row =>
                                     map (obj r) [Make; Model; Electric_Vehicle_Type;
                                                  CAFV_Eligibility])
                                  (rows df))
        /\ length (vehicle_dimension (rows df))
           = length (remove_dups
                       (map (fun r : Row =>
                               map (obj r) [Make; Model; Electric_Vehicle_Type;
                                            CAFV_Eligibility])
                            (rows df)))).
Proof.
  apply (derived_columns_add_no_dimension_rows 2025
           (set_raw_data (Some scenario) (init url)) scenario);
    [reflexivity|reflexivity|lia].
Defined.

Section JoinFacts.
Context {K : Type} `{EqDecision K} {L R : Type} (lkey : L -> K) (rkey : R -> K).

(** What a left join pairs: a row of the left table with a row of the right
    table that carries its key, or with nothing when no row carries it. *)
Lemma merge_left_pairs (left : list L) (right : list R) :
  Forall (fun p => p.1 ∈ left
                   /\ match p.2 with
                      | Some r => r ∈ right /\ rkey r = lkey p.1
                      | None => lkey p.1 ∉ map rkey right
                      end)
         (merge_left lkey rkey left right).
Proof.
  induction left as [|l left IH]; simpl; [constructor|].
  apply Forall_app. split.
  - destruct (filter _ right) as [|m ms] eqn:Hf.
    + repeat constructor. simpl. intros Hin.
      by apply (filter_key_present rkey) in Hin.
    + apply Forall_forall. intros p Hp.
      assert (exists r, p = (l, Some r) /\ r ∈ m :: ms) as (r & -> & Hr).
      { apply elem_of_cons in Hp as [->|Hp]; [exists m; split; [done|by left]|].
        apply list_elem_of_In, in_map_iff in Hp as (r & <- & Hr).
        exists r. split; [done|]. right. by apply list_elem_of_In. }
      rewrite <- Hf in Hr. apply list_elem_of_filter in Hr as [Hk Hr].
      simpl. split; [by left|done].
  - eapply Forall_impl; [exact IH|]. intros p [? ?]. split; [by right|done].
Qed.

(** When the keys of the right table are pairwise distinct and cover the
    keys of the left table, the join is the left table, row for row. *)
Lemma merge_left_fst (left : list L) (right : list R) :
  NoDup (map rkey right) ->
  (forall l, l ∈ left -> lkey l ∈ map rkey right) ->
  map fst (merge_left lkey rkey left right) = left.
Proof.
  intros Hnd. induction left as [|l left IH]; intros Hcov; simpl; [done|].
  rewrite map_app, IH; [|intros; apply Hcov; by right].
  destruct (filter_key_unique rkey right (lkey l) Hnd) as (r & -> & _);
    [apply Hcov; by left|done].
Qed.

(** A row with two partners makes the join longer than the left table. *)
Lemma merge_left_length_gt (left : list L) (right : list R) (l : L) :
  l ∈ left -> (2 <= length (filter (fun r => rkey r = lkey l) right))%nat ->
  (length left < length (merge_left lkey rkey left right))%nat.
Proof.
  induction left as [|l0 left IH]; [by intros ?%elem_of_nil|].
  intros Hin Htwo. simpl. rewrite length_app.
  pose proof (merge_left_length_ge lkey rkey left right) as Hge.
  apply elem_of_cons in Hin as [<-|Hin].
  - destruct (filter _ right) as [|m ms]; simpl in *; [lia|].
    rewrite length_map. lia.
  - specialize (IH Hin Htwo).
    destruct (filter (fun r => rkey r = lkey l0) right) as [|m ms]; simpl; lia.
Qed.
End JoinFacts.

(** Two rows of a list that pass a test leave two rows in the filtered
    list. *)
Lemma filter_two {A} (P : A -> Prop) `{forall x, Decision (P x)} (l : list A) (x y : A) :
  x ∈ l -> y ∈ l -> x <> y -> P x -> P y -> (2 <= length (filter P l))%nat.
Proof.
  intros Hx Hy Hne Px Py.
  change 2%nat with (length [x; y]). apply submseteq_length, NoDup_submseteq.
  - apply NoDup_cons. split; [by intros ?%list_elem_of_singleton|].
    apply NoDup_singleton.
  - intros z Hz. apply list_elem_of_filter.
    apply elem_of_cons in Hz as [->|Hz]; [done|].
    apply list_elem_of_singleton in Hz as ->. done.
Qed.

Lemma NoDup_map_fst {A B} (l : list (A * B)) (k : A) (a b : B) :
  NoDup (map fst l) -> (k, a) ∈ l -> (k, b) ∈ l -> a = b.
Proof.
  induction l as [|[k0 v0] l IH]; simpl; [by intros _ ?%elem_of_nil|].
  intros [Hk Hnd]%NoDup_cons Ha Hb.
  apply elem_of_cons in Ha as [Ha|Ha], Hb as [Hb|Hb].
  - congruence.
  - injection Ha as -> ->. destruct Hk. by apply (elem_of_map_2 fst _ (k0, b)).
  - injection Hb as -> ->. destruct Hk. by apply (elem_of_map_2 fst _ (k0, a)).
  - by apply IH.
Qed.

(** The rows of the cleaned table, as the location dimension is
    deduplicated on them. *)
Lemma location_pairs_determined (cleaned : list Row) :
  location_determined cleaned
  <-> NoDup (map fst (drop_duplicates
                        (map (fun r : Row => (location_key r, obj r Vehicle_Location))
                             cleaned))).
Proof.
  split.
  - intros Hdet. rewrite map_fmap.
    apply NoDup_fmap_2_strong; [|apply NoDup_drop_duplicates].
    intros [k1 v1] [k2 v2] Hx Hy Hk. cbn [fst] in Hk. subst k2.
    apply elem_of_drop_duplicates, list_elem_of_In, in_map_iff in Hx as (r1 & E1 & Hr1).
    apply elem_of_drop_duplicates, list_elem_of_In, in_map_iff in Hy as (r2 & E2 & Hr2).
    pose proof (f_equal fst E1) as K1. pose proof (f_equal snd E1) as V1.
    pose proof (f_equal fst E2) as K2. pose proof (f_equal snd E2) as V2.
    cbn [fst snd] in K1, V1, K2, V2. subst v1 v2. f_equal.
    apply Hdet; [by apply list_elem_of_In..|congruence].
  - intros Hnd r r' Hr Hr' Hk.
    apply (NoDup_map_fst _ (location_key r) _ _ Hnd).
    + apply elem_of_drop_duplicates.
      by apply (elem_of_map_2 (fun r : Row => (location_key r, obj r Vehicle_Location))).
    + rewrite Hk. apply elem_of_drop_duplicates.
      by apply (elem_of_map_2 (fun r : Row => (location_key r, obj r Vehicle_Location))).
Qed.

(** X10.  The location dimension is deduplicated on seven columns and keeps
    six of them as its join key.  A key is in the dimension exactly when a
    cleaned row carries it, and the dimension has no more rows than the
    cleaned table; its keys are pairwise distinct exactly when the six
    columns determine the coordinates cell in the cleaned table.  Every row
    of the dimension holds the six cells of a cleaned row and the
    coordinates read from the coordinates cell of that row. *)
Theorem location_dimension_keys_distinct_iff (cleaned : list Row) :
  (forall k, k ∈ map location_row_key (location_dimension cleaned)
             <-> k ∈ map (fun r : Row => location_key r) cleaned)
  /\ (length (location_dimension cleaned) <= length cleaned)%nat
  /\ (NoDup (map location_row_key (location_dimension cleaned))
      <-> location_determined cleaned)
  /\ Forall (fun l : LocationRow =>
               exists r : Row,
                 r ∈ cleaned /\ location_cols l = location_key r
                 /\ Latitude l = latitude (locate (obj r Vehicle_Location))
                 /\ Longitude l = longitude (locate (obj r Vehicle_Location)))
            (location_dimension cleaned).
Proof.
  rewrite location_dimension_keys. split; [|split; [|split]].
  4: { unfold location_dimension.
       eapply (with_ids_Forall _
                 (fun p : list cell * Coordinates =>
                    exists r : Row, r ∈ cleaned
                      /\ p = (location_key r, locate (obj r Vehicle_Location)))).
       - apply Forall_forall. intros p Hp.
         apply list_elem_of_In, in_map_iff in Hp as ([k v] & <- & Hkv).
         apply list_elem_of_In, elem_of_drop_duplicates, list_elem_of_In, in_map_iff in Hkv
           as (r & [= <- <-] & Hr).
         exists r. split; [by apply list_elem_of_In|done].
       - intros i p (r & Hr & ->). by exists r. }
  - intros k. rewrite !map_fmap, !list_elem_of_fmap. split.
    + intros ([k' v] & -> & Hin).
      apply elem_of_drop_duplicates, list_elem_of_fmap in Hin as (r & E & Hr).
      exists r. split; [|done]. by injection E.
    + intros (r & -> & Hr). exists (location_key r, obj r Vehicle_Location).
      split; [done|]. apply elem_of_drop_duplicates, list_elem_of_fmap. by exists r.
  - unfold location_dimension. rewrite with_ids_length, length_map.
    etrans; [apply drop_duplicates_length|]. by rewrite length_map.
  - symmetry. apply location_pairs_determined.
Qed.

(* ===================================================================== *)
(** * Rows of the fact table                                              *)
(* ===================================================================== *)

(** The rows of the four joins: a cleaned row with, from each dimension, a
    row that carries its key. *)
Lemma join_dimensions_pairs (cleaned : list Row) :
  Forall (fun j : Joined =>
            exists (l : LocationRow) (v : VehicleRow) (u : UtilityRow) (t : TimeRow),
              j.1.1.1.1 ∈ cleaned
              /\ j.1.1.1.2 = Some l /\ l ∈ location_dimension cleaned
              /\ location_row_key l = location_key j.1.1.1.1
              /\ j.1.1.2 = Some v /\ v ∈ vehicle_dimension cleaned
              /\ vehicle_row_key v = vehicle_key j.1.1.1.1
              /\ j.1.2 = Some u /\ u ∈ utility_dimension cleaned
              /\ utility_Electric_Utility u = utility_key j.1.1.1.1
              /\ j.2 = Some t /\ t ∈ time_dimension cleaned
              /\ time_row_key t = time_key j.1.1.1.1)
         (join_dimensions cleaned (location_dimension cleaned)
            (vehicle_dimension cleaned) (utility_dimension cleaned)
            (time_dimension cleaned)).
Proof.
  pose proof (join_dimensions_matched cleaned) as Hm. revert Hm.
  unfold join_dimensions.
  set (j1 := merge_left _ location_row_key cleaned _).
  set (j2 := merge_left _ vehicle_row_key j1 _).
  set (j3 := merge_left _ utility_Electric_Utility j2 _).
  set (j4 := merge_left _ time_row_key j3 _).
  intros Hm.
  pose proof (merge_left_pairs (fun r : Row => location_key r) location_row_key
                cleaned (location_dimension cleaned)) as H1. fold j1 in H1.
  pose proof (merge_left_pairs (fun j : Row * option LocationRow => vehicle_key j.1)
                vehicle_row_key j1 (vehicle_dimension cleaned)) as H2. fold j2 in H2.
  pose proof (merge_left_pairs
                (fun j : Row * option LocationRow * option VehicleRow => utility_key j.1.1)
                utility_Electric_Utility j2 (utility_dimension cleaned)) as H3.
  fold j3 in H3.
  pose proof (merge_left_pairs
                (fun j : Row * option LocationRow * option VehicleRow * option UtilityRow =>
                   time_key j.1.1.1)
                time_row_key j3 (time_dimension cleaned)) as H4.
  fold j4 in H4.
  rewrite Forall_forall in H1. rewrite Forall_forall in H2.
  rewrite Forall_forall in H3. rewrite Forall_forall in H4.
  rewrite Forall_forall in Hm. apply Forall_forall.
  intros [[[[r l] v] u] t] Hj. cbn [fst snd].
  pose proof (Hm _ Hj) as Hmj. cbn [fst snd] in Hmj.
  destruct Hmj as ([l' ->] & [v' ->] & [u' ->] & [t' ->]).
  pose proof (H4 _ Hj) as P4. cbn [fst snd] in P4. destruct P4 as [Hj3 [Ht Hkt]].
  pose proof (H3 _ Hj3) as P3. cbn [fst snd] in P3. destruct P3 as [Hj2 [Hu Hku]].
  pose proof (H2 _ Hj2) as P2. cbn [fst snd] in P2. destruct P2 as [Hj1 [Hv Hkv]].
  pose proof (H1 _ Hj1) as P1. cbn [fst snd] in P1. destruct P1 as [Hr [Hl Hkl]].
  exists l', v', u', t'. repeat split; done.
Qed.

(** X11.  The identifier column of each dimension table and of the fact
    table counts its rows from 1, in order, so the identifiers of a table
    are pairwise distinct; and each of the four keys of a fact row lies
    between 1 and the number of rows of its dimension. *)
Theorem surrogate_keys_count_from_one (cleaned : list Row) :
  (map location_id (location_dimension cleaned)
   = seqZ 1 (Z.of_nat (length (location_dimension cleaned)))
   /\ NoDup (map location_id (location_dimension cleaned)))
  /\ (map vehicle_id (vehicle_dimension cleaned)
      = seqZ 1 (Z.of_nat (length (vehicle_dimension cleaned)))
      /\ NoDup (map vehicle_id (vehicle_dimension cleaned)))
  /\ (map utility_id (utility_dimension cleaned)
      = seqZ 1 (Z.of_nat (length (utility_dimension cleaned)))
      /\ NoDup (map utility_id (utility_dimension cleaned)))
  /\ (map time_id (time_dimension cleaned)
      = seqZ 1 (Z.of_nat (length (time_dimension cleaned)))
      /\ NoDup (map time_id (time_dimension cleaned)))
  /\ (map registration_id (built_fact cleaned)
      = seqZ 1 (Z.of_nat (length (built_fact cleaned)))
      /\ NoDup (map registration_id (built_fact cleaned)))
  /\ Forall
       (fun f : FactRow =>
          exists a b c d,
            (fact_location_id f = Some a
             /\ 1 <= a <= Z.of_nat (length (location_dimension cleaned)))
            /\ (fact_vehicle_id f = Some b
                /\ 1 <= b <= Z.of_nat (length (vehicle_dimension cleaned)))
            /\ (fact_utility_id f = Some c
                /\ 1 <= c <= Z.of_nat (length (utility_dimension cleaned)))
            /\ (fact_time_id f = Some d
                /\ 1 <= d <= Z.of_nat (length (time_dimension cleaned))))
       (built_fact cleaned).
Proof.
  assert (forall {A B} (mk : Z -> A -> B) (id : B -> Z) (l : list A),
            (forall i a, id (mk i a) = i) ->
            map id (with_ids mk l) = seqZ 1 (Z.of_nat (length (with_ids mk l)))
            /\ NoDup (map id (with_ids mk l))) as Hids.
  { intros A B mk id l Hid. rewrite with_ids_length, (with_ids_ids _ _ _ Hid).
    split; [done|apply NoDup_seqZ]. }
  assert (forall {B} (id : B -> Z) (t : list B) (x : B),
            map id t = seqZ 1 (Z.of_nat (length t)) -> x ∈ t ->
            1 <= id x <= Z.of_nat (length t)) as Hin.
  { intros B id t x Hmap Hx. apply (elem_of_map_2 id) in Hx.
    rewrite Hmap, elem_of_seqZ in Hx. lia. }
  assert (map location_id (location_dimension cleaned)
          = seqZ 1 (Z.of_nat (length (location_dimension cleaned)))
          /\ NoDup (map location_id (location_dimension cleaned))) as Hl
    by (apply Hids; done).
  assert (map vehicle_id (vehicle_dimension cleaned)
          = seqZ 1 (Z.of_nat (length (vehicle_dimension cleaned)))
          /\ NoDup (map vehicle_id (vehicle_dimension cleaned))) as Hv
    by (apply Hids; done).
  assert (map utility_id (utility_dimension cleaned)
          = seqZ 1 (Z.of_nat (length (utility_dimension cleaned)))
          /\ NoDup (map utility_id (utility_dimension cleaned))) as Hu
    by (apply Hids; done).
  assert (map time_id (time_dimension cleaned)
          = seqZ 1 (Z.of_nat (length (time_dimension cleaned)))
          /\ NoDup (map time_id (time_dimension cleaned))) as Ht
    by (apply Hids; done).
  do 4 (split; [done|]). split.
  - unfold built_fact, fact_rows. apply Hids. by intros i [[[[r l] v] u] t].
  - unfold built_fact, fact_rows.
    eapply with_ids_Forall; [apply join_dimensions_pairs|].
    intros i [[[[r l] v] u] t] (l' & v' & u' & t' & H). cbn [fst snd] in H.
    destruct H as (_ & -> & Hl' & _ & -> & Hv' & _ & -> & Hu' & _ & -> & Ht' & _).
    exists (location_id l'), (vehicle_id v'), (utility_id u'), (time_id t').
    cbn [fact_of fact_location_id fact_vehicle_id fact_utility_id fact_time_id fmap
         option_fmap option_map].
    repeat split; try done.
    all: first [ apply (Hin _ location_id _ _ (proj1 Hl) Hl')
               | apply (Hin _ vehicle_id _ _ (proj1 Hv) Hv')
               | apply (Hin _ utility_id _ _ (proj1 Hu) Hu')
               | apply (Hin _ time_id _ _ (proj1 Ht) Ht') ].
Qed.

(** X12.  Every row of the fact table comes from a cleaned row: it carries
    the price, the range, the registration number and the hashed identifier
    of that row, and each of its four keys is the identifier of a row of
    the dimension that holds the same values as the cleaned row in the
    columns of the join. *)
Theorem fact_rows_reference_their_dimensions (cleaned : list Row) :
  Forall (fun f : FactRow =>
            exists (r : Row) (l : LocationRow) (v : VehicleRow) (u : UtilityRow)
                   (t : TimeRow),
              r ∈ cleaned /\ fact_measures f = row_measures r
              /\ (l ∈ location_dimension cleaned
                  /\ location_row_key l = location_key r
                  /\ fact_location_id f = Some (location_id l))
              /\ (v ∈ vehicle_dimension cleaned
                  /\ vehicle_row_key v = vehicle_key r
                  /\ fact_vehicle_id f = Some (vehicle_id v))
              /\ (u ∈ utility_dimension cleaned
                  /\ utility_Electric_Utility u = utility_key r
                  /\ fact_utility_id f = Some (utility_id u))
              /\ (t ∈ time_dimension cleaned
                  /\ time_row_key t = time_key r
                  /\ fact_time_id f = Some (time_id t)))
         (built_fact cleaned).
Proof.
  unfold built_fact, fact_rows.
  eapply with_ids_Forall; [apply join_dimensions_pairs|].
  intros i [[[[r l] v] u] t] (l' & v' & u' & t' & H). cbn [fst snd] in H.
  destruct H as (Hr & -> & Hl & Hkl & -> & Hv & Hkv & -> & Hu & Hku & -> & Ht & Hkt).
  exists r, l', v', u', t'. repeat split; done.
Qed.

(** The cleaned rows under the four joins, when no join multiplies a row. *)
Lemma join_dimensions_rows (cleaned : list Row) :
  location_determined cleaned ->
  map (fun j : Joined => j.1.1.1.1)
      (join_dimensions cleaned (location_dimension cleaned)
         (vehicle_dimension cleaned) (utility_dimension cleaned)
         (time_dimension cleaned))
  = cleaned.
Proof.
  intros Hdet. unfold join_dimensions.
  set (j1 := merge_left _ location_row_key cleaned _).
  set (j2 := merge_left _ vehicle_row_key j1 _).
  set (j3 := merge_left _ utility_Electric_Utility j2 _).
  set (j4 := merge_left _ time_row_key j3 _).
  assert (map fst j1 = cleaned) as E1.
  { apply merge_left_fst; [|apply location_key_covered].
    rewrite location_dimension_keys. by apply location_pairs_determined. }
  assert (forall j, j ∈ j1 -> j.1 ∈ cleaned) as R1.
  { intros j Hj. rewrite <- E1. by apply elem_of_map_2. }
  assert (map fst j2 = j1) as E2.
  { apply merge_left_fst.
    - rewrite vehicle_dimension_keys. apply NoDup_drop_duplicates.
    - intros j Hj. apply vehicle_key_covered. by apply R1. }
  assert (forall j, j ∈ j2 -> j.1.1 ∈ cleaned) as R2.
  { intros j Hj. apply R1. rewrite <- E2. by apply elem_of_map_2. }
  assert (map fst j3 = j2) as E3.
  { apply merge_left_fst.
    - rewrite utility_dimension_keys. apply NoDup_drop_duplicates.
    - intros j Hj. apply utility_key_covered. by apply R2. }
  assert (forall j, j ∈ j3 -> j.1.1.1 ∈ cleaned) as R3.
  { intros j Hj. apply R2. rewrite <- E3. by apply elem_of_map_2. }
  assert (map fst j4 = j3) as E4.
  { apply merge_left_fst.
    - rewrite time_dimension_keys. apply NoDup_drop_duplicates.
    - intros j Hj. apply time_key_covered. by apply R3. }
  transitivity (map fst (map fst (map fst (map fst j4)))); [by rewrite !map_map|].
  by rewrite E4, E3, E2, E1.
Qed.

(** X13.  When the six columns of the location join determine the
    coordinates cell, the fact table is the cleaned table row for row: its
    i-th row has identifier i and carries the price, the range, the
    registration number and the hashed identifier of the i-th cleaned
    row. *)
Theorem fact_table_follows_cleaned_rows (cleaned : list Row) :
  location_determined cleaned ->
  map fact_measures (built_fact cleaned) = map row_measures cleaned
  /\ map registration_id (built_fact cleaned) = seqZ 1 (Z.of_nat (length cleaned)).
Proof.
  intros Hdet. pose proof (join_dimensions_rows cleaned Hdet) as Hrows.
  unfold built_fact, fact_rows. split.
  - rewrite (with_ids_map _ _ (fun j : Joined => row_measures j.1.1.1.1));
      [|by intros i [[[[r l] v] u] t]].
    apply (f_equal (map row_measures)) in Hrows. by rewrite map_map in Hrows.
  - rewrite (with_ids_ids fact_of registration_id); [|by intros i [[[[r l] v] u] t]].
    apply (f_equal length) in Hrows. rewrite length_map in Hrows. by rewrite Hrows.
Qed.

Lemma fact_table_follows_cleaned_rows_witness :
  length (cleaned_rows (through_model 2025 three_registrations).2) = 3%nat
  /\ length (location_dimension (cleaned_rows (through_model 2025 three_registrations).2))
     = 2%nat
  /\ map fact_measures (built_fact (cleaned_rows (through_model 2025 three_registrations).2))
     = map row_measures (cleaned_rows (through_model 2025 three_registrations).2)
  /\ map registration_id
       (built_fact (cleaned_rows (through_model 2025 three_registrations).2))
     = seqZ 1 (Z.of_nat (length (cleaned_rows (through_model 2025 three_registrations).2))).
Proof.
  split; [vm_compute; reflexivity|]. split; [vm_compute; reflexivity|].
  apply (fact_table_follows_cleaned_rows
           (cleaned_rows (through_model 2025 three_registrations).2)).
  intros r r' Hr Hr' Hk.
  remember (cleaned_rows (through_model 2025 three_registrations).2) as l eqn:El.
  vm_compute in El. subst l.
  repeat (apply elem_of_cons in Hr as [->|Hr]);
    [| | |by apply elem_of_nil in Hr];
    (repeat (apply elem_of_cons in Hr' as [->|Hr']);
     [| | |by apply elem_of_nil in Hr']);
    first [reflexivity|vm_compute in Hk; discriminate].
Defined.

(** Two cleaned rows that agree on the six columns of the location join and
    differ in the coordinates cell leave two rows of the location dimension
    under the same key. *)
Lemma location_key_twice (cleaned : list Row) (r r' : Row) :
  r ∈ cleaned -> r' ∈ cleaned -> location_key r = location_key r' ->
  obj r Vehicle_Location <> obj r' Vehicle_Location ->
  (2 <= length (filter (fun d => location_row_key d = location_key r)
                       (location_dimension cleaned)))%nat.
Proof.
  intros Hr Hr' Hk Hne. unfold location_dimension.
  set (pairs := drop_duplicates
                  (map (fun r : Row => (location_key r, obj r Vehicle_Location)) cleaned)).
  assert ((location_key r, obj r Vehicle_Location) ∈ pairs) as H1.
  { apply elem_of_drop_duplicates.
    by apply (elem_of_map_2 (fun r : Row => (location_key r, obj r Vehicle_Location))). }
  assert ((location_key r, obj r' Vehicle_Location) ∈ pairs) as H2.
  { rewrite Hk. apply elem_of_drop_duplicates.
    by apply (elem_of_map_2 (fun r : Row => (location_key r, obj r Vehicle_Location))). }
  apply list_elem_of_lookup in H1 as [i1 H1]. apply list_elem_of_lookup in H2 as [i2 H2].
  assert (i1 <> i2) as Hi by (intros ->; congruence).
  set (mk := fun (i : Z) (k : list cell * Coordinates) =>
               {| location_id := i; location_cols := k.1;
                  Latitude := latitude k.2; Longitude := longitude k.2 |}).
  set (parsed := map (fun k : list cell * cell => (k.1, locate k.2)) pairs).
  assert (parsed !! i1 = Some (location_key r, locate (obj r Vehicle_Location))) as P1.
  { unfold parsed. by rewrite map_fmap, list_lookup_fmap, H1. }
  assert (parsed !! i2 = Some (location_key r, locate (obj r' Vehicle_Location))) as P2.
  { unfold parsed. by rewrite map_fmap, list_lookup_fmap, H2. }
  apply (filter_two _ _
           (mk (Z.of_nat (S i1)) (location_key r, locate (obj r Vehicle_Location)))
           (mk (Z.of_nat (S i2)) (location_key r, locate (obj r' Vehicle_Location)))).
  - unfold with_ids.
    apply (elem_of_lookup_imap_2 (fun i a => mk (Z.of_nat (S i)) a) _ _ _ P1).
  - unfold with_ids.
    apply (elem_of_lookup_imap_2 (fun i a => mk (Z.of_nat (S i)) a) _ _ _ P2).
  - intros E. apply (f_equal location_id) in E. simpl in E. lia.
  - reflexivity.
  - reflexivity.
Qed.

(** X14.  The fact table has exactly one row for each cleaned row if, and
    only if, the six columns of the location join determine the coordinates
    cell in the cleaned table; otherwise it has more rows.  It never has
    fewer. *)
Theorem fact_count_preserved_iff (cleaned : list Row) :
  (length (built_fact cleaned) = length cleaned <-> location_determined cleaned)
  /\ (length cleaned <= length (built_fact cleaned))%nat.
Proof.
  split; [|apply built_fact_length_ge]. split; [|apply built_fact_length].
  intros Hlen r r' Hr Hr' Hk.
  destruct (decide (obj r Vehicle_Location = obj r' Vehicle_Location)) as [|Hne]; [done|].
  exfalso.
  pose proof (location_key_twice cleaned r r' Hr Hr' Hk Hne) as Htwo.
  pose proof (merge_left_length_gt (fun r : Row => location_key r) location_row_key
                cleaned (location_dimension cleaned) r Hr Htwo) as Hgt.
  revert Hlen. unfold built_fact, fact_rows, join_dimensions. rewrite with_ids_length.
  intros Hlen. rewrite <- Hlen in Hgt. revert Hgt. apply Nat.le_ngt.
  do 3 (etrans; [|apply merge_left_length_ge]). done.
Qed.

(* ===================================================================== *)
(** * The model builder on any object                                     *)
(* ===================================================================== *)

Lemma select_outcome names s :
  select names s
  = match cleaned_data s with
    | None => (Raise (TypeError "'NoneType' object is not subscriptable"), s)
    | Some df =>
        match missing_column names df with
        | Some n => (Raise (KeyError n), s)
        | None => (Ok df, s)
        end
    end.
Proof.
  unfold select. destruct (cleaned_data s) as [df|] eqn:E.
  - rewrite (run_bind _ _ _ _ _ (run_the_cleaned_data _ _ E)).
    by destruct (missing_column names df).
  - apply run_bind_raise. unfold the_cleaned_data. by rewrite run_get, E.
Qed.

Lemma dict_set_same {V} (k : string) (v : V) (d : list (string * V)) :
  dict_get d k = Some v -> dict_set k v d = d.
Proof.
  induction d as [|[k0 v0] d IH]; simpl; [done|].
  destruct (String.eqb_spec k0 k) as [->|Hne]; [by intros [= ->]|].
  intros H. by rewrite IH.
Qed.

Lemma built_dimensions_idem (cleaned : list Row) (dims : list (string * Table)) :
  built_dimensions cleaned (built_dimensions cleaned dims) = built_dimensions cleaned dims.
Proof.
  unfold built_dimensions at 1.
  rewrite (dict_set_same "dim_location")
    by (unfold built_dimensions; by rewrite !dict_get_set).
  rewrite (dict_set_same "dim_vehicle")
    by (unfold built_dimensions; by rewrite !dict_get_set).
  rewrite (dict_set_same "dim_utility")
    by (unfold built_dimensions; by rewrite !dict_get_set).
  apply dict_set_same. unfold built_dimensions. by rewrite !dict_get_set.
Qed.

(** X15.  The model builder replaces what it built before: called again on
    the object it has left, it returns the same tables and leaves the
    object as the first call did; the dictionary of dimensions does not
    grow. *)
Theorem model_builder_again_changes_nothing (s : EVDataETL) (df : DataFrame Row) :
  cleaned_data s = Some df -> columns df = cleaned_columns ->
  create_dimensional_model (create_dimensional_model s).2 = create_dimensional_model s.
Proof.
  intros Hs Hc. rewrite (create_dimensional_model_run s df Hs Hc). cbn [snd].
  rewrite (create_dimensional_model_run _ df) by done.
  cbn [dimension_tables set_fact_table set_dimension_tables].
  rewrite built_dimensions_idem. by destruct s.
Qed.

Lemma model_builder_again_changes_nothing_witness :
  create_dimensional_model
    (create_dimensional_model
       (set_cleaned_data (Some {| columns := cleaned_columns; rows := [] |}) (init url))).2
  = create_dimensional_model
      (set_cleaned_data (Some {| columns := cleaned_columns; rows := [] |}) (init url)).
Proof.
  apply (model_builder_again_changes_nothing
           (set_cleaned_data (Some {| columns := cleaned_columns; rows := [] |}) (init url))
           {| columns := cleaned_columns; rows := [] |});
    reflexivity.
Defined.

(** X16.  The model builder needs the seven columns the location dimension
    is taken from: on a cleaned frame that lacks one of them it raises a
    [KeyError] before it has built anything, and leaves the object as it
    was (cleaning itself skips the columns that are not there). *)
Theorem model_builder_needs_location_columns (s : EVDataETL) (df : DataFrame Row)
    (n : string) :
  cleaned_data s = Some df ->
  n ∈ ["County"; "City"; "State"; "Postal Code"; "Legislative District";
       "2020 Census Tract"; "Vehicle Location"] ->
  has_column n df = false ->
  exists key, create_dimensional_model s = (Raise (KeyError key), s).
Proof.
  intros Hs Hn Hc.
  destruct (missing_column ["County"; "City"; "State"; "Postal Code";
                            "Legislative District"; "2020 Census Tract";
                            "Vehicle Location"] df) as [key|] eqn:Hm.
  - exists key. unfold create_dimensional_model. rewrite run_get, Hs.
    apply run_bind_raise. unfold _create_location_dimension.
    apply run_bind_raise. by rewrite select_outcome, Hs, Hm.
  - unfold missing_column in Hm.
    pose proof (find_none _ _ Hm n) as Hnone. cbv beta in Hnone.
    rewrite Hc in Hnone. rewrite list_elem_of_In in Hn. by specialize (Hnone Hn).
Qed.

Lemma model_builder_needs_location_columns_witness :
  exists key,
    create_dimensional_model
      (set_cleaned_data (Some without_vehicle_location) (init url))
    = (Raise (KeyError key),
       set_cleaned_data (Some without_vehicle_location) (init url)).
Proof.
  apply (model_builder_needs_location_columns
           (set_cleaned_data (Some without_vehicle_location) (init url))
           without_vehicle_location "Vehicle Location");
    [reflexivity|repeat constructor|reflexivity].
Defined.

(** X17.  On a documented source the model builder returns five tables, the
    four dimensions and then the fact table under the name
    [fact_vehicle_registration], and keeps four in the dictionary of the
    object: the fact table is held beside the dictionary, not in it. *)
Theorem model_builder_returns_five_tables (current_year : Z) (raw : DataFrame Source) :
  documented raw -> 2020 <= current_year ->
  exists model fact,
    (through_model current_year raw).1 = Ok model
    /\ fact_table (through_model current_year raw).2 = Some fact
    /\ map fst model = table_names
    /\ map fst (dimension_tables (through_model current_year raw).2) = dimension_names
    /\ dict_get model "fact_vehicle_registration" = Some (FactTable fact)
    /\ (forall n, n <> "fact_vehicle_registration" ->
          dict_get model n = dict_get (dimension_tables (through_model current_year raw).2) n).
Proof.
  intros Hdoc Hcy. unfold through_model.
  destruct (clean_and_transform_run current_year (set_raw_data (Some raw) (init url)) raw
              eq_refl Hdoc Hcy) as (df & Hclean & Hcols & _).
  rewrite (run_bind _ _ (init url) (set_raw_data (Some raw) (init url)) raw) by done.
  rewrite (run_bind _ _ _ _ _ Hclean).
  rewrite (create_dimensional_model_run _ df) by done.
  cbn [fst snd fact_table dimension_tables set_fact_table set_dimension_tables
       set_cleaned_data set_raw_data init].
  eexists _, _. split; [reflexivity|]. split; [reflexivity|].
  rewrite built_dimensions_fresh. split; [reflexivity|]. split; [reflexivity|].
  split; [reflexivity|].
  intros n Hn. rewrite dict_get_set.
  destruct (String.eqb_spec "fact_vehicle_registration" n) as [<-|_]; done.
Qed.

Lemma model_builder_returns_five_tables_witness :
  exists model fact,
    (through_model 2025 scenario).1 = Ok model
    /\ fact_table (through_model 2025 scenario).2 = Some fact
    /\ map fst model = table_names
    /\ map fst (dimension_tables (through_model 2025 scenario).2) = dimension_names
    /\ dict_get model "fact_vehicle_registration" = Some (FactTable fact)
    /\ (forall n, n <> "fact_vehicle_registration" ->
          dict_get model n = dict_get (dimension_tables (through_model 2025 scenario).2) n).
Proof.
  apply (model_builder_returns_five_tables 2025 scenario); [reflexivity|lia].
Defined.

(* ===================================================================== *)
(** * What holds of the object between two calls                          *)
(* ===================================================================== *)

Lemma preserves_bind {A B} (I : EVDataETL -> Prop) (m : M EVDataETL A)
    (k : A -> M EVDataETL B) :
  preserves I m -> (forall a, preserves I (k a)) -> preserves I (m ≫= k).
Proof.
  intros Hm Hk s Hs. unfold mbind, M_bind, bind. specialize (Hm s Hs).
  destruct (m s) as [[a|e] s1]; simpl in *; [by apply Hk|done].
Qed.

Lemma preserves_read {A} (I : EVDataETL -> Prop) (m : M EVDataETL A) :
  (forall s, (m s).2 = s) -> preserves I m.
Proof. intros Hm s Hs. by rewrite Hm. Qed.

Lemma select_state names s : (select names s).2 = s.
Proof.
  rewrite select_outcome. destruct (cleaned_data s) as [df|]; [|done].
  by destruct (missing_column names df).
Qed.

Lemma the_cleaned_data_state s : (the_cleaned_data s).2 = s.
Proof. unfold the_cleaned_data. rewrite run_get. by destruct (cleaned_data s). Qed.

Lemma the_dimension_state name s : (the_dimension name s).2 = s.
Proof. unfold the_dimension. rewrite run_get. by destruct (dict_get _ _). Qed.

Lemma the_dimension_Ok name s t :
  (the_dimension name s).1 = Ok t -> dict_get (dimension_tables s) name = Some t.
Proof.
  unfold the_dimension. rewrite run_get. destruct (dict_get _ _); [|done].
  by intros [= ->].
Qed.

Lemma explore_data_state s : (explore_data s).2 = s.
Proof.
  unfold explore_data. rewrite run_get. destruct (raw_data s) as [df|]; [|done].
  by destruct (missing_column _ df).
Qed.

(** A step that only reads the object, in front of a method. *)
Lemma bind_read {A B} (m : M EVDataETL A) (k : A -> M EVDataETL B) (s : EVDataETL)
    (Q : EVDataETL -> Prop) :
  (m s).2 = s -> Q s -> (forall a, (m s).1 = Ok a -> Q (k a s).2) ->
  Q ((m ≫= k) s).2.
Proof.
  intros Hm Hs Hk. unfold mbind, M_bind, bind.
  destruct (m s) as [[a|e] s1]; simpl in *; subst s1; [by apply Hk|done].
Qed.

Lemma Forall_dict_set {V} (P : string * V -> Prop) (k : string) (v : V)
    (d : list (string * V)) :
  P (k, v) -> Forall P d -> Forall P (dict_set k v d).
Proof.
  intros Hkv. induction 1 as [|[k0 v0] d H0 Hd IH]; simpl; [by repeat constructor|].
  destruct (String.eqb k0 k); by constructor.
Qed.

Lemma dict_set_keys {V} (k : string) (v : V) (d : list (string * V)) (n : string) :
  n ∈ map fst (dict_set k v d) <-> n = k \/ n ∈ map fst d.
Proof.
  induction d as [|[k0 v0] d IH]; simpl.
  - rewrite list_elem_of_singleton, elem_of_nil. tauto.
  - destruct (String.eqb_spec k0 k) as [->|Hne]; simpl.
    + rewrite !elem_of_cons. tauto.
    + rewrite !elem_of_cons, IH. tauto.
Qed.


Lemma dict_get_keys {V} (d : list (string * V)) (n : string) (v : V) :
  dict_get d n = Some v -> n ∈ map fst d.
Proof.
  induction d as [|[k0 v0] d IH]; simpl; [done|].
  destruct (String.eqb_spec k0 n) as [->|Hne]; [intros _; by left|].
  intros H. right. by apply IH.
Qed.

(** Entering a table of the announced kind in the dictionary. *)
Lemma preserves_set_dimension (name : string) (t : Table) :
  kinded (name, t) -> preserves model_ready (set_dimension name t).
Proof.
  intros Hk s (Hd & Hf & Hc). unfold set_dimension. rewrite run_get. simpl.
  split; [by apply Forall_dict_set|]. split; [|done].
  intros Hfact n Hn. apply dict_set_keys. right. by apply Hf.
Qed.

Lemma preserves_create_location_dimension : preserves model_ready _create_location_dimension.
Proof.
  apply preserves_bind; [apply preserves_read, select_state|].
  intros df. apply preserves_set_dimension. repeat split; try done. by eexists.
Qed.

Lemma preserves_create_vehicle_dimension : preserves model_ready _create_vehicle_dimension.
Proof.
  apply preserves_bind; [apply preserves_read, select_state|].
  intros df. apply preserves_set_dimension. repeat split; try done. by eexists.
Qed.

Lemma preserves_create_utility_dimension : preserves model_ready _create_utility_dimension.
Proof.
  apply preserves_bind; [apply preserves_read, select_state|].
  intros df. apply preserves_set_dimension. repeat split; try done. by eexists.
Qed.

Lemma preserves_create_time_dimension : preserves model_ready _create_time_dimension.
Proof.
  apply preserves_bind; [apply preserves_read, select_state|].
  intros df. apply preserves_set_dimension. repeat split; try done. by eexists.
Qed.

(** The fact builder stores a fact table only when it has found the four
    dimensions. *)
Lemma create_fact_table_outcome (s : EVDataETL) :
  (_create_fact_table s).2 = s
  \/ (exists fact, (_create_fact_table s).2 = set_fact_table (Some fact) s)
     /\ forall n, n ∈ dimension_names -> n ∈ map fst (dimension_tables s).
Proof.
  unfold _create_fact_table.
  apply bind_read; [apply the_cleaned_data_state|by left|intros fact_data _].
  apply bind_read; [apply the_dimension_state|by left|intros d1 H1%the_dimension_Ok].
  apply bind_read; [by destruct d1|by left|intros loc _].
  apply bind_read; [apply select_state|by left|intros _ _].
  apply bind_read; [apply the_dimension_state|by left|intros d2 H2%the_dimension_Ok].
  apply bind_read; [by destruct d2|by left|intros veh _].
  apply bind_read; [apply select_state|by left|intros _ _].
  apply bind_read; [apply the_dimension_state|by left|intros d3 H3%the_dimension_Ok].
  apply bind_read; [by destruct d3|by left|intros uti _].
  apply bind_read; [apply select_state|by left|intros _ _].
  apply bind_read; [apply the_dimension_state|by left|intros d4 H4%the_dimension_Ok].
  apply bind_read; [by destruct d4|by left|intros tim _].
  apply bind_read; [apply select_state|by left|intros _ _].
  apply bind_read; [apply select_state|by left|intros _ _].
  right. split; [by eexists|].
  intros n Hn. unfold dimension_names in Hn.
  repeat (apply elem_of_cons in Hn as [->|Hn]; [by eapply dict_get_keys|]).
  by apply elem_of_nil in Hn.
Qed.

Lemma preserves_create_fact_table : preserves model_ready _create_fact_table.
Proof.
  intros s (Hd & Hf & Hc).
  destruct (create_fact_table_outcome s) as [->|[[fact ->] Hn]]; [done|].
  by repeat split.
Qed.

Lemma preserves_create_dimensional_model : preserves model_ready create_dimensional_model.
Proof.
  intros s Hs. unfold create_dimensional_model. rewrite run_get.
  destruct (cleaned_data s); [|done].
  revert s Hs. fold (@preserves (list (string * Table)) model_ready).
  apply preserves_bind; [apply preserves_create_location_dimension|intros _].
  apply preserves_bind; [apply preserves_create_vehicle_dimension|intros _].
  apply preserves_bind; [apply preserves_create_utility_dimension|intros _].
  apply preserves_bind; [apply preserves_create_time_dimension|intros _].
  apply preserves_bind; [apply preserves_create_fact_table|intros _].
  by apply preserves_read.
Qed.

Lemma preserves_clean_and_transform (current_year : Z) :
  preserves model_ready (clean_and_transform current_year).
Proof.
  intros s (Hd & Hf & Hc).
  pose proof (frame_only_clean_and_transform current_year s) as Hfo.
  assert (cleaned_data (clean_and_transform current_year s).2 <> None ->
          raw_data s <> None) as Hc'.
  { unfold clean_and_transform. rewrite run_get. destruct (raw_data s); [done|exact Hc]. }
  destruct (clean_and_transform current_year s) as [r s1]. cbn [snd] in *.
  rewrite Hfo. unfold model_ready.
  cbn [dimension_tables fact_table raw_data cleaned_data set_cleaned_data].
  by repeat split.
Qed.

Lemma preserves_extract_data (response : Result (DataFrame Source)) :
  preserves model_ready (extract_data response).
Proof.
  intros s (Hd & Hf & Hc). unfold extract_data, try_reraise.
  destruct response as [df|e]; [|done].
  unfold model_ready. simpl. by repeat split.
Qed.

(** Every object the methods lead to is ready in this sense. *)
Lemma reachable_model_ready (s : EVDataETL) : reachable s -> model_ready s.
Proof.
  induction 1 as [u|s response _ IH _|s _ IH|s cy _ IH|s _ IH|s w p _ IH|s w d _ IH|s _ IH].
  - split; [constructor|]. by split.
  - by apply preserves_extract_data.
  - by rewrite explore_data_state.
  - by apply preserves_clean_and_transform.
  - by apply preserves_create_dimensional_model.
  - destruct (load_to_warehouse p {| etl := s; world := w |}) as [r sys1] eqn:Hl.
    cbn [snd]. destruct (load_to_warehouse_idem _ _ _ _ _ Hl) as (He & _).
    by rewrite He.
  - by rewrite run_export_to_csv.
  - by rewrite generate_summary_report_state.
Qed.





(* ===================================================================== *)
(** * What the load writes and what it leaves                             *)
(* ===================================================================== *)

Lemma dict_get_None {V} (d : list (string * V)) (n : string) :
  n ∉ map fst d -> dict_get d n = None.
Proof.
  induction d as [|[k0 v0] d IH]; simpl; [done|].
  rewrite elem_of_cons. intros Hn.
  destruct (String.eqb_spec k0 n) as [->|Hne]; [tauto|]. apply IH. tauto.
Qed.

(** X19.  The load writes to one database file, and in it to the tables of
    the model only: the object, the exported files, every other database
    file, every other table of the file and the indexes of those tables are
    as they were, whether the load returns or raises. *)
Theorem load_touches_only_its_tables (db_path : string) (s : EVDataETL) (w : World) :
  etl (after_load db_path s w) = s
  /\ csv_files (world (after_load db_path s w)) = csv_files w
  /\ (forall p, p <> db_path ->
        databases (world (after_load db_path s w)) !! p = databases w !! p)
  /\ (forall db0 db1 name,
        databases w !! db_path = Some db0 ->
        databases (world (after_load db_path s w)) !! db_path = Some db1 ->
        name ∉ map fst (dimension_tables s) -> name <> "fact_vehicle_registration" ->
        tables db1 !! name = tables db0 !! name
        /\ forall i e, indexes db0 !! i = Some e -> e.1 = name ->
                       indexes db1 !! i = Some e).
Proof.
  unfold after_load.
  destruct (load_to_warehouse db_path {| etl := s; world := w |}) as [r sys1] eqn:Hload.
  destruct (load_to_warehouse_idem _ _ _ _ _ Hload) as (He & Hc & _).
  cbn [snd]. split; [done|]. split; [done|].
  revert Hload. unfold load_to_warehouse. cbn [etl world].
  destruct (dimension_tables s) as [|d ds] eqn:Hd.
  { intros [= <- <-]. cbn [world]. split; [done|].
    intros db0 db1 name H0 H1. rewrite H0 in H1. by injection H1 as <-. }
  destruct (fact_table s) as [fact|] eqn:Hf.
  2: { intros [= <- <-]. cbn [world]. split; [done|].
       intros db0 db1 name H0 H1. rewrite H0 in H1. by injection H1 as <-. }
  destruct (load_session (d :: ds) fact _) as [r1 conn'] eqn:Hs.
  intros [= <- <-]. cbn [world databases]. split.
  - intros p Hp. by rewrite lookup_insert_ne.
  - intros db0 db1 name H0 H1 Hname Hfact.
    rewrite lookup_insert_eq in H1. injection H1 as <-.
    rewrite H0 in Hs. cbn [default from_option id] in Hs.
    rewrite run_load_session in Hs.
    destruct (create_indexes_stable _ _ _ _ _ Hs) as (Ht & Hsub & _).
    assert (name ∉ map fst ((d :: ds) ++ [("fact_vehicle_registration", FactTable fact)]))
      as Hout.
    { rewrite map_app, elem_of_app. simpl. rewrite list_elem_of_singleton. tauto. }
    split.
    + rewrite Ht, lookup_load_tables, dict_get_None; [done|].
      by rewrite map_fmap, fmap_reverse, elem_of_reverse, <- map_fmap.
    + intros i e Hi Hen. eapply lookup_weaken; [|exact Hsub].
      apply lookup_drop_indexes. split; [done|]. by rewrite Hen.
Qed.

(** Creating indexes that are all on tables and columns that are there:
    an index is created unless one of its name is there already. *)
Lemma create_indexes_union (qs : list (string * string * string))
    (t : gmap string Table) (i : gmap string (string * string)) :
  Forall (fun q => exists tb, t !! q.1.2 = Some tb
                              /\ existsb (String.eqb q.2) (table_columns tb) = true) qs ->
  for_each qs create_index {| tables := t; indexes := i |}
  = (Ok tt,
     {| tables := t;
        indexes := i ∪ list_to_map
                         (map (fun q : string * string * string => (q.1.1, (q.1.2, q.2)))
                              qs) |}).
Proof.
  intros Hqs. revert i.
  induction Hqs as [|[[name table] column] qs (tb & Htb & Hcol) _ IH]; intros i.
  - simpl. by rewrite (right_id_L ∅ (∪)).
  - cbn [for_each]. unfold mbind, M_bind, bind. rewrite run_create_index.
    cbn [tables indexes fst snd map list_to_map foldr uncurry] in *.
    destruct (i !! name) as [e|] eqn:Hi.
    + rewrite IH. do 2 f_equal. apply map_eq. intros n.
      destruct (decide (n = name)) as [->|Hne].
      * by rewrite !(lookup_union_Some_l _ _ _ _ Hi).
      * by rewrite !lookup_union, lookup_insert_ne.
    + rewrite Htb, Hcol, IH. do 2 f_equal.
      by rewrite <- insert_union_l, <- insert_union_r.
Qed.

Lemma drop_indexes_surviving (kvs : list (string * Table))
    (i : gmap string (string * string)) :
  map fst kvs = table_names -> drop_indexes kvs i = surviving_indexes i.
Proof.
  intros Hk. apply map_eq. intros n. apply option_eq. intros e.
  unfold surviving_indexes.
  rewrite lookup_drop_indexes, map_lookup_filter_Some, Hk. done.
Qed.

(** A run on a documented source: the report, the warehouse and the
    exported files it ends with. *)
Lemma run_main (export_csv : bool) (current_year : Z) (raw : DataFrame Source)
    (w : World) :
  documented raw -> 2020 <= current_year ->
  exists df,
    clean_and_transform current_year (set_raw_data (Some raw) (init url))
    = (Ok df, set_cleaned_data (Some df) (set_raw_data (Some raw) (init url)))
    /\ columns df = cleaned_columns
    /\ main export_csv (Ok raw) current_year w
       = ((generate_summary_report
             (set_fact_table (Some (built_fact (rows df)))
                (set_dimension_tables (built_dimensions (rows df) [])
                   (set_cleaned_data (Some df) (set_raw_data (Some raw) (init url)))))).1,
          {| databases :=
               <["ev_data_warehouse.db" :=
                   {| tables :=
                        load_tables
                          (built_dimensions (rows df) []
                           ++ [("fact_vehicle_registration", FactTable (built_fact (rows df)))])
                          (tables (warehouse_before w));
                      indexes := surviving_indexes (indexes (warehouse_before w))
                                 ∪ warehouse_indexes |}]> (databases w);
             csv_files :=
               if export_csv
               then load_tables
                      (csv_writes "data_warehouse_output"
                         (set_fact_table (Some (built_fact (rows df)))
                            (set_dimension_tables (built_dimensions (rows df) [])
                               (set_cleaned_data (Some df)
                                  (set_raw_data (Some raw) (init url))))))
                      (csv_files w)
               else csv_files w |}).
Proof.
  intros Hdoc Hcy.
  destruct (run_stages current_year raw Hdoc Hcy) as (df & model & Hclean & Hcols & Hst).
  exists df. split; [exact Hclean|]. split; [exact Hcols|].
  rewrite main_stages, Hst.
  set (s := set_fact_table _ _).
  set (conn := warehouse_before w).
  set (kvs := built_dimensions (rows df) []
              ++ [("fact_vehicle_registration", FactTable (built_fact (rows df)))]).
  assert (load_to_warehouse "ev_data_warehouse.db" {| etl := s; world := w |}
          = (Ok tt,
             {| etl := s;
                world := {| databases :=
                              <["ev_data_warehouse.db" :=
                                  {| tables := load_tables kvs (tables conn);
                                     indexes := surviving_indexes (indexes conn)
                                                ∪ warehouse_indexes |}]> (databases w);
                            csv_files := csv_files w |} |})) as Hload.
  { rewrite (run_load_to_warehouse _ s w _ _ (built_fact (rows df))
               (built_dimensions_fresh (rows df)) eq_refl).
    rewrite <- built_dimensions_fresh, run_load_session. fold kvs.
    rewrite create_indexes_union.
    - rewrite (drop_indexes_surviving kvs) by reflexivity. reflexivity.
    - unfold index_queries. repeat constructor; cbn [fst snd];
        eexists; (split; [rewrite lookup_load_tables; reflexivity|reflexivity]). }
  unfold deliver. rewrite (run_bind _ _ _ _ _ Hload).
  destruct export_csv.
  - rewrite (run_bind _ _ _ _ _ (run_export_to_csv _ _ _)).
    unfold on_etl. cbn [etl world databases csv_files].
    pose proof (generate_summary_report_state s) as Hrep.
    destruct (generate_summary_report s) as [rr sr]. cbn [snd fst world] in *. by subst sr.
  - erewrite run_bind by reflexivity.
    unfold on_etl. cbn [etl world databases csv_files].
    pose proof (generate_summary_report_state s) as Hrep.
    destruct (generate_summary_report s) as [rr sr]. cbn [snd fst world] in *. by subst sr.
Qed.



(* ===================================================================== *)
(** * The export                                                          *)
(* ===================================================================== *)




Lemma prefix_app (a b : string) : String.prefix a (a +:+ b) = true.
Proof.
  induction a as [|c a IH]; simpl; [by destruct b|].
  change (String c a +:+ b) with (String c (a +:+ b)). simpl.
  destruct (ascii_dec c c); [exact IH|done].
Qed.

Lemma append_assoc (a b c : string) : (a +:+ b) +:+ c = a +:+ (b +:+ c).
Proof.
  induction a as [|x a IH]; [done|].
  change ((String x a +:+ b) +:+ c) with (String x ((a +:+ b) +:+ c)).
  change (String x a +:+ (b +:+ c)) with (String x (a +:+ (b +:+ c))). by rewrite IH.
Qed.





(* ===================================================================== *)
(** * The report and the whole run                                        *)
(* ===================================================================== *)

(** X22.  The summary report reads the object and leaves it as it is.  It
    raises in two cases only, both with a cleaned frame in the object: the
    raw data has no record (a division of zero by zero) or there is no raw
    data at all (the length of [None]); the second cannot happen on an
    object driven through its methods from [__init__]. *)
Theorem report_fails_only_without_records (s : EVDataETL) :
  (generate_summary_report s).2 = s
  /\ (forall e, (generate_summary_report s).1 = Raise e
        <-> cleaned_data s <> None
            /\ ((raw_data s = None
                 /\ e = TypeError "object of type 'NoneType' has no len()")
                \/ (exists raw, raw_data s = Some raw /\ rows raw = []
                    /\ e = ZeroDivisionError "division by zero")))
  /\ (reachable s -> forall e, (generate_summary_report s).1 = Raise e ->
        e = ZeroDivisionError "division by zero").
Proof.
  split; [apply generate_summary_report_state|].
  assert (forall e, (generate_summary_report s).1 = Raise e
            <-> cleaned_data s <> None
                /\ ((raw_data s = None
                     /\ e = TypeError "object of type 'NoneType' has no len()")
                    \/ (exists raw, raw_data s = Some raw /\ rows raw = []
                        /\ e = ZeroDivisionError "division by zero"))) as Hchar.
  { intros e. unfold generate_summary_report. rewrite run_get.
    unfold mbind, M_bind, bind.
    destruct (cleaned_data s) as [cleaned|]; [|simpl; split; [done|by intros [? _]]].
    destruct (raw_data s) as [raw|].
    - unfold retention_percentage.
      destruct (rows raw) as [|x l] eqn:Hrows; simpl.
      + split.
        * intros [= <-]. split; [done|]. right. by exists raw.
        * intros [_ [[? _]|(raw' & _ & _ & ->)]]; done.
      + split; [done|]. intros [_ [[? _]|(raw' & [= <-] & Hnil & _)]]; [done|].
        by rewrite Hrows in Hnil.
    - simpl. split.
      + intros [= <-]. split; [done|]. by left.
      + intros [_ [[_ ->]|(raw' & ? & _)]]; done. }
  split; [exact Hchar|].
  intros (_ & _ & Hraw)%reachable_model_ready e He.
  apply Hchar in He as [Hc [[Hnone _]|(raw & _ & _ & ->)]]; [|done].
  by destruct (Hraw Hc).
Qed.

(** X23.  A run that fails before the load writes nothing to the
    warehouse or the output directory: when the download fails, when the
    source lacks a column the exploration reads, and whenever one of the
    first four stages raises, [main] ends with that exception and every
    database and exported file is as it was. *)
Theorem failed_run_writes_nothing (export_csv : bool) (current_year : Z) (w : World) :
  (forall e, main export_csv (Raise e) current_year w = (Raise e, w))
  /\ (forall raw n,
        missing_column ["Model Year"; "Electric Range"; "Base MSRP"] raw = Some n ->
        main export_csv (Ok raw) current_year w = (Raise (KeyError n), w))
  /\ (forall response e,
        (stages response current_year (init url)).1 = Raise e ->
        main export_csv response current_year w = (Raise e, w)).
Proof.
  assert (forall response e,
            (stages response current_year (init url)).1 = Raise e ->
            main export_csv response current_year w = (Raise e, w)) as Hst.
  { intros response e He. rewrite main_stages.
    destruct (stages response current_year (init url)) as [[m|e'] s]; [done|].
    by injection He as ->. }
  split; [|split; [|exact Hst]].
  - intros e. by apply Hst.
  - intros raw n Hn. apply Hst. unfold stages.
    rewrite (run_bind _ _ (init url) (set_raw_data (Some raw) (init url)) raw) by done.
    erewrite run_bind_raise; [done|].
    unfold explore_data. rewrite run_get. cbn [raw_data set_raw_data]. by rewrite Hn.
Qed.





(** X26.  Without the export asked for, a run leaves every exported
    file as it was and writes no new one, whatever the source serves and
    however the run ends. *)
Theorem no_file_without_the_flag (response : Result (DataFrame Source))
    (current_year : Z) (w : World) :
  csv_files (main false response current_year w).2 = csv_files w.
Proof.
  rewrite main_stages.
  destruct (stages response current_year (init url)) as [[m|e] s]; [|done].
  unfold deliver, mbind, M_bind, bind.
  destruct (load_to_warehouse _ {| etl := s; world := w |}) as [rl sysl] eqn:Hload.
  destruct (load_to_warehouse_idem _ _ _ _ _ Hload) as (_ & Hcsv & _).
  destruct rl as [[]|e]; [|done].
  unfold mret, M_ret, ret, on_etl.
  by destruct (generate_summary_report (etl sysl)) as [rr sr].
Qed.

(* ===================================================================== *)
(** * Reading a point                                                     *)
(* ===================================================================== *)

(** What [locate] makes of a string, the handler folded in. *)
Lemma locate_tokens (text : string) :
  locate (Str text)
  = match point_tokens text with
    | [c0; c1] =>
        match Py.float c0 with
        | Some x => {| latitude := Py.float c1; longitude := Some x |}
        | None => no_coordinates
        end
    | _ => no_coordinates
    end.
Proof.
  unfold locate.
  destruct (bool_decide (Str text ≠ Str "Unknown")) eqn:Hu; cbn [andb bool_decide].
  2: { apply bool_decide_eq_false in Hu. apply dec_stable in Hu. by injection Hu as ->. }
  rewrite bool_decide_eq_true_2 by done. cbn [andb].
  unfold try_pass, parse_point.
  rewrite run_bind with (a := text) (s' := no_coordinates) by done.
  fold (point_tokens text).
  destruct (point_tokens text) as [|c0 [|c1 [|c2 l]]]; try done.
  unfold to_float. destruct (Py.float c0) as [x|]; [|done].
  by destruct (Py.float c1).
Qed.

(** X27.  The two coordinates of a location row are assigned in the order
    longitude, latitude, from the first and the second token of the cell:
    a row has a longitude exactly when the cell is a string of two tokens
    whose first reads as a number, and a latitude exactly when the second
    does too, so never a latitude without a longitude. *)
Theorem coordinates_come_in_order (c : cell) :
  (is_Some (longitude (locate c))
   <-> exists text c0 c1,
         c = Str text /\ point_tokens text = [c0; c1] /\ is_Some (Py.float c0))
  /\ (is_Some (latitude (locate c))
      <-> exists text c0 c1,
            c = Str text /\ point_tokens text = [c0; c1]
            /\ is_Some (Py.float c0) /\ is_Some (Py.float c1))
  /\ (latitude (locate c) = None \/ is_Some (longitude (locate c)))
  /\ (forall text c0 c1,
        c = Str text -> point_tokens text = [c0; c1] ->
        longitude (locate c) = Py.float c0
        /\ latitude (locate c)
           = match Py.float c0 with
             | Some _ => Py.float c1
             | None => None
             end).
Proof.
  assert (forall text, c = Str text -> locate c
            = match point_tokens text with
              | [c0; c1] =>
                  match Py.float c0 with
                  | Some x => {| latitude := Py.float c1; longitude := Some x |}
                  | None => no_coordinates
                  end
              | _ => no_coordinates
              end) as Hstr by (intros text ->; apply locate_tokens).
  assert ((forall text, c <> Str text) -> locate c = no_coordinates) as Hother.
  { intros Hc. destruct c as [|z|text]; [done|done|by destruct (Hc text)]. }
  assert (forall text c0 c1, c = Str text -> point_tokens text = [c0; c1] ->
            longitude (locate c) = Py.float c0
            /\ latitude (locate c)
               = match Py.float c0 with
                 | Some _ => Py.float c1
                 | None => None
                 end) as Hboth.
  { intros text c0 c1 Hc Ht. rewrite (Hstr text Hc), Ht.
    by destruct (Py.float c0). }
  assert (is_Some (longitude (locate c)) ->
          exists text c0 c1, c = Str text /\ point_tokens text = [c0; c1]) as Hpoint.
  { intros Hl. destruct c as [|z|text]; [by destruct Hl..|].
    rewrite locate_tokens in Hl.
    destruct (point_tokens text) as [|c0 [|c1 [|c2 l]]] eqn:Ht;
      try (by destruct Hl). by exists text, c0, c1. }
  assert (latitude (locate c) = None \/ is_Some (longitude (locate c))) as Horder.
  { destruct c as [|z|text]; [by left..|]. rewrite locate_tokens.
    destruct (point_tokens text) as [|c0 [|c1 [|c2 l]]]; try (by left).
    destruct (Py.float c0); [right; by eexists|by left]. }
  split; [|split; [|split; [exact Horder|exact Hboth]]].
  - split.
    + intros Hl. destruct (Hpoint Hl) as (text & c0 & c1 & Hc & Ht).
      exists text, c0, c1. destruct (Hboth text c0 c1 Hc Ht) as [<- _]. done.
    + intros (text & c0 & c1 & Hc & Ht & H0).
      by destruct (Hboth text c0 c1 Hc Ht) as [-> _].
  - split.
    + intros Hl. destruct Horder as [Hn|Hlon]; [rewrite Hn in Hl; by destruct Hl|].
      destruct (Hpoint Hlon) as (text & c0 & c1 & Hc & Ht).
      exists text, c0, c1. destruct (Hboth text c0 c1 Hc Ht) as [E0 E1].
      rewrite E0 in Hlon. rewrite E1 in Hl. destruct (Py.float c0); [done|by destruct Hl].
    + intros (text & c0 & c1 & Hc & Ht & [x H0] & H1).
      destruct (Hboth text c0 c1 Hc Ht) as [_ ->]. by rewrite H0.
Qed.

Lemma string_forall_app (p : ascii -> bool) (a b : string) :
  string_forall p (a +:+ b) = string_forall p a && string_forall p b.
Proof.
  induction a as [|c a IH]; [done|].
  change (String c a +:+ b) with (String c (a +:+ b)). simpl. by rewrite IH, andb_assoc.
Qed.

Lemma append_nil_r (a : string) : a +:+ EmptyString = a.
Proof.
  induction a as [|c a IH]; [done|].
  change (String c a +:+ EmptyString) with (String c (a +:+ EmptyString)). by rewrite IH.
Qed.

(** Replacing a string whose first character does not occur. *)
Lemma replace_absent (c0 : ascii) (old new s : string) :
  string_forall (fun c => negb (Ascii.eqb c0 c)) s = true ->
  Py.replace_from (String c0 old) new 0 s = s.
Proof.
  induction s as [|c s IH]; simpl; [done|].
  intros [Hc Hs]%andb_prop. destruct (ascii_dec c0 c) as [->|_].
  - by rewrite Ascii.eqb_refl in Hc.
  - by rewrite IH.
Qed.

(** Removing the closing parenthesis that ends a string without one. *)
Lemma replace_closing (s : string) :
  string_forall (fun c => negb (Ascii.eqb ")" c)) s = true ->
  Py.replace_from ")" EmptyString 0 (s +:+ ")") = s.
Proof.
  induction s as [|c s IH]; [done|].
  change (String c s +:+ ")") with (String c (s +:+ ")")).
  intros H. cbn [string_forall] in H. apply andb_prop in H as [Hc Hs].
  cbn [Py.replace_from String.prefix].
  destruct (ascii_dec ")" c) as [<-|_]; [by rewrite Ascii.eqb_refl in Hc|].
  by rewrite IH.
Qed.

(** Splitting at white space: the characters of a token are gathered, a
    space ends the token. *)
Lemma split_token (tok a rest : string) :
  string_forall (fun c => negb (Py.is_space c)) a = true ->
  Py.split_from tok (a +:+ rest) = Py.split_from (tok +:+ a) rest.
Proof.
  revert tok. induction a as [|c a IH]; intros tok; [by rewrite append_nil_r|].
  change (String c a +:+ rest) with (String c (a +:+ rest)). simpl.
  intros [Hc Hs]%andb_prop. apply negb_true_iff in Hc. rewrite Hc, IH by done.
  by rewrite append_assoc.
Qed.

Lemma plain_token_chars (p : ascii -> bool) (s : string) :
  (forall c, plain_char c = true -> p c = true) ->
  string_forall plain_char s = true -> string_forall p s = true.
Proof.
  intros Hp. induction s as [|c s IH]; simpl; [done|].
  intros [Hc Hs]%andb_prop. by rewrite Hp, IH.
Qed.

Lemma plain_char_cases (c : ascii) :
  plain_char c = true ->
  negb (Py.is_space c) = true /\ negb (Ascii.eqb ")" c) = true
  /\ negb (Ascii.eqb "P" c) = true.
Proof.
  unfold plain_char, Py.is_char. intros [[[_ H1]%andb_prop H2]%andb_prop H3]%andb_prop.
  split; [done|].
  split; apply negb_true_iff, Ascii.eqb_neq; intros <-; done.
Qed.

(** Replacing the opening of a point at the head of a string. *)
Lemma replace_opening (rest : string) :
  Py.replace_from "POINT (" EmptyString 0 ("POINT (" +:+ rest)
  = Py.replace_from "POINT (" EmptyString 0 rest.
Proof.
  change ("POINT (" +:+ rest) with (String "P" ("OINT (" +:+ rest)).
  cbn [Py.replace_from].
  change (String "P" ("OINT (" +:+ rest)) with ("POINT (" +:+ rest).
  by rewrite prefix_app.
Qed.

(** The tokens of a point are its two coordinates. *)
Lemma point_tokens_point (lon lat : string) :
  plain_token lon = true -> plain_token lat = true ->
  point_tokens (point_text lon lat) = [lon; lat].
Proof.
  unfold plain_token. intros [Ha Pa]%andb_prop [Hb Pb]%andb_prop.
  apply negb_true_iff in Ha, Hb.
  unfold point_tokens, point_text, Py.str_replace, Py.str_split.
  rewrite replace_opening, (replace_absent "P").
  2: { rewrite !string_forall_app.
       rewrite (plain_token_chars _ lon), (plain_token_chars _ lat); try done;
         intros c Hc; by destruct (plain_char_cases c Hc) as (? & ? & ?). }
  rewrite <- !append_assoc. rewrite replace_closing.
  2: { rewrite !string_forall_app.
       rewrite (plain_token_chars _ lon), (plain_token_chars _ lat); try done;
         intros c Hc; by destruct (plain_char_cases c Hc) as (? & ? & ?). }
  rewrite append_assoc, split_token
    by (apply plain_token_chars with (2 := Pa); intros c Hc;
        by destruct (plain_char_cases c Hc) as (? & ? & ?)).
  change (EmptyString +:+ lon) with lon.
  change (" " +:+ lat) with (String " " lat). cbn [Py.split_from]. rewrite Ha.
  change (Py.is_space " ") with true. cbv iota.
  rewrite <- (append_nil_r lat) at 1. rewrite split_token
    by (apply plain_token_chars with (2 := Pb); intros c Hc;
        by destruct (plain_char_cases c Hc) as (? & ? & ?)).
  change (EmptyString +:+ lat) with lat. simpl. by rewrite Hb.
Qed.

(** X28.  A cell written ["POINT (longitude latitude)"], the coordinates
    being ASCII tokens without white space, parenthesis or capital P, is
    split into exactly these two tokens; when both read as numbers, the row
    gets the first as its longitude and the second as its latitude. *)
Theorem point_is_read_back (lon lat : string) (x y : Py.pyfloat) :
  plain_token lon = true -> plain_token lat = true ->
  Py.float lon = Some x -> Py.float lat = Some y ->
  point_tokens (point_text lon lat) = [lon; lat]
  /\ locate (Str (point_text lon lat)) = {| latitude := Some y; longitude := Some x |}.
Proof.
  intros Ha Hb Hx Hy. pose proof (point_tokens_point lon lat Ha Hb) as Ht.
  split; [done|]. by rewrite locate_tokens, Ht, Hx, Hy.
Qed.

Lemma point_is_read_back_witness :
  point_tokens (point_text "-122.33" "47.60") = ["-122.33"; "47.60"]
  /\ locate (Str (point_text "-122.33" "47.60"))
     = {| latitude := Some (Py.Finite (4760 # 100));
          longitude := Some (Py.Finite (-12233 # 100)) |}.
Proof.
  apply (point_is_read_back "-122.33" "47.60"); reflexivity.
Defined.

(* ===================================================================== *)
(** * The clock                                                           *)
(* ===================================================================== *)

(** With the clock before 2020 the edges of the bins do not increase. *)
Lemma pd_cut_early (x : list (option Z)) (current_year : Z) :
  current_year < 2020 ->
  exists msg,
    pd_cut x (year_bins current_year) year_labels true = Raise (ValueError msg).
Proof.
  intros Hcy. unfold pd_cut, year_bins. cbn [non_decreasing increasing].
  destruct (Z.leb_spec 2020 (current_year + 1)).
  - replace (2020 <? current_year + 1) with false by (symmetry; apply Z.ltb_ge; lia).
    simpl. by eexists.
  - simpl. by eexists.
Qed.

(** Cleaning up to the decade, which does not read the clock. *)
Lemma cleaning_steps_early (rs : list Source) :
  exists (df1 df2 : DataFrame Row) (f : Source -> Row),
    frame_step _handle_missing_values
               (copy {| columns := dataset_columns; rows := rs |}) df1
    /\ frame_step _encode_categorical_variables df1 df2
    /\ frame_step
         (when_column "Model Year" (fun df =>
            set_column "Model_Decade" set_Model_Decade
                       (map decade (col (fun r : Row => Model_Year r) df))))
         df2
         {| columns := dataset_columns ++ ["EV_Type_Code"; "CAFV_Code"; "Model_Decade"];
            rows := map f rs |}.
Proof.
  do 3 eexists. split; [|split].
  - unfold _handle_missing_values, categorical_cols, geo_cols, for_each, copy.
    cbn [rows columns]. frame_steps.
  - unfold _encode_categorical_variables. frame_steps.
  - frame_steps.
Qed.

(** X29.  The bins of the year category end at the year after the run.
    With the clock before 2020 they do not increase, and Clean/Transform on
    a documented source raises a [ValueError] whatever the records (also
    without any): the cleaned frame is left half made, with the codes and
    the decade and without the year category and the hashed identifier,
    and [main] ends with that exception, every database and exported file
    being as it was. *)
Theorem early_clock_breaks_the_binning (export_csv : bool) (current_year : Z)
    (raw : DataFrame Source) (w : World) :
  documented raw -> current_year < 2020 ->
  exists msg df,
    clean_and_transform current_year (set_raw_data (Some raw) (init url))
    = (Raise (ValueError msg),
       set_cleaned_data (Some df) (set_raw_data (Some raw) (init url)))
    /\ length (rows df) = length (rows raw)
    /\ has_column "Model_Decade" df = true
    /\ has_column "Year_Category" df = false
    /\ has_column "VIN_Hash" df = false
    /\ main export_csv (Ok raw) current_year w = (Raise (ValueError msg), w).
Proof.
  intros Hdoc Hcy. destruct raw as [C rs]. unfold documented in Hdoc.
  simpl in Hdoc. subst C.
  destruct (cleaning_steps_early rs) as (df1 & df2 & f & H1 & H2 & H3).
  destruct (pd_cut_early (map (fun r : Row => Model_Year r) (map f rs)) current_year Hcy)
    as [msg Hmsg].
  exists msg,
    {| columns := dataset_columns ++ ["EV_Type_Code"; "CAFV_Code"; "Model_Decade"];
       rows := map f rs |}.
  set (raw := {| columns := dataset_columns; rows := rs |}).
  assert (clean_and_transform current_year (set_raw_data (Some raw) (init url))
          = (Raise (ValueError msg),
             set_cleaned_data
               (Some {| columns := dataset_columns
                                   ++ ["EV_Type_Code"; "CAFV_Code"; "Model_Decade"];
                        rows := map f rs |})
               (set_raw_data (Some raw) (init url)))) as Hclean.
  { unfold clean_and_transform. rewrite run_get. cbn [raw_data set_raw_data].
    rewrite run_modify.
    rewrite (run_frame_step _ _ _ _ _ H1) by reflexivity.
    rewrite (run_frame_step _ _ _ _ _ H2) by reflexivity.
    apply run_bind_raise. unfold _create_derived_fields.
    rewrite (run_frame_step _ _ _ _ _ H3) by reflexivity.
    apply run_bind_raise.
    erewrite run_when_column; [|reflexivity|reflexivity].
    apply run_bind_raise. unfold col. cbn [rows]. by rewrite Hmsg. }
  split; [exact Hclean|]. split; [unfold raw; cbn [rows]; by rewrite length_map|].
  do 3 (split; [reflexivity|]).
  rewrite main_stages. unfold stages.
  rewrite (run_bind _ _ (init url) (set_raw_data (Some raw) (init url)) raw) by done.
  assert (explore_data (set_raw_data (Some raw) (init url))
          = (Ok tt, set_raw_data (Some raw) (init url))) as Hexp by reflexivity.
  rewrite (run_bind _ _ _ _ _ Hexp).
  by rewrite (run_bind_raise _ _ _ _ _ Hclean).
Qed.

Lemma early_clock_breaks_the_binning_witness :
  exists msg df,
    clean_and_transform 2019 (set_raw_data (Some header_only) (init url))
    = (Raise (ValueError msg),
       set_cleaned_data (Some df) (set_raw_data (Some header_only) (init url)))
    /\ length (rows df) = length (rows header_only)
    /\ has_column "Model_Decade" df = true
    /\ has_column "Year_Category" df = false
    /\ has_column "VIN_Hash" df = false
    /\ main false (Ok header_only) 2019 empty_world = (Raise (ValueError msg), empty_world).
Proof.
  apply (early_clock_breaks_the_binning false 2019 header_only empty_world);
    [reflexivity|lia].
Defined.

(** X30.  On a documented source without a record, in a world that does
    not stand in its way, the run fails in the report, after the load:
    [main] ends with a [ZeroDivisionError], and the warehouse has been
    written, its five tables being there and empty. *)
Theorem empty_source_fails_after_the_load (export_csv : bool) (current_year : Z)
    (raw : DataFrame Source) (w : World) :
  documented raw -> 2020 <= current_year -> hospitable w -> rows raw = [] ->
  exists db,
    (main export_csv (Ok raw) current_year w).1
    = Raise (ZeroDivisionError "division by zero")
    /\ databases (main export_csv (Ok raw) current_year w).2 !! "ev_data_warehouse.db"
       = Some db
    /\ Forall (fun name => table_len <$> tables db !! name = Some 0%nat) table_names.
Proof.
  intros Hdoc Hcy _ Hnil.
  destruct (run_main export_csv current_year raw w Hdoc Hcy) as (df & Hclean & _ & ->).
  destruct (cleaning_keeps_rows current_year (set_raw_data (Some raw) (init url)) raw
              eq_refl Hdoc Hcy) as (df' & Hclean' & Hlen).
  rewrite Hclean in Hclean'. injection Hclean' as <-.
  rewrite Hnil in Hlen. apply nil_length_inv in Hlen.
  eexists. cbn [fst snd databases]. split; [|split; [apply lookup_insert_eq|]].
  - unfold generate_summary_report. rewrite run_get.
    cbn [cleaned_data raw_data set_fact_table set_dimension_tables set_cleaned_data
         set_raw_data init].
    by rewrite Hlen, Hnil.
  - cbn [tables]. rewrite Hlen. unfold table_names, dimension_names.
    repeat constructor; by rewrite lookup_load_tables.
Qed.

Lemma empty_source_fails_after_the_load_witness :
  exists db,
    (main false (Ok header_only) 2025 empty_world).1
    = Raise (ZeroDivisionError "division by zero")
    /\ databases (main false (Ok header_only) 2025 empty_world).2 !! "ev_data_warehouse.db"
       = Some db
    /\ Forall (fun name => table_len <$> tables db !! name = Some 0%nat) table_names.
Proof.
  apply (empty_source_fails_after_the_load false 2025 header_only empty_world);
    [reflexivity|lia|split; [split; intros; reflexivity|reflexivity]|reflexivity].
Defined.
